(** * BlueKing IAM: policy decision and retrieval core

    A shallow embedding of the Go sources of the repository, and the
    properties of the specification that are stated about them.

    Layout: the definitions come first, one module per Go package or
    concern ([Errors], [Types], [Translate], [Condition], [Util],
    [EffectSubject], [GoDefer], [PolicyCurd], [SubjectService], [PDP]); the
    lemmas and theorems follow in the second half of the file.

    Integers are [int64] in Go and [Z] here: the code compares them and
    never computes with them, so nothing wraps around. *)

From stdpp Require Import gmap strings list fin_maps.
From Stdlib Require Import ZArith Lia.

Set Warnings "-register-all".

Open Scope string_scope.
Open Scope list_scope.

(* ===================================================================== *)
(** * Part I: definitions                                                 *)
(* ===================================================================== *)

(** ** Go errors

    [errorx] wraps an error with a layer, a function name and a message;
    [errors.Is] looks through the wrapping. The sentinels are the package
    level [errors.New] values of the sources. *)
Module Errors.

Inductive error : Type :=
| sqlErrNoRows                      (* database/sql: sql.ErrNoRows *)
| ErrNoPolicies                     (* pdp: "no policies" *)
| ErrInvalidAction                  (* pdp: "action.id invalid" *)
| ErrSubjectNotExists               (* pdp: "subject not exists" *)
| ErrInvalidActionResource          (* pdp: "validateActionResource fail" *)
| ErrActionNotExists                (* prp: "action not exists" *)
| ErrorNew (msg : string)           (* any other errors.New / fmt.Errorf *)
| Wrapf (layer function : string) (cause : error).

#[global] Instance error_eq_dec : EqDecision error.
Proof. solve_decision. Defined.

(** [errorx.NewLayerFunctionErrorWrapf layer function] applied to an error. *)
Definition errorWrapf (layer function : string) (err : error) : error :=
  Wrapf layer function err.

(** [errors.Is err target]. *)
Fixpoint errors_Is (err target : error) : bool :=
  if bool_decide (err = target) then true
  else match err with
       | Wrapf _ _ cause => errors_Is cause target
       | _ => false
       end.

(** A Go pair [(value, error)] of which exactly one side is meaningful. *)
Inductive Result (A : Type) : Type :=
| Ok (a : A)
| Err (e : error).
Arguments Ok {A} a.
Arguments Err {A} e.

End Errors.
Import Errors.

(** ** Package [abac/types]: the records the packages share *)
Module Types.

(** [types.AuthPolicy]: what evaluation and translation need of a policy. *)
Record AuthPolicy : Type := {
  ap_ID : Z;
  ap_Expression : string;
  ap_ExpiredAt : Z;
}.

(** [types.ActionResourceType]: a resource type an action binds. *)
Record ActionResourceType : Type := {
  art_System : string;
  art_Type : string;
}.

(** [types.SubjectGroup]: a group of a subject, with the expiry of the
    membership. *)
Record SubjectGroup : Type := {
  sg_PK : Z;
  sg_PolicyExpiredAt : Z;
}.

End Types.
Import Types.

(** ** Package [translate]: the public expression tree *)
Module Translate.

(** A primitive JSON value of a policy. *)
Inductive Prim : Type :=
| PStr (s : string)
| PInt (n : Z)
| PBool (b : bool).

(** The ["value"] of a cell: a primitive or a list of primitives. *)
Inductive Value : Type :=
| VOne (p : Prim)
| VMany (ps : list Prim).

(** [ExprCell] is [map[string]interface{}] in Go, with the keys ["op"],
    ["field"], ["value"] for a leaf and ["op"], ["content"] for AND/OR. *)
Inductive ExprCell : Type :=
| Leaf (op field : string) (value : Value)
| Node (op : string) (content : list ExprCell).

Definition Op (e : ExprCell) : string :=
  match e with Leaf op _ _ => op | Node op _ => op end.

Definition Field (e : ExprCell) : string :=
  match e with Leaf _ field _ => field | Node _ _ => "" end.

(** The values a leaf contributes to a merged [in]: an [eq] carries one
    value, an [in] a list. *)
Definition leafValues (e : ExprCell) : list Prim :=
  match e with
  | Leaf _ _ (VOne p) => [p]
  | Leaf _ _ (VMany ps) => ps
  | Node _ _ => []
  end.

(** A leaf whose op is [eq] or [in]. *)
Definition isMergeable (e : ExprCell) : bool :=
  match e with
  | Leaf op _ _ => bool_decide (op = "eq") || bool_decide (op = "in")
  | Node _ _ => false
  end.

(** The leaves collected per field, in the order the fields are first met. *)
Definition Groups : Type := list (string * list ExprCell).

Fixpoint addToGroup (field : string) (e : ExprCell) (gs : Groups) : Groups :=
  match gs with
  | [] => [(field, [e])]
  | (f, es) :: gs' =>
      if bool_decide (f = field) then (f, es ++ [e]) :: gs'
      else (f, es) :: addToGroup field e gs'
  end.

(** One pass over the content: the leaves that cannot be merged are
    appended to the new content, the others are collected per field. *)
Definition splitStep (acc : list ExprCell * Groups) (e : ExprCell)
  : list ExprCell * Groups :=
  if isMergeable e then (acc.1, addToGroup (Field e) e acc.2)
  else (acc.1 ++ [e], acc.2).

Definition splitContent (content : list ExprCell) : list ExprCell * Groups :=
  foldl splitStep ([], []) content.

(** A field met once keeps its leaf; a field met several times becomes one
    [in] leaf with the values concatenated in input order. *)
Definition collapse (g : string * list ExprCell) : ExprCell :=
  match g.2 with
  | [e] => e
  | es => Leaf "in" g.1 (VMany (concat (map leafValues es)))
  end.

(** Modelled from the spec: [mergeContentField] of package [translate] is
    not among the sources, only its unit tests are (expression_test.go,
    Describe "mergeContentField"). The spec (4.B, invariant 1) gives the
    collapsing of the [eq]/[in] leaves of one field into a single [in] with
    the concatenated values, duplicates kept, and the stable order of the
    other leaves. Where the merged leaves go is taken from the unit tests
    "ok, merge part" and "ok, merge part 2", whose expected content has the
    AND cell first and the merged [in] leaf after it. The leaves of
    different fields come out in the order the fields are first met, the
    deterministic order the spec asks for (the unit test "ok, multiple
    policy" accepts this order and the opposite one). *)
Definition mergeContentField (content : list ExprCell) : list ExprCell :=
  let '(newContent, groups) := splitContent content in
  newContent ++ map collapse groups.

(** The reading of the spec sentence "the merged leaf takes the position of
    the first mergeable entry": the content is walked once, the first leaf
    of a field is replaced by the merge of all the leaves of that field,
    the later ones are dropped. *)
Definition sameField (f : string) (e : ExprCell) : bool :=
  isMergeable e && bool_decide (Field e = f).

Fixpoint mergeAtFirstEntry (seen : list string) (content : list ExprCell)
  : list ExprCell :=
  match content with
  | [] => []
  | e :: rest =>
      if isMergeable e then
        if bool_decide (Field e ∈ seen) then mergeAtFirstEntry seen rest
        else collapse (Field e, e :: List.filter (sameField (Field e)) rest)
             :: mergeAtFirstEntry (Field e :: seen) rest
      else e :: mergeAtFirstEntry seen rest
  end.

(** The fields of the mergeable leaves, each once, in first-seen order. *)
Definition firstSeen (fs : list string) : list string :=
  foldl (fun acc f => if bool_decide (f ∈ acc) then acc else acc ++ [f]) [] fs.

Definition mergeableFields (content : list ExprCell) : list string :=
  firstSeen (map Field (List.filter isMergeable content)).

Definition notMergeable (e : ExprCell) : bool := negb (isMergeable e).

(** The mergeable leaves of a content, per field. *)
Definition groupsOf (content : list ExprCell) : Groups :=
  map (fun f => (f, List.filter (sameField f) content)) (mergeableFields content).

(** *** Translation of the stored expression of a policy *)

(** An element [{system, type, expression}] of a stored expression; [Cond]
    is the decoded condition. *)
Record ResourceExpression (Cond : Type) : Type := {
  re_System : string;
  re_Type : string;
  re_Expression : Cond;
}.
Arguments re_System {Cond} _.
Arguments re_Type {Cond} _.
Arguments re_Expression {Cond} _.

(** The universal cell [{"op": "any", "field": "", "value": []}]. *)
Definition anyExpr : ExprCell := Leaf "any" "" (VMany []).

(** The key of a resource type in the [util.StringSet] of requested types,
    as the unit tests build it: ["bk_cmdb:host"]. *)
Definition resourceTypeKey (system type : string) : string :=
  String.append system (String.append ":" type).

Definition resourceTypeSet (rts : list ActionResourceType) : gset string :=
  list_to_set (map (fun rt => resourceTypeKey (art_System rt) (art_Type rt)) rts).

Section Translation.

Context {Cond : Type}.
(** [jsoniter.UnmarshalFromString] into [[]ResourceExpression]. *)
Variable unmarshal : string → option (list (ResourceExpression Cond)).
(** The translation of one condition tree, for a resource type; it fails
    on an operator it does not know. *)
Variable singleTranslate : Cond → string → Result ExprCell.

(** The elements of requested types, translated in order; the first
    failure aborts. The others are dropped without being translated. *)
Fixpoint translateRequested (exprs : list (ResourceExpression Cond))
    (requested : gset string) : Result (list ExprCell) :=
  match exprs with
  | [] => Ok []
  | x :: rest =>
      if bool_decide (resourceTypeKey (re_System x) (re_Type x) ∈ requested) then
        match singleTranslate (re_Expression x) (re_Type x) with
        | Err e => Err e
        | Ok c =>
            match translateRequested rest requested with
            | Err e => Err e
            | Ok cs => Ok (c :: cs)
            end
        end
      else translateRequested rest requested
  end.

(** Modelled from the spec: [PolicyTranslate] of package [translate] is not
    among the sources, only its unit tests are. Spec 4.B, "Policy to
    ExprCell": the empty string and ["[]"] are [any]; else the JSON array
    is parsed, the elements of requested types are translated and the
    others dropped; no element left gives [any], one gives its tree,
    several are wrapped in AND. *)
Definition PolicyTranslate (resourceExpression : string)
    (requested : gset string) : Result ExprCell :=
  if bool_decide (resourceExpression = "") || bool_decide (resourceExpression = "[]")
  then Ok anyExpr
  else
    match unmarshal resourceExpression with
    | None => Err (ErrorNew "unmarshal resourceExpression fail")
    | Some exprs =>
        match translateRequested exprs requested with
        | Err e => Err e
        | Ok [] => Ok anyExpr
        | Ok [c] => Ok c
        | Ok content => Ok (Node "AND" content)
        end
    end.

Fixpoint translateAll (policies : list AuthPolicy) (requested : gset string)
  : Result (list ExprCell) :=
  match policies with
  | [] => Ok []
  | p :: rest =>
      match PolicyTranslate (ap_Expression p) requested with
      | Err e => Err e
      | Ok c =>
          match translateAll rest requested with
          | Err e => Err e
          | Ok cs => Ok (c :: cs)
          end
      end
  end.

(** Modelled from the spec: [PoliciesTranslate] of package [translate] is
    not among the sources. Spec 4.B, "Policies (list) to ExprCell": every
    policy is translated, the trees are combined with OR at the root, the
    content is merged ([mergeContentField]) and an OR of one child is
    replaced by the child. *)
Definition PoliciesTranslate (policies : list AuthPolicy)
    (resourceTypes : list ActionResourceType) : Result ExprCell :=
  match translateAll policies (resourceTypeSet resourceTypes) with
  | Err e => Err e
  | Ok content =>
      match mergeContentField content with
      | [c] => Ok c
      | merged => Ok (Node "OR" merged)
      end
  end.

(** A stored expression that binds no requested resource type: the empty
    string, ["[]"], or an array none of whose elements is of a requested
    type. *)
Definition bindsNoRequestedType (resourceExpression : string)
    (requested : gset string) : Prop :=
  resourceExpression = "" ∨ resourceExpression = "[]"
  ∨ ∃ exprs, unmarshal resourceExpression = Some exprs
             ∧ Forall (fun x => resourceTypeKey (re_System x) (re_Type x) ∉ requested) exprs.

End Translation.

(** A decoder for the examples: it knows one stored expression, the one of
    the unit test "ok, resourceTypeSet not match, return any", whose
    condition is kept as text (the quotes of the JSON text are written as
    single quotes here). *)
Definition hostExpression : string :=
  "[{'system': 'bk_cmdb', 'type': 'host', 'expression': {'OR': {'content': [{'StringEquals': {'id': ['abc']}}]}}}]".

Definition exampleUnmarshal (s : string) : option (list (ResourceExpression string)) :=
  if bool_decide (s = hostExpression)
  then Some [ {| re_System := "bk_cmdb"; re_Type := "host";
                 re_Expression := "{'OR': {'content': [{'StringEquals': {'id': ['abc']}}]}}" |} ]
  else None.

Definition exampleSingleTranslate (cond type : string) : Result ExprCell :=
  Ok (Node "OR" [Leaf "eq" (String.append type ".id") (VOne (PStr "abc"))]).

End Translate.

(** ** Package [condition]: the condition algebra *)
Module Condition.
Import Translate.

(** What [GetAttr] returns: a primitive or a list of primitives. *)
Inductive AttrValue : Type :=
| AOne (p : Prim)
| AMany (ps : list Prim).

(** [types.AttributeGetter] (pkg/abac/pdp/types/attribute_getter.go). *)
Record AttributeGetter : Type := {
  GetFullNameAttr : string → Result AttrValue;
  GetAttr : string → Result AttrValue;
}.

(** [baseCondition]: the key and the configured values of a leaf. *)
Record baseCondition : Type := {
  Key : string;
  Value : list Prim;
}.

(** Modelled from the spec: [forOr] of package [condition] is not among the
    sources, only its unit tests are (Describe "forOr"). Spec 4.A: a failed
    attribute fetch makes the leaf false; a list attribute is true when one
    of its elements satisfies the operator against one configured value, a
    scalar attribute when it does itself. *)
Definition forOr (c : baseCondition) (ctx : AttributeGetter)
    (fn : Prim → Prim → bool) : bool :=
  match GetAttr ctx (Key c) with
  | Err _ => false
  | Ok (AMany vs) => existsb (fun av => existsb (fn av) (Value c)) vs
  | Ok (AOne a) => existsb (fn a) (Value c)
  end.

Inductive Operator : Type :=
| StringEquals | StringPrefix | StringContains
| NumericEquals | NumericGt | NumericGte | NumericLt | NumericLte
| Bool_ | Any | StartsWith | EndsWith.

Fixpoint contains (s sub : string) : bool :=
  String.prefix sub s
  || match s with
     | EmptyString => false
     | String _ s' => contains s' sub
     end.

Definition onStrings (f : string → string → bool) (a v : Prim) : bool :=
  match a, v with PStr x, PStr y => f x y | _, _ => false end.

Definition onNumbers (f : Z → Z → bool) (a v : Prim) : bool :=
  match a, v with PInt x, PInt y => f x y | _, _ => false end.

(** Modelled from the spec: the relation of each leaf operator between the
    attribute and one configured value (spec 4.A); a type mismatch is
    false (spec 9). *)
Definition operatorFn (op : Operator) (a v : Prim) : bool :=
  match op with
  | StringEquals => onStrings String.eqb a v
  | StringPrefix | StartsWith => onStrings (fun x y => String.prefix y x) a v
  | StringContains => onStrings contains a v
  | EndsWith => onStrings (fun x y => String.prefix (String.rev y) (String.rev x)) a v
  | NumericEquals => onNumbers Z.eqb a v
  | NumericGt => onNumbers Z.gtb a v
  | NumericGte => onNumbers Z.geb a v
  | NumericLt => onNumbers Z.ltb a v
  | NumericLte => onNumbers Z.leb a v
  | Bool_ => match a, v with PBool x, PBool y => Bool.eqb x y | _, _ => false end
  | Any => true
  end.

(** The condition tree: a leaf [{Op: {key: values}}] or an AND/OR of
    conditions. *)
Inductive Condition : Type :=
| CLeaf (op : Operator) (c : baseCondition)
| CAnd (content : list Condition)
| COr (content : list Condition).

(** Modelled from the spec: [Eval] of the conditions (spec 4.A). [Any] is
    true whatever the attribute is and fetches nothing; the other leaves go
    through [forOr]; AND is true when no child is false, OR when one child
    is true, both stopping at the first child that decides. *)
Fixpoint Eval (ctx : AttributeGetter) (c : Condition) : bool :=
  match c with
  | CLeaf Any _ => true
  | CLeaf op b => forOr b ctx (operatorFn op)
  | CAnd content => forallb (Eval ctx) content
  | COr content => existsb (Eval ctx) content
  end.

(** Modelled from the spec: the context of the current resource is not
    among the sources. Spec 4.C and 4.D: [GetAttr] reads the attribute map
    of the resource, and an attribute that the map does not have cannot be
    fetched. [full] stands for [GetFullNameAttr]. *)
Definition resourceCtx (full : string → Result AttrValue)
    (attribute : gmap string AttrValue) : AttributeGetter :=
  {| GetFullNameAttr := full;
     GetAttr := fun name =>
       match attribute !! name with
       | Some v => Ok v
       | None => Err (ErrorNew "missing key")
       end |}.

(** The contexts of the unit tests of [forOr]. *)
Definition ctx (n : Z) : AttributeGetter :=
  {| GetFullNameAttr := fun _ => Ok (AOne (PStr "test"));
     GetAttr := fun _ => Ok (AOne (PInt n)) |}.

Definition listCtx (l : list Prim) : AttributeGetter :=
  {| GetFullNameAttr := fun _ => Ok (AOne (PStr "test"));
     GetAttr := fun _ => Ok (AMany l) |}.

Definition errCtx : AttributeGetter :=
  {| GetFullNameAttr := fun _ => Err (ErrorNew "missing key");
     GetAttr := fun _ => Err (ErrorNew "missing key") |}.

Definition testCondition : baseCondition :=
  {| Key := "key"; Value := [PInt 1; PInt 2] |}.

(** The leaf [{"StringEquals": {"id": ["a"]}}]. *)
Definition idCondition : baseCondition :=
  {| Key := "id"; Value := [PStr "a"] |}.

#[global] Instance Prim_eq_dec : EqDecision Prim.
Proof. solve_decision. Defined.

(** The [fn] of the unit tests: Go's [a == b]. *)
Definition testFn (a b : Prim) : bool := bool_decide (a = b).

End Condition.

(** ** Package [util]: sets of int64 and of strings

    [util.Int64Set] and [util.StringSet] are Go maps used as sets;
    [ToSlice] ranges over the map, in an order Go leaves open. They are
    [gset]s here, and [ToSlice] is [elements], of which only the members
    and the absence of duplicates are known. *)
Module Util.

Definition Int64Set : Type := gset Z.
Definition NewInt64Set : Int64Set := ∅.
Definition NewFixedLengthInt64Set (length : nat) : Int64Set := ∅.
Definition Add (s : Int64Set) (x : Z) : Int64Set := {[ x ]} ∪ s.
Definition Append (s : Int64Set) (xs : list Z) : Int64Set := foldl Add s xs.
Definition ToSlice (s : Int64Set) : list Z := elements s.
Definition Size (s : Int64Set) : nat := size s.

(** A Go map read [m[k]] of an int64: zero when the key is absent. *)
Definition mapGet `{Countable K} (m : gmap K Z) (k : K) : Z := default 0%Z (m !! k).

End Util.

(** ** Package [prp]: the effective subjects (src/unnamed/part_000) *)
Module EffectSubject.
Import Util.

Definition PRP : string := "PRP".

(** [types.Subject]. The attributes are filled by the PIP; reading one
    that is not there is an error. *)
Record SubjectAttribute : Type := {
  attr_pk : option Z;
  attr_groups : option (list SubjectGroup);
  attr_departments : option (list Z);
}.

Record Subject : Type := {
  subj_Type : string;
  subj_ID : string;
  subj_Attribute : SubjectAttribute;
}.

Definition GetPK (a : SubjectAttribute) : Result Z :=
  match attr_pk a with
  | Some pk => Ok pk
  | None => Err (ErrorNew "key pk not exists")
  end.

Definition GetDepartmentPKs (subject : Subject) : Result (list Z) :=
  match attr_departments (subj_Attribute subject) with
  | Some pks => Ok pks
  | None => Err (ErrorNew "key department not exists")
  end.

(** Modelled from the spec: [Subject.GetEffectGroupPKs] is not among the
    sources. Spec 4.F, step 1: the groups of the subject whose
    [policy_expired_at] is greater than now, in the order of the list. *)
Definition GetEffectGroupPKs (now : Z) (subject : Subject) : Result (list Z) :=
  match attr_groups (subj_Attribute subject) with
  | Some groups =>
      Ok (map sg_PK (List.filter (fun g => (now <? sg_PolicyExpiredAt g)%Z) groups))
  | None => Err (ErrorNew "key group not exists")
  end.

Section getEffectSubjectPKs.

(** [impls.ListSubjectEffectGroups]: the groups the departments are in. *)
Variable ListSubjectEffectGroups : list Z → Result (list SubjectGroup).
(** [time.Now().Unix()]. *)
Variable now : Z.

(** The loop over [subjectGroups]: the pks still valid go into the set. *)
Definition inheritStep (set : Int64Set) (sg : SubjectGroup) : Int64Set :=
  if (now <? sg_PolicyExpiredAt sg)%Z then Add set (sg_PK sg) else set.

Definition inheritGroupPKSetOf (deptPKs : list Z) : Result Int64Set :=
  match deptPKs with
  | [] => Ok NewInt64Set
  | _ :: _ =>
      match ListSubjectEffectGroups deptPKs with
      | Err newErr => Err (errorWrapf PRP "getEffectSubjectPKs" newErr)
      | Ok subjectGroups => Ok (foldl inheritStep NewInt64Set subjectGroups)
      end
  end.

Definition getEffectSubjectPKs (subject : Subject) : Result (list Z) :=
  match GetPK (subj_Attribute subject) with
  | Err err => Err (errorWrapf PRP "getEffectSubjectPKs" err)
  | Ok subjectPK =>
  match GetEffectGroupPKs now subject with
  | Err err => Err (errorWrapf PRP "getEffectSubjectPKs" err)
  | Ok groupPKs =>
  match GetDepartmentPKs subject with
  | Err err => Err (errorWrapf PRP "getEffectSubjectPKs" err)
  | Ok deptPKs =>
  match inheritGroupPKSetOf deptPKs with
  | Err err => Err err
  | Ok inheritGroupPKSet =>
      let inheritGroupPKs := ToSlice inheritGroupPKSet in
      let groupPKMaxLen := (length groupPKs + length inheritGroupPKs)%nat in
      let groupPKSet :=
        Append (Append (NewFixedLengthInt64Set groupPKMaxLen) groupPKs)
               inheritGroupPKs in
      Ok ([subjectPK] ++ ToSlice groupPKSet)
  end end end end.

End getEffectSubjectPKs.

(** A group whose membership has not expired. *)
Definition validGroupPK (now : Z) (groups : list SubjectGroup) (pk : Z) : Prop :=
  ∃ g, g ∈ groups ∧ sg_PK g = pk ∧ (sg_PolicyExpiredAt g > now)%Z.

(** The subject of the examples: pk 1, in the groups 10 (valid) and 11
    (expired), in the department 5, which is in the groups 10 and 12
    (valid) and 13 (expired); now is 100. *)
Definition exampleSubject : Subject :=
  {| subj_Type := "user"; subj_ID := "u1";
     subj_Attribute :=
       {| attr_pk := Some 1%Z;
          attr_groups := Some [ {| sg_PK := 10; sg_PolicyExpiredAt := 200 |};
                                {| sg_PK := 11; sg_PolicyExpiredAt := 50 |} ];
          attr_departments := Some [5%Z] |} |}.

Definition exampleDepartmentGroups : list SubjectGroup :=
  [ {| sg_PK := 10; sg_PolicyExpiredAt := 300 |};
    {| sg_PK := 12; sg_PolicyExpiredAt := 300 |};
    {| sg_PK := 13; sg_PolicyExpiredAt := 10 |} ].

Definition exampleListSubjectEffectGroups (deptPKs : list Z)
  : Result (list SubjectGroup) := Ok exampleDepartmentGroups.

End EffectSubject.

(** ** Go functions with deferred calls

    A function body runs on the caches and on a history of the writes; a
    [defer] pushes a call that runs when the function returns, the last
    deferred first, on every path that leaves the function after it. *)
Module GoDefer.

Section Frames.
Context {World : Type}.

Definition Deferred : Type := World → World.

Record Frame : Type := {
  world : World;
  deferred : list Deferred;       (* the most recent first *)
}.

Definition Go (A : Type) : Type := Frame → A * Frame.

Definition ret {A} (a : A) : Go A := fun fr => (a, fr).

Definition bind {A B} (m : Go A) (k : A → Go B) : Go B :=
  fun fr => let '(a, fr') := m fr in k a fr'.

(** [defer f(args)]: the arguments are evaluated now, the call runs later. *)
Definition defer (d : Deferred) : Go unit :=
  fun fr => (tt, {| world := world fr; deferred := d :: deferred fr |}).

(** A call that reads or changes the world. *)
Definition perform {A} (f : World → A * World) : Go A :=
  fun fr => let '(a, w) := f (world fr) in
            (a, {| world := w; deferred := deferred fr |}).

(** Calling a function: its body, then its deferred calls. *)
Definition call {A} (body : Go A) (w : World) : A * World :=
  let '(a, fr) := body {| world := w; deferred := [] |} in
  (a, foldl (fun w d => d w) (world fr) (deferred fr)).

End Frames.

Arguments Frame : clear implicits.
Arguments Go : clear implicits.
Arguments Deferred : clear implicits.

Notation "'go' x <- m ;; k" := (bind m (fun x => k))
  (at level 10, x name, m at level 99, k at level 200).

End GoDefer.

(** ** Package [prp]: the writes of policies (src/pkg/abac/prp/policy_curd.go) *)
Module PolicyCurd.
Import GoDefer Util.

Definition PRP : string := "PRP".

(** [types.Policy], with [Action.ID] flattened. *)
Record Policy : Type := {
  p_Version : string;
  p_ID : Z;
  p_ActionID : string;
  p_Expression : string;
  p_ExpiredAt : Z;
  p_TemplateID : Z;
}.

(** [svctypes.Policy]. *)
Record ServicePolicy : Type := {
  sp_Version : string;
  sp_ID : Z;
  sp_SubjectPK : Z;
  sp_ActionPK : Z;
  sp_Expression : string;
  sp_ExpiredAt : Z;
  sp_TemplateID : Z;
}.

(** [types.PolicyPKExpiredAt]. *)
Record PolicyPKExpiredAt : Type := {
  pe_PK : Z;
  pe_ExpiredAt : Z;
}.

(** [svctypes.QueryPolicy], the fields the code reads. *)
Record QueryPolicy : Type := {
  qp_PK : Z;
  qp_SubjectPK : Z;
  qp_ActionPK : Z;
  qp_ExpressionPK : Z;
  qp_ExpiredAt : Z;
}.

(** [svctypes.ThinAction]. *)
Record ThinAction : Type := {
  ta_PK : Z;
  ta_System : string;
  ta_ID : string;
}.

(** The services of [policyManager]. The storage is behind them: a read
    gives its rows or an error, a write commits ([None]) or fails. *)
Record Services : Type := {
  subjectService_GetPK : string → string → Result Z;
  actionService_ListThinActionBySystem : string → Result (list ThinAction);
  (* the [ActionID] of every returned row *)
  actionService_ListActionResourceTypeIDByActionSystem : string → Result (list string);
  actionService_ListThinActionByPKs : list Z → Result (list ThinAction);
  policyService_ListQueryByPKs : list Z → Result (list QueryPolicy);
  policyService_DeleteByPKs : Z → list Z → option error;
  policyService_AlterCustomPolicies :
    Z → list ServicePolicy → list ServicePolicy → list Z → gset Z → Result (list Z);
  policyService_CreateAndDeleteTemplatePolicies :
    Z → Z → list ServicePolicy → list Z → gset Z → option error;
  policyService_UpdateTemplatePolicies : Z → list ServicePolicy → gset Z → option error;
  policyService_DeleteTemplatePolicies : Z → Z → option error;
  policyService_UpdateExpiredAt : list QueryPolicy → option error;
}.

(** The writes of [policyService], with their arguments. *)
Inductive Write : Type :=
| DeleteByPKs (subjectPK : Z) (policyIDs : list Z)
| AlterCustomPoliciesW (subjectPK : Z) (cps ups : list ServicePolicy) (deletePolicyIDs : list Z)
| CreateAndDeleteTemplatePoliciesW (subjectPK templateID : Z) (cps : list ServicePolicy)
    (deletePolicyIDs : list Z)
| UpdateTemplatePoliciesW (subjectPK : Z) (ups : list ServicePolicy)
| DeleteTemplatePoliciesW (subjectPK templateID : Z)
| UpdateExpiredAt (policies : list QueryPolicy).

(** What happened, in order: a storage write with its outcome, and the
    invalidations of the caches. *)
Inductive Event : Type :=
| StorageWrite (w : Write) (committed : bool)
| PolicyCacheInvalidated (system : string) (subjectPKs : list Z)
| ExpressionCacheInvalidated (expressionPKs : list Z).

(** The caches (spec 4.E): the policy cache from [(system, subject_pk,
    action_pk)] to expression pks, the expression cache from expression pk
    to the expression; and the history. *)
Record World : Type := {
  policyCache : gmap (string * Z * Z) (list Z);
  expressionCache : gmap Z string;
  history : list Event;
}.

Definition committed (outcome : option error) : bool :=
  match outcome with None => true | Some _ => false end.

Definition resultCommitted {A} (outcome : Result A) : bool :=
  match outcome with Ok _ => true | Err _ => false end.

(** A write of [policyService]: the outcome is the one of the service, the
    call is recorded. *)
Definition storageWrite {A} (c : Write) (outcome : A) (ok : bool) : Go World A :=
  perform (fun w =>
    (outcome, {| policyCache := policyCache w;
                 expressionCache := expressionCache w;
                 history := history w ++ [StorageWrite c ok] |})).

(** The entries of the policy cache that an invalidation of [system] and
    [subjectPKs] leaves: those of another system or subject. *)
Definition invalidatePolicies (system : string) (subjectPKs : list Z)
    (cache : gmap (string * Z * Z) (list Z)) : gmap (string * Z * Z) (list Z) :=
  filter (fun kv => ¬ (kv.1.1.1 = system ∧ kv.1.1.2 ∈ subjectPKs)) cache.

(** Modelled from the spec: [policy.DeleteSystemSubjectPKsFromCache] is not
    among the sources. Spec 4.E, "Invalidation": it removes the entries of
    the system for each listed subject, whatever the action. *)
Definition DeleteSystemSubjectPKsFromCache (system : string) (subjectPKs : list Z)
  : Deferred World :=
  fun w => {| policyCache := invalidatePolicies system subjectPKs (policyCache w);
              expressionCache := expressionCache w;
              history := history w ++ [PolicyCacheInvalidated system subjectPKs] |}.

(** Modelled from the spec: [policy.BatchDeleteSystemSubjectPKsFromCache],
    the same for every system of a list. *)
Definition BatchDeleteSystemSubjectPKsFromCache (systems : list string)
    (subjectPKs : list Z) : Deferred World :=
  fun w => foldl (fun w system => DeleteSystemSubjectPKsFromCache system subjectPKs w)
                 w systems.

(** Modelled from the spec: [expression.BatchDeleteExpressionsFromCache]
    drops the listed entries of the expression cache. *)
Definition BatchDeleteExpressionsFromCache (expressionPKs : list Z) : Deferred World :=
  fun w => {| policyCache := policyCache w;
              expressionCache := foldl (fun m pk => delete pk m) (expressionCache w)
                                       expressionPKs;
              history := history w ++ [ExpressionCacheInvalidated expressionPKs] |}.

Fixpoint convertToServicePolicies (subjectPK : Z) (policies : list Policy)
    (actionMap : gmap string Z) : Result (list ServicePolicy) :=
  match policies with
  | [] => Ok []
  | p :: rest =>
      match actionMap !! p_ActionID p with
      | None => Err (errorWrapf PRP "convertServicePolicies" ErrActionNotExists)
      | Some actionPK =>
          match convertToServicePolicies subjectPK rest actionMap with
          | Err e => Err e
          | Ok svcPolicies =>
              Ok ({| sp_Version := p_Version p; sp_ID := p_ID p;
                     sp_SubjectPK := subjectPK; sp_ActionPK := actionPK;
                     sp_Expression := p_Expression p; sp_ExpiredAt := p_ExpiredAt p;
                     sp_TemplateID := p_TemplateID p |} :: svcPolicies)
          end
      end
  end.

Section Manager.
Variable m : Services.

Definition querySubjectActionForAlterPolicies (systemID subjectType subjectID : string)
  : Result (Z * gmap string Z * gset Z) :=
  let wrap := errorWrapf PRP "querySubjectActionForAlterPolicies" in
  match subjectService_GetPK m subjectType subjectID with
  | Err err => Err (wrap err)
  | Ok subjectPK =>
  match actionService_ListThinActionBySystem m systemID with
  | Err err => Err (wrap err)
  | Ok actions =>
      let actionPKMap : gmap string Z :=
        foldl (fun acc a => <[ta_ID a := ta_PK a]> acc) ∅ actions in
      match actionService_ListActionResourceTypeIDByActionSystem m systemID with
      | Err err => Err (wrap err)
      | Ok actionResourceTypes =>
          let actionPKWithResourceTypeSet : gset Z :=
            foldl (fun acc t => {[ mapGet actionPKMap t ]} ∪ acc) ∅ actionResourceTypes in
          Ok (subjectPK, actionPKMap, actionPKWithResourceTypeSet)
      end
  end end.

Definition DeleteByIDs (system subjectType subjectID : string) (policyIDs : list Z)
  : World → option error * World :=
  let wrap := errorWrapf PRP "DeletePoliciesByIDs" in
  call
    match subjectService_GetPK m subjectType subjectID with
    | Err err => ret (Some (wrap err))
    | Ok pk =>
        if (0 <? length policyIDs)%nat then
          go _ <- defer (DeleteSystemSubjectPKsFromCache system [pk]) ;;
          go err <- storageWrite (DeleteByPKs pk policyIDs)
                   (policyService_DeleteByPKs m pk policyIDs)
                   (committed (policyService_DeleteByPKs m pk policyIDs)) ;;
          match err with
          | Some err => ret (Some (wrap err))
          | None => ret None
          end
        else ret None
    end.

Definition AlterCustomPolicies (systemID subjectType subjectID : string)
    (createPolicies updatePolicies : list Policy) (deletePolicyIDs : list Z)
  : World → option error * World :=
  let wrap := errorWrapf PRP "AlterPolicies" in
  call
    match querySubjectActionForAlterPolicies systemID subjectType subjectID with
    | Err err => ret (Some (wrap err))
    | Ok (subjectPK, actionPKMap, actionPKWithResourceTypeSet) =>
    match convertToServicePolicies subjectPK createPolicies actionPKMap with
    | Err err => ret (Some (wrap err))
    | Ok cps =>
    match convertToServicePolicies subjectPK updatePolicies actionPKMap with
    | Err err => ret (Some (wrap err))
    | Ok ups =>
        go _ <- defer (DeleteSystemSubjectPKsFromCache systemID [subjectPK]) ;;
        go r <- storageWrite (AlterCustomPoliciesW subjectPK cps ups deletePolicyIDs)
               (policyService_AlterCustomPolicies m subjectPK cps ups deletePolicyIDs
                  actionPKWithResourceTypeSet)
               (resultCommitted
                  (policyService_AlterCustomPolicies m subjectPK cps ups deletePolicyIDs
                     actionPKWithResourceTypeSet)) ;;
        match r with
        | Err err => ret (Some (wrap err))
        | Ok updatedActionPKExpressionPKs =>
            go _ <- defer (BatchDeleteExpressionsFromCache updatedActionPKExpressionPKs) ;;
            ret None
        end
    end end end.

Definition CreateAndDeleteTemplatePolicies (systemID subjectType subjectID : string)
    (templateID : Z) (createPolicies : list Policy) (deletePolicyIDs : list Z)
  : World → option error * World :=
  let wrap := errorWrapf PRP "CreateAndDeleteTemplatePolicies" in
  call
    match querySubjectActionForAlterPolicies systemID subjectType subjectID with
    | Err err => ret (Some (wrap err))
    | Ok (subjectPK, actionPKMap, actionPKWithResourceTypeSet) =>
    match convertToServicePolicies subjectPK createPolicies actionPKMap with
    | Err err => ret (Some (wrap err))
    | Ok cps =>
        go _ <- defer (DeleteSystemSubjectPKsFromCache systemID [subjectPK]) ;;
        go err <- storageWrite
                 (CreateAndDeleteTemplatePoliciesW subjectPK templateID cps deletePolicyIDs)
                 (policyService_CreateAndDeleteTemplatePolicies m subjectPK templateID cps
                    deletePolicyIDs actionPKWithResourceTypeSet)
                 (committed
                    (policyService_CreateAndDeleteTemplatePolicies m subjectPK templateID
                       cps deletePolicyIDs actionPKWithResourceTypeSet)) ;;
        match err with
        | Some err => ret (Some (wrap err))
        | None => ret None
        end
    end end.

Definition UpdateTemplatePolicies (systemID subjectType subjectID : string)
    (policies : list Policy) : World → option error * World :=
  let wrap := errorWrapf PRP "UpdateTemplatePolicies" in
  call
    match querySubjectActionForAlterPolicies systemID subjectType subjectID with
    | Err err => ret (Some (wrap err))
    | Ok (subjectPK, actionMap, actionPKWithResourceTypeSet) =>
    match convertToServicePolicies subjectPK policies actionMap with
    | Err err => ret (Some (wrap err))
    | Ok ups =>
        go _ <- defer (DeleteSystemSubjectPKsFromCache systemID [subjectPK]) ;;
        go err <- storageWrite (UpdateTemplatePoliciesW subjectPK ups)
                 (policyService_UpdateTemplatePolicies m subjectPK ups
                    actionPKWithResourceTypeSet)
                 (committed
                    (policyService_UpdateTemplatePolicies m subjectPK ups
                       actionPKWithResourceTypeSet)) ;;
        match err with
        | Some err => ret (Some (wrap err))
        | None => ret None
        end
    end end.

Definition DeleteTemplatePolicies (systemID subjectType subjectID : string)
    (templateID : Z) : World → option error * World :=
  let wrap := errorWrapf PRP "DeleteTemplatePolicies" in
  call
    match subjectService_GetPK m subjectType subjectID with
    | Err err => ret (Some (wrap err))
    | Ok subjectPK =>
        go _ <- defer (DeleteSystemSubjectPKsFromCache systemID [subjectPK]) ;;
        go err <- storageWrite (DeleteTemplatePoliciesW subjectPK templateID)
                 (policyService_DeleteTemplatePolicies m subjectPK templateID)
                 (committed (policyService_DeleteTemplatePolicies m subjectPK templateID)) ;;
        match err with
        | Some err => ret (Some (wrap err))
        | None => ret None
        end
    end.

(** [idExpiredAtMap] of [UpdateSubjectPoliciesExpiredAt]. *)
Definition idExpiredAtMapOf (policies : list PolicyPKExpiredAt) : gmap Z Z :=
  foldl (fun acc p => <[pe_PK p := pe_ExpiredAt p]> acc) ∅ policies.

(** The loop over the stored policies: a policy of the subject whose
    expiry is before the supplied one is taken, with the supplied expiry. *)
Definition renewStep (subjectPK : Z) (idExpiredAtMap : gmap Z Z)
    (updatePolicies : list QueryPolicy) (p : QueryPolicy) : list QueryPolicy :=
  if (qp_SubjectPK p =? subjectPK)%Z
     && (qp_ExpiredAt p <? mapGet idExpiredAtMap (qp_PK p))%Z
  then updatePolicies
       ++ [ {| qp_PK := qp_PK p; qp_SubjectPK := qp_SubjectPK p;
               qp_ActionPK := qp_ActionPK p; qp_ExpressionPK := qp_ExpressionPK p;
               qp_ExpiredAt := mapGet idExpiredAtMap (qp_PK p) |} ]
  else updatePolicies.

Definition renewedPolicies (subjectPK : Z) (idExpiredAtMap : gmap Z Z)
    (ps : list QueryPolicy) : list QueryPolicy :=
  foldl (renewStep subjectPK idExpiredAtMap) [] ps.

Definition queryPoliciesSystemSet (policies : list QueryPolicy) : Result (gset string) :=
  let actionPKs := map qp_ActionPK policies in
  match actionService_ListThinActionByPKs m actionPKs with
  | Err err => Err (errorWrapf PRP "RenewExpiredAtByIDs" err)
  | Ok actions => Ok (foldl (fun acc ac => {[ ta_System ac ]} ∪ acc) ∅ actions)
  end.

Definition UpdateSubjectPoliciesExpiredAt (subjectType subjectID : string)
    (policies : list PolicyPKExpiredAt) : World → option error * World :=
  let wrap := errorWrapf PRP "RenewExpiredAtByIDs" in
  call
    match subjectService_GetPK m subjectType subjectID with
    | Err err => ret (Some (wrap err))
    | Ok subjectPK =>
        if (length policies =? 0)%nat then ret None
        else
          let pks := map pe_PK policies in
          let idExpiredAtMap := idExpiredAtMapOf policies in
          match policyService_ListQueryByPKs m pks with
          | Err err => ret (Some (wrap err))
          | Ok ps =>
              let updatePolicies := renewedPolicies subjectPK idExpiredAtMap ps in
              if (length updatePolicies =? 0)%nat then ret None
              else
                match queryPoliciesSystemSet updatePolicies with
                | Err err => ret (Some (wrap err))
                | Ok systemSet =>
                    go _ <- defer (BatchDeleteSystemSubjectPKsFromCache
                                  (elements systemSet) [subjectPK]) ;;
                    go err <- storageWrite (UpdateExpiredAt updatePolicies)
                             (policyService_UpdateExpiredAt m updatePolicies)
                             (committed (policyService_UpdateExpiredAt m updatePolicies)) ;;
                    match err with
                    | Some err => ret (Some (wrap err))
                    | None => ret None
                    end
                end
          end
    end.

End Manager.

(** The world after a write [c] of outcome [ok] followed by the deferred
    invalidation of the policy cache for [system] and [subjectPK]. *)
Definition writtenThenInvalidated (w : World) (c : Write) (ok : bool)
    (system : string) (subjectPK : Z) : World :=
  {| policyCache := invalidatePolicies system [subjectPK] (policyCache w);
     expressionCache := expressionCache w;
     history := history w ++ [StorageWrite c ok; PolicyCacheInvalidated system [subjectPK]] |}.

(** The services of the examples: the subject [user:u1] has pk 1; the
    system [iam] has the action [view], of pk 7; the storage refuses every
    write; the stored policy 100 of subject 1 expires at 500, the policy
    101 of subject 2 at 500. *)
Definition storageDown : error := ErrorNew "storage is down".

Definition storedPolicies : list QueryPolicy :=
  [ {| qp_PK := 100; qp_SubjectPK := 1; qp_ActionPK := 7;
       qp_ExpressionPK := 40; qp_ExpiredAt := 500 |};
    {| qp_PK := 101; qp_SubjectPK := 2; qp_ActionPK := 7;
       qp_ExpressionPK := 41; qp_ExpiredAt := 500 |} ].

(** A renewal to 800 of the policies 100 and 101. *)
Definition exampleRenewal : list PolicyPKExpiredAt :=
  [ {| pe_PK := 100; pe_ExpiredAt := 800 |}; {| pe_PK := 101; pe_ExpiredAt := 800 |} ].

Definition failingServices : Services :=
  {| subjectService_GetPK := fun _ _ => Ok 1%Z;
     actionService_ListThinActionBySystem := fun _ =>
       Ok [ {| ta_PK := 7; ta_System := "iam"; ta_ID := "view" |} ];
     actionService_ListActionResourceTypeIDByActionSystem := fun _ => Ok ["view"];
     actionService_ListThinActionByPKs := fun _ =>
       Ok [ {| ta_PK := 7; ta_System := "iam"; ta_ID := "view" |} ];
     policyService_ListQueryByPKs := fun _ => Ok storedPolicies;
     policyService_DeleteByPKs := fun _ _ => Some storageDown;
     policyService_AlterCustomPolicies := fun _ _ _ _ _ => Err storageDown;
     policyService_CreateAndDeleteTemplatePolicies := fun _ _ _ _ _ => Some storageDown;
     policyService_UpdateTemplatePolicies := fun _ _ _ => Some storageDown;
     policyService_DeleteTemplatePolicies := fun _ _ => Some storageDown;
     policyService_UpdateExpiredAt := fun _ => Some storageDown |}.

(** A world whose policy cache holds the expression pks of subject 1 and
    of subject 2 for the action 7 of [iam]. *)
Definition cachedWorld : World :=
  {| policyCache := {[ ("iam", 1%Z, 7%Z) := [40%Z]; ("iam", 2%Z, 7%Z) := [41%Z] ]};
     expressionCache := ∅;
     history := [] |}.

End PolicyCurd.

(** ** Package [service]: the members of a group (src/unnamed/part_002) *)
Module SubjectService.
Import GoDefer Util.

Definition SubjectSVC : string := "SubjectSVC".

(** [types.UserType] and [types.DepartmentType]. *)
Definition UserType : string := "user".
Definition DepartmentType : string := "department".

(** [dao.Subject]. *)
Record DaoSubject : Type := {
  ds_PK : Z;
  ds_Type : string;
  ds_ID : string;
}.

(** [dao.SubjectRelation]: the subject is a member of the parent. *)
Record SubjectRelation : Type := {
  sr_PK : Z;
  sr_SubjectPK : Z;
  sr_ParentPK : Z;
  sr_PolicyExpiredAt : Z;
}.

(** [dao.SubjectRelationPKPolicyExpiredAt]. *)
Record SubjectRelationPKPolicyExpiredAt : Type := {
  srp_PK : Z;
  srp_PolicyExpiredAt : Z;
}.

(** [types.SubjectWithExpiredAt]. *)
Record SubjectWithExpiredAt : Type := {
  swe_Type : string;
  swe_ID : string;
  swe_PolicyExpiredAt : Z;
}.

(** [types.SubjectPKWithExpiredAt]. *)
Record SubjectPKWithExpiredAt : Type := {
  spe_SubjectPK : Z;
  spe_ExpiredAt : Z;
}.

(** The DAO managers of [subjectService], and the database transaction.
    [bulkUpdateSubjectSystemGroup] (part_001) rewrites the groups of the
    subject_system_group rows; only its outcome matters here. *)
Record Managers : Type := {
  manager_GetPK : string → string → Result Z;
  manager_ListByIDs : string → list string → Result (list DaoSubject);
  relationManager_ListMember : Z → Result (list SubjectRelation);
  database_GenerateDefaultDBTx : option error;
  relationManager_UpdateExpiredAtWithTx :
    list SubjectRelationPKPolicyExpiredAt → option error;
  relationManager_BulkCreateWithTx : list SubjectRelation → option error;
  bulkUpdateSubjectSystemGroup : Z → list SubjectPKWithExpiredAt → option error;
}.

(** The calls on the transaction, in order. *)
Inductive TxCall : Type :=
| GenerateDefaultDBTx
| UpdateExpiredAtWithTx (relations : list SubjectRelationPKPolicyExpiredAt)
| BulkCreateWithTx (relations : list SubjectRelation)
| BulkUpdateSubjectSystemGroup (parentPK : Z) (subjects : list SubjectPKWithExpiredAt)
| RollBackWithLog.

Definition TxLog : Type := list TxCall.

Definition txCall {A} (c : TxCall) (outcome : A) : Go TxLog A :=
  perform (fun log => (outcome, log ++ [c])).

(** The key [fmt.Sprintf("%s:%s", s.Type, s.ID)]. *)
Definition subjectKey (type id : string) : string :=
  String.append type (String.append ":" id).

Definition genSubjectExpiredAtMap (subjectWithExpiredAts : list SubjectWithExpiredAt)
  : gmap string Z :=
  foldl (fun acc s => <[subjectKey (swe_Type s) (swe_ID s) := swe_PolicyExpiredAt s]> acc)
        ∅ subjectWithExpiredAts.

(** What the loop over [daoSubjects] builds. *)
Record Plan : Type := {
  updateRelations : list SubjectRelationPKPolicyExpiredAt;
  createRelations : list SubjectRelation;
  subjectPKWithExpiredAts : list SubjectPKWithExpiredAt;
  typeCount : gmap string Z;
}.

Definition emptyPlan : Plan :=
  {| updateRelations := []; createRelations := []; subjectPKWithExpiredAts := [];
     typeCount := {[ UserType := 0%Z; DepartmentType := 0%Z ]} |}.

Definition countType (type : string) (typeCount : gmap string Z) : gmap string Z :=
  if bool_decide (type = UserType)
  then <[UserType := (mapGet typeCount UserType + 1)%Z]> typeCount
  else if bool_decide (type = DepartmentType)
  then <[DepartmentType := (mapGet typeCount DepartmentType + 1)%Z]> typeCount
  else typeCount.

Definition planStep (parentPK : Z) (createIfNotExists : bool)
    (daoRelationMap : gmap Z SubjectRelation) (subjectExpiredAtMap : gmap string Z)
    (plan : Plan) (s : DaoSubject) : Plan :=
  let key := subjectKey (ds_Type s) (ds_ID s) in
  match daoRelationMap !! ds_PK s with
  | Some daoRelation =>
      if (sr_PolicyExpiredAt daoRelation <? mapGet subjectExpiredAtMap key)%Z then
        {| updateRelations :=
             updateRelations plan
             ++ [ {| srp_PK := sr_PK daoRelation;
                     srp_PolicyExpiredAt := mapGet subjectExpiredAtMap key |} ];
           createRelations := createRelations plan;
           subjectPKWithExpiredAts :=
             subjectPKWithExpiredAts plan
             ++ [ {| spe_SubjectPK := ds_PK s;
                     spe_ExpiredAt := mapGet subjectExpiredAtMap key |} ];
           typeCount := typeCount plan |}
      else plan
  | None =>
      if createIfNotExists then
        {| updateRelations := updateRelations plan;
           createRelations :=
             createRelations plan
             ++ [ {| sr_PK := 0; sr_SubjectPK := ds_PK s; sr_ParentPK := parentPK;
                     sr_PolicyExpiredAt := mapGet subjectExpiredAtMap key |} ];
           subjectPKWithExpiredAts :=
             subjectPKWithExpiredAts plan
             ++ [ {| spe_SubjectPK := ds_PK s;
                     spe_ExpiredAt := mapGet subjectExpiredAtMap key |} ];
           typeCount := countType (ds_Type s) (typeCount plan) |}
      else plan
  end.

Definition planOf (parentPK : Z) (createIfNotExists : bool)
    (daoRelationMap : gmap Z SubjectRelation) (subjectExpiredAtMap : gmap string Z)
    (daoSubjects : list DaoSubject) : Plan :=
  foldl (planStep parentPK createIfNotExists daoRelationMap subjectExpiredAtMap)
        emptyPlan daoSubjects.

Section Service.
Variable l : Managers.

Definition getDaoRelationMap (parentPK : Z) : Result (gmap Z SubjectRelation) :=
  match relationManager_ListMember l parentPK with
  | Err err => Err err
  | Ok daoRelations =>
      Ok (foldl (fun acc r => <[sr_SubjectPK r := r]> acc) ∅ daoRelations)
  end.

(** [splitSubject]. [groupBySubjectType], which is not among the sources,
    gives the ids of the users and of the departments. *)
Definition splitSubject (subjects : list (string * string))
  : Result (list DaoSubject * list DaoSubject) :=
  match subjects with
  | [] => Ok ([], [])
  | _ :: _ =>
      let userIDs :=
        map snd (List.filter (fun s => bool_decide (s.1 = UserType)) subjects) in
      let departmentIDs :=
        map snd (List.filter (fun s => bool_decide (s.1 = DepartmentType)) subjects) in
      match manager_ListByIDs l UserType userIDs with
      | Err err => Err err
      | Ok users =>
          match manager_ListByIDs l DepartmentType departmentIDs with
          | Err err => Err err
          | Ok departments => Ok (users, departments)
          end
      end
  end.

Definition listDaoSubject (subjectWithExpiredAts : list SubjectWithExpiredAt)
  : Result (list DaoSubject) :=
  let subjects := map (fun s => (swe_Type s, swe_ID s)) subjectWithExpiredAts in
  match splitSubject subjects with
  | Err err => Err err
  | Ok (users, departments) => Ok (users ++ departments)
  end.

Definition bulkCreateOrUpdateSubjectMembers (_type id : string)
    (subjectWithExpiredAts : list SubjectWithExpiredAt) (createIfNotExists : bool)
  : TxLog → Result (gmap string Z) * TxLog :=
  let wrap := errorWrapf SubjectSVC "bulkCreateOrUpdateSubjectMembers" in
  call
    match manager_GetPK l _type id with
    | Err err => ret (Err (wrap err))
    | Ok parentPK =>
    match getDaoRelationMap parentPK with
    | Err err => ret (Err (wrap err))
    | Ok daoRelationMap =>
    match listDaoSubject subjectWithExpiredAts with
    | Err err => ret (Err (wrap err))
    | Ok daoSubjects =>
        let subjectExpiredAtMap := genSubjectExpiredAtMap subjectWithExpiredAts in
        let plan := planOf parentPK createIfNotExists daoRelationMap
                      subjectExpiredAtMap daoSubjects in
        go txErr <- txCall GenerateDefaultDBTx (database_GenerateDefaultDBTx l) ;;
        go _ <- defer (fun log => log ++ [RollBackWithLog]) ;;
        match txErr with
        | Some err => ret (Err (wrap err))
        | None =>
            go err <- txCall (UpdateExpiredAtWithTx (updateRelations plan))
                        (relationManager_UpdateExpiredAtWithTx l (updateRelations plan)) ;;
            match err with
            | Some err => ret (Err (wrap err))
            | None =>
                go err <-
                  (if createIfNotExists && negb (length (createRelations plan) =? 0)%nat
                   then txCall (BulkCreateWithTx (createRelations plan))
                          (relationManager_BulkCreateWithTx l (createRelations plan))
                   else ret None) ;;
                match err with
                | Some err => ret (Err (wrap err))
                | None =>
                    go err <-
                      txCall (BulkUpdateSubjectSystemGroup parentPK
                                (subjectPKWithExpiredAts plan))
                        (bulkUpdateSubjectSystemGroup l parentPK
                           (subjectPKWithExpiredAts plan)) ;;
                    match err with
                    | Some err => ret (Err (wrap err))
                    | None => ret (Ok (typeCount plan))
                    end
                end
            end
        end
    end end end.

(** [UpdateMembersExpiredAt]: the renewal, which creates nothing. *)
Definition UpdateMembersExpiredAt (_type id : string)
    (subjectWithExpiredAts : list SubjectWithExpiredAt) : TxLog → option error * TxLog :=
  fun log =>
    match bulkCreateOrUpdateSubjectMembers _type id subjectWithExpiredAts false log with
    | (Ok _, log') => (None, log')
    | (Err err, log') => (Some err, log')
    end.

End Service.

(** The managers of the examples: the group [group:g1] has pk 9; its
    members are the user 1 (relation 50, expiring at 500) and the user 2
    (relation 51, expiring at 900); every call succeeds. *)
Definition exampleManagers : Managers :=
  {| manager_GetPK := fun _ _ => Ok 9%Z;
     manager_ListByIDs := fun type _ =>
       if bool_decide (type = UserType)
       then Ok [ {| ds_PK := 1; ds_Type := "user"; ds_ID := "u1" |};
                 {| ds_PK := 2; ds_Type := "user"; ds_ID := "u2" |} ]
       else Ok [];
     relationManager_ListMember := fun _ =>
       Ok [ {| sr_PK := 50; sr_SubjectPK := 1; sr_ParentPK := 9; sr_PolicyExpiredAt := 500 |};
            {| sr_PK := 51; sr_SubjectPK := 2; sr_ParentPK := 9; sr_PolicyExpiredAt := 900 |} ];
     database_GenerateDefaultDBTx := None;
     relationManager_UpdateExpiredAtWithTx := fun _ => None;
     relationManager_BulkCreateWithTx := fun _ => None;
     bulkUpdateSubjectSystemGroup := fun _ _ => None |}.

(** A renewal to 700 of both members. *)
Definition exampleRenewal : list SubjectWithExpiredAt :=
  [ {| swe_Type := "user"; swe_ID := "u1"; swe_PolicyExpiredAt := 700 |};
    {| swe_Type := "user"; swe_ID := "u2"; swe_PolicyExpiredAt := 700 |} ].

End SubjectService.

(** ** Package [pdp]: the entrance and its helpers
    (src/pkg/abac/pdp/types/attribute_getter.go, second file;
     src/pkg/abac/prp/policy_curd.go, third file) *)
Module PDP.
Import Translate EffectSubject.

Definition PDP : string := "PDP".
Definition PDPHelper : string := "PDPHelper".

(** [types.Resource]. *)
Record Resource : Type := {
  res_System : string;
  res_Type : string;
  res_ID : string;
  res_Attribute : gmap string Condition.AttrValue;
}.

(** [types.Action]; the pk and the resource types are filled by the PIP. *)
Record Action : Type := {
  act_ID : string;
  act_PK : option Z;
  act_ResourceTypes : option (list ActionResourceType);
}.

(** [request.Request]. *)
Record Request : Type := {
  req_System : string;
  req_Subject : Subject;
  req_Action : Action;
  req_Resources : list Resource;
}.

(** [pdptypes.NewExprContext(r, resource)]. *)
Definition ExprContext : Type := Request * Resource.
Definition NewExprContext (r : Request) (resource : Resource) : ExprContext :=
  (r, resource).

(** What the entrance uses of the other packages and of the request: the
    PIP, the PRP, the evaluation and the translation, and the methods of
    [request.Request], whose bodies are not among the sources. *)
Record Env : Type := {
  pip_GetActionDetail : string → string → Result (Z * list ActionResourceType);
  pip_GetSubjectPK : string → string → Result Z;
  (* departments, groups *)
  pip_GetSubjectDetail : Z → Result (list Z * list SubjectGroup);
  prp_ListBySubjectAction :
    string → Subject → Action → bool → Result (list AuthPolicy);
  (* evaluation.EvalPolicies: isPass, passPolicyID, err *)
  evaluation_EvalPolicies : ExprContext → list AuthPolicy → bool * Z * option error;
  (* the evaluation of the expression of one policy on a context; a policy
     that does not parse is false *)
  evaluation_evalPolicy : ExprContext → AuthPolicy → bool;
  translate_PoliciesTranslate :
    list AuthPolicy → list ActionResourceType → Result ExprCell;
  fillRemoteResourceAttrs : Request → list AuthPolicy → Result Request;
  ValidateActionResource : Request → bool;
  ValidateActionRemoteResource : Request → bool;
  HasSingleLocalResource : Request → bool;
  HasRemoteResources : Request → bool;
  GetSortedResources : Request → list Resource;
  GetQueryResourceTypes : Request → Result (list ActionResourceType);
}.

(** A call returns, or panics (an index out of range). *)
Inductive Outcome (A : Type) : Type :=
| Returned (a : A)
| Panicked.
Arguments Returned {A} a.
Arguments Panicked {A}.

(** The result of [Query]: [EmptyPolicies], the empty object, or an
    expression. *)
Inductive QueryExpr : Type :=
| EmptyPolicies
| Expr (e : ExprCell).

Section Entrance.
Variable E : Env.

(** Modelled from the spec: [evaluation.FilterPolicies] is not among the
    sources. Spec 4.D: it returns the sublist of the policies whose
    expression evaluates to true on the context. *)
Definition FilterPolicies (ctx : ExprContext) (policies : list AuthPolicy)
  : Result (list AuthPolicy) :=
  Ok (List.filter (evaluation_evalPolicy E ctx) policies).

(** [queryPolicies] (helper). *)
Definition queryPolicies (system : string) (subject : Subject) (action : Action)
    (withoutCache : bool) : Result (list AuthPolicy) :=
  match prp_ListBySubjectAction E system subject action withoutCache with
  | Err err => Err (errorWrapf PDPHelper "queryPolicies" err)
  | Ok policies =>
      if (length policies =? 0)%nat then Err ErrNoPolicies else Ok policies
  end.

(** The loop of [filterPoliciesByEvalResources] over the sorted resources. *)
Fixpoint filterByResources (r : Request) (resources : list Resource)
    (policies : list AuthPolicy) : Result (list AuthPolicy) :=
  match resources with
  | [] => Ok policies
  | resource :: rest =>
      match FilterPolicies (NewExprContext r resource) policies with
      | Err err => Err (errorWrapf PDPHelper "filterPoliciesByEvalResources" err)
      | Ok policies' =>
          if (length policies' =? 0)%nat then Err ErrNoPolicies
          else filterByResources r rest policies'
      end
  end.

(** The request the loop runs on: [r] is a pointer, and
    [fillRemoteResourceAttrs] fills the attributes of its remote resources
    in place. *)
Definition withRemoteAttrs (r : Request) (policies : list AuthPolicy) : Result Request :=
  if HasRemoteResources E r then
    match fillRemoteResourceAttrs E r policies with
    | Err err => Err (errorWrapf PDPHelper "filterPoliciesByEvalResources" err)
    | Ok r' => Ok r'
    end
  else Ok r.

Definition filterPoliciesByEvalResources (r : Request) (policies : list AuthPolicy)
  : Result (list AuthPolicy) :=
  match withRemoteAttrs r policies with
  | Err err => Err err
  | Ok r' => filterByResources r' (GetSortedResources E r') policies
  end.

(** The fold of the spec (4.D): [policies(i+1) = FilterPolicies(ctx(resource
    i), policies i)], over all the resources. *)
Definition survivors (r : Request) (resources : list Resource)
    (policies : list AuthPolicy) : list AuthPolicy :=
  foldl (fun ps resource =>
           List.filter (evaluation_evalPolicy E (NewExprContext r resource)) ps)
        policies resources.

(** [fillSubjectDetail] (helper); [Subject.FillAttributes] sets the pk, the
    groups and the departments. *)
Definition fillSubjectDetail (r : Request) : Result Request :=
  let wrap := errorWrapf "Request" "fillSubjectDetail" in
  let _type := subj_Type (req_Subject r) in
  let id := subj_ID (req_Subject r) in
  match pip_GetSubjectPK E _type id with
  | Err err => Err (wrap err)
  | Ok pk =>
      match pip_GetSubjectDetail E pk with
      | Err err => Err (wrap err)
      | Ok (departments, groups) =>
          Ok {| req_System := req_System r;
                req_Subject :=
                  {| subj_Type := _type; subj_ID := id;
                     subj_Attribute := {| attr_pk := Some pk;
                                          attr_groups := Some groups;
                                          attr_departments := Some departments |} |};
                req_Action := req_Action r;
                req_Resources := req_Resources r |}
      end
  end.

(** [fillActionDetail] (helper). *)
Definition fillActionDetail (r : Request) : Result Request :=
  let wrap := errorWrapf "Request" "fillActionDetail" in
  match pip_GetActionDetail E (req_System r) (act_ID (req_Action r)) with
  | Err err => Err (wrap err)
  | Ok (pk, actionResourceTypes) =>
      Ok {| req_System := req_System r;
            req_Subject := req_Subject r;
            req_Action := {| act_ID := act_ID (req_Action r); act_PK := Some pk;
                             act_ResourceTypes := Some actionResourceTypes |};
            req_Resources := req_Resources r |}
  end.

(** [Eval], the entrance of the decision. The debug entry only records
    values and is left out. *)
Definition Eval (r : Request) (withoutCache : bool) : Outcome (bool * option error) :=
  let wrap := errorWrapf PDP "Eval" in
  match fillActionDetail r with
  | Err err =>
      let err := wrap err in
      if errors_Is err sqlErrNoRows then Returned (false, Some ErrInvalidAction)
      else Returned (false, Some err)
  | Ok r =>
  if negb (ValidateActionResource E r)
  then Returned (false, Some (wrap ErrInvalidActionResource))
  else
  match fillSubjectDetail r with
  | Err err =>
      if errors_Is err sqlErrNoRows then Returned (false, None)
      else Returned (false, Some (wrap err))
  | Ok r =>
  match queryPolicies (req_System r) (req_Subject r) (req_Action r) withoutCache with
  | Err err =>
      if errors_Is err ErrNoPolicies then Returned (false, None)
      else Returned (false, Some (wrap err))
  | Ok policies =>
      if HasSingleLocalResource E r then
        match GetSortedResources E r with
        | [] => Panicked
        | resource :: _ =>
            match evaluation_EvalPolicies E (NewExprContext r resource) policies with
            | (_, _, Some err) => Returned (false, Some (wrap err))
            | (isPass, _, None) => Returned (isPass, None)
            end
        end
      else
        match filterPoliciesByEvalResources r policies with
        | Err err =>
            if errors_Is err ErrNoPolicies then Returned (false, None)
            else Returned (false, Some (wrap err))
        | Ok _ => Returned (true, None)
        end
  end end end.

(** What the pointer [r] holds after [filterPoliciesByEvalResources]. *)
Definition requestAfterFilter (r : Request) (policies : list AuthPolicy) : Request :=
  match withRemoteAttrs r policies with
  | Ok r' => r'
  | Err _ => r
  end.

(** [queryFilterPolicies] (helper). [r] is a pointer: next to the policies
    the model returns the request as the call leaves it. *)
Definition queryFilterPolicies (r : Request) (willCheckRemoteResource withoutCache : bool)
  : Result (Request * list AuthPolicy) :=
  let wrap := errorWrapf PDP "queryFilterPolicies" in
  match fillActionDetail r with
  | Err err =>
      let err := wrap err in
      if errors_Is err sqlErrNoRows then Err ErrInvalidAction else Err err
  | Ok r =>
  if willCheckRemoteResource && negb (ValidateActionRemoteResource E r)
  then Err (wrap ErrInvalidActionResource)
  else
  match fillSubjectDetail r with
  | Err err =>
      if errors_Is err sqlErrNoRows then Ok (r, []) else Err (wrap err)
  | Ok r =>
  match queryPolicies (req_System r) (req_Subject r) (req_Action r) withoutCache with
  | Err err =>
      if errors_Is err ErrNoPolicies then Ok (r, []) else Err (wrap err)
  | Ok policies =>
      match filterPoliciesByEvalResources r policies with
      | Err err =>
          if errors_Is err ErrNoPolicies then Ok (requestAfterFilter r policies, [])
          else Err (wrap err)
      | Ok filteredPolicies => Ok (requestAfterFilter r policies, filteredPolicies)
      end
  end end end.

(** [Query]. *)
Definition Query (r : Request) (willCheckRemoteResource withoutCache : bool)
  : Result QueryExpr :=
  let wrap := errorWrapf PDP "Query" in
  match queryFilterPolicies r willCheckRemoteResource withoutCache with
  | Err err => Err (wrap err)
  | Ok (r, policies) =>
      if (length policies =? 0)%nat then Ok EmptyPolicies
      else
        match GetQueryResourceTypes E r with
        | Err err => Err (wrap err)
        | Ok queryResourceTypes =>
            match translate_PoliciesTranslate E policies queryResourceTypes with
            | Err err => Err (wrap err)
            | Ok expr => Ok (Expr expr)
            end
        end
  end.

(** [QueryAuthPolicies]. *)
Definition QueryAuthPolicies (r : Request) (withoutCache : bool)
  : Result (list AuthPolicy) :=
  let wrap := errorWrapf PDP "BatchResourcesEval" in
  match fillActionDetail r with
  | Err err =>
      let err := wrap err in
      if errors_Is err sqlErrNoRows then Err ErrInvalidAction else Err err
  | Ok r =>
  match fillSubjectDetail r with
  | Err err =>
      if errors_Is err sqlErrNoRows then Err ErrSubjectNotExists else Err (wrap err)
  | Ok r =>
  match queryPolicies (req_System r) (req_Subject r) (req_Action r) withoutCache with
  | Err err =>
      if errors_Is err ErrNoPolicies then Err err else Err (wrap err)
  | Ok policies => Ok policies
  end end end.

(** [EvalPolicies] of package [pdp]. *)
Definition EvalPolicies (req : Request) (policies : list AuthPolicy)
  : bool * option error :=
  match filterPoliciesByEvalResources req policies with
  | Err err =>
      if errors_Is err ErrNoPolicies then (false, None)
      else (false, Some (errorWrapf PDP "EvalPolicies" err))
  | Ok _ => (true, None)
  end.

(** The packages below [pdp] cannot return its [ErrNoPolicies]: Go has no
    import cycles, and they are imported by [pdp]. *)
Definition signalFree (e : error) : Prop := errors_Is e ErrNoPolicies = false.

Record lowerPackagesSignalFree : Prop := {
  action_free : ∀ system id e, pip_GetActionDetail E system id = Err e → signalFree e;
  subject_pk_free : ∀ _type id e, pip_GetSubjectPK E _type id = Err e → signalFree e;
  subject_detail_free : ∀ pk e, pip_GetSubjectDetail E pk = Err e → signalFree e;
  evaluation_free :
    ∀ ctx policies e, (evaluation_EvalPolicies E ctx policies).2 = Some e → signalFree e;
  resource_types_free : ∀ r e, GetQueryResourceTypes E r = Err e → signalFree e;
  translate_free :
    ∀ policies rts e, translate_PoliciesTranslate E policies rts = Err e → signalFree e;
}.

End Entrance.

(** The environment of the examples: the action is known, the subject is
    not ([sql.ErrNoRows]); no policy, no resource. *)
Definition unknownSubjectEnv : Env :=
  {| pip_GetActionDetail := fun _ _ => Ok (7%Z, []);
     pip_GetSubjectPK := fun _ _ => Err sqlErrNoRows;
     pip_GetSubjectDetail := fun _ => Ok ([], []);
     prp_ListBySubjectAction := fun _ _ _ _ => Ok [];
     evaluation_EvalPolicies := fun _ _ => (false, (-1)%Z, None);
     evaluation_evalPolicy := fun _ _ => false;
     translate_PoliciesTranslate := fun _ _ => Ok anyExpr;
     fillRemoteResourceAttrs := fun r _ => Ok r;
     ValidateActionResource := fun _ => true;
     ValidateActionRemoteResource := fun _ => true;
     HasSingleLocalResource := fun r => bool_decide (length (req_Resources r) = 1%nat);
     HasRemoteResources := fun _ => false;
     GetSortedResources := req_Resources;
     GetQueryResourceTypes := fun _ => Ok [] |}.

(** The same environment with a subject of pk 1, without groups. *)
Definition knownSubjectEnv : Env :=
  {| pip_GetActionDetail := fun _ _ => Ok (7%Z, []);
     pip_GetSubjectPK := fun _ _ => Ok 1%Z;
     pip_GetSubjectDetail := fun _ => Ok ([], []);
     prp_ListBySubjectAction := fun _ _ _ _ => Ok [];
     evaluation_EvalPolicies := fun _ _ => (false, (-1)%Z, None);
     evaluation_evalPolicy := fun _ _ => false;
     translate_PoliciesTranslate := fun _ _ => Ok anyExpr;
     fillRemoteResourceAttrs := fun r _ => Ok r;
     ValidateActionResource := fun _ => true;
     ValidateActionRemoteResource := fun _ => true;
     HasSingleLocalResource := fun r => bool_decide (length (req_Resources r) = 1%nat);
     HasRemoteResources := fun _ => false;
     GetSortedResources := req_Resources;
     GetQueryResourceTypes := fun _ => Ok [] |}.

(** A request of [user:u1] for the action [view] of [iam], on no resource. *)
Definition exampleRequest : Request :=
  {| req_System := "iam";
     req_Subject := {| subj_Type := "user"; subj_ID := "u1";
                       subj_Attribute := {| attr_pk := None; attr_groups := None;
                                            attr_departments := None |} |};
     req_Action := {| act_ID := "view"; act_PK := None; act_ResourceTypes := None |};
     req_Resources := [] |}.

(** An environment in which the subject has one policy, which no resource
    satisfies, and a request on two resources. *)
Definition denyingEnv : Env :=
  {| pip_GetActionDetail := fun _ _ => Ok (7%Z, []);
     pip_GetSubjectPK := fun _ _ => Ok 1%Z;
     pip_GetSubjectDetail := fun _ => Ok ([], []);
     prp_ListBySubjectAction := fun _ _ _ _ =>
       Ok [ {| ap_ID := 100; ap_Expression := ""; ap_ExpiredAt := 4102444800 |} ];
     evaluation_EvalPolicies := fun _ _ => (false, (-1)%Z, None);
     evaluation_evalPolicy := fun _ _ => false;
     translate_PoliciesTranslate := fun _ _ => Ok anyExpr;
     fillRemoteResourceAttrs := fun r _ => Ok r;
     ValidateActionResource := fun _ => true;
     ValidateActionRemoteResource := fun _ => true;
     HasSingleLocalResource := fun r => bool_decide (length (req_Resources r) = 1%nat);
     HasRemoteResources := fun _ => false;
     GetSortedResources := req_Resources;
     GetQueryResourceTypes := fun _ => Ok [] |}.

Definition twoResourceRequest : Request :=
  {| req_System := "iam";
     req_Subject := req_Subject exampleRequest;
     req_Action := req_Action exampleRequest;
     req_Resources :=
       [ {| res_System := "iam"; res_Type := "host"; res_ID := "h1"; res_Attribute := ∅ |};
         {| res_System := "iam"; res_Type := "job"; res_ID := "j1"; res_Attribute := ∅ |} ] |}.

(** The request once [fillActionDetail] has filled the action. *)
Definition filledRequest : Request :=
  {| req_System := "iam";
     req_Subject := req_Subject exampleRequest;
     req_Action := {| act_ID := "view"; act_PK := Some 7%Z; act_ResourceTypes := Some [] |};
     req_Resources := [] |}.

(** The request once [fillSubjectDetail] has filled the subject of pk 1. *)
Definition subjectRequest : Request :=
  {| req_System := "iam";
     req_Subject := {| subj_Type := "user"; subj_ID := "u1";
                       subj_Attribute := {| attr_pk := Some 1%Z; attr_groups := Some [];
                                            attr_departments := Some [] |} |};
     req_Action := req_Action filledRequest;
     req_Resources := [] |}.

(** A policy without condition. *)
Definition examplePolicy : AuthPolicy :=
  {| ap_ID := 100; ap_Expression := ""; ap_ExpiredAt := 4102444800 |}.

End PDP.

(** ** Package [prp], continued: what the conversions and the renewal compute *)
Module PolicyCurdViews.
Import Util PolicyCurd.

(** The [svctypes.Policy] that [convertToServicePolicies] appends for a
    policy whose action has the pk [actionPK]. *)
Definition toServicePolicy (subjectPK : Z) (actionMap : gmap string Z) (p : Policy)
  : ServicePolicy :=
  {| sp_Version := p_Version p; sp_ID := p_ID p; sp_SubjectPK := subjectPK;
     sp_ActionPK := mapGet actionMap (p_ActionID p);
     sp_Expression := p_Expression p; sp_ExpiredAt := p_ExpiredAt p;
     sp_TemplateID := p_TemplateID p |}.

(** The condition of the loop of [UpdateSubjectPoliciesExpiredAt]. *)
Definition renewable (subjectPK : Z) (idExpiredAtMap : gmap Z Z) (p : QueryPolicy) : bool :=
  (qp_SubjectPK p =? subjectPK)%Z
  && (qp_ExpiredAt p <? mapGet idExpiredAtMap (qp_PK p))%Z.

(** [p.ExpiredAt = idExpiredAtMap[p.PK]]. *)
Definition renewed (idExpiredAtMap : gmap Z Z) (p : QueryPolicy) : QueryPolicy :=
  {| qp_PK := qp_PK p; qp_SubjectPK := qp_SubjectPK p; qp_ActionPK := qp_ActionPK p;
     qp_ExpressionPK := qp_ExpressionPK p;
     qp_ExpiredAt := mapGet idExpiredAtMap (qp_PK p) |}.

(** The expiry of the last entry of the list for a pk. *)
Definition lastSupplied (policies : list PolicyPKExpiredAt) (pk : Z) : option Z :=
  pe_ExpiredAt <$> last (List.filter (fun p => (pe_PK p =? pk)%Z) policies).

(** The world after [UpdateExpiredAt] of outcome [ok] followed by the
    deferred invalidation of the policy cache of every listed system. *)
Definition renewedThenInvalidated (w : World) (updatePolicies : list QueryPolicy)
    (ok : bool) (systems : list string) (subjectPK : Z) : World :=
  {| policyCache :=
       foldl (fun c system => invalidatePolicies system [subjectPK] c)
             (policyCache w) systems;
     expressionCache := expressionCache w;
     history := history w
                ++ StorageWrite (UpdateExpiredAt updatePolicies) ok
                   :: map (fun system => PolicyCacheInvalidated system [subjectPK]) systems |}.

(** Services whose storage accepts every write; the action [view] of [iam]
    has pk 7, the action resource types name [view] and the unknown
    [edit]. *)
Definition workingServices : Services :=
  {| subjectService_GetPK := fun _ _ => Ok 1%Z;
     actionService_ListThinActionBySystem := fun _ =>
       Ok [ {| ta_PK := 7; ta_System := "iam"; ta_ID := "view" |} ];
     actionService_ListActionResourceTypeIDByActionSystem := fun _ => Ok ["view"; "edit"];
     actionService_ListThinActionByPKs := fun _ =>
       Ok [ {| ta_PK := 7; ta_System := "iam"; ta_ID := "view" |} ];
     policyService_ListQueryByPKs := fun _ => Ok storedPolicies;
     policyService_DeleteByPKs := fun _ _ => None;
     policyService_AlterCustomPolicies := fun _ _ _ _ _ => Ok [40%Z];
     policyService_CreateAndDeleteTemplatePolicies := fun _ _ _ _ _ => None;
     policyService_UpdateTemplatePolicies := fun _ _ _ => None;
     policyService_DeleteTemplatePolicies := fun _ _ => None;
     policyService_UpdateExpiredAt := fun _ => None |}.

Definition viewPolicy : Policy :=
  {| p_Version := "1"; p_ID := 0; p_ActionID := "view"; p_Expression := "";
     p_ExpiredAt := 4102444800; p_TemplateID := 3 |}.

End PolicyCurdViews.

(** ** Package [prp], continued: subjects for the examples of the effective set *)
Module EffectSubjectViews.
Import EffectSubject.

(** A subject with the given attributes. *)
Definition subjectWith (pk : Z) (groups : list SubjectGroup) (departments : list Z)
  : Subject :=
  {| subj_Type := "user"; subj_ID := "u1";
     subj_Attribute := {| attr_pk := Some pk; attr_groups := Some groups;
                          attr_departments := Some departments |} |}.

(** A service that is down. *)
Definition failingListSubjectEffectGroups (deptPKs : list Z)
  : Result (list SubjectGroup) := Err (ErrorNew "cache is down").

End EffectSubjectViews.

(** ** Package [service], continued: what the loop over the subjects builds *)
Module SubjectServiceViews.
Import Util SubjectService.

Section Plan.
Variable parentPK : Z.
Variable createIfNotExists : bool.
Variable daoRelationMap : gmap Z SubjectRelation.
Variable subjectExpiredAtMap : gmap string Z.

Definition suppliedFor (s : DaoSubject) : Z :=
  mapGet subjectExpiredAtMap (subjectKey (ds_Type s) (ds_ID s)).

(** The update of the relation of a member whose expiry is before the
    supplied one. *)
Definition updateOf (s : DaoSubject) : option SubjectRelationPKPolicyExpiredAt :=
  match daoRelationMap !! ds_PK s with
  | Some daoRelation =>
      if (sr_PolicyExpiredAt daoRelation <? suppliedFor s)%Z
      then Some {| srp_PK := sr_PK daoRelation; srp_PolicyExpiredAt := suppliedFor s |}
      else None
  | None => None
  end.

(** A subject that is not a member yet, when members are to be created. *)
Definition toCreate (s : DaoSubject) : bool :=
  match daoRelationMap !! ds_PK s with
  | Some _ => false
  | None => createIfNotExists
  end.

Definition createOf (s : DaoSubject) : option SubjectRelation :=
  if toCreate s
  then Some {| sr_PK := 0; sr_SubjectPK := ds_PK s; sr_ParentPK := parentPK;
               sr_PolicyExpiredAt := suppliedFor s |}
  else None.

(** The subjects whose row of the subject_system_group table is rewritten. *)
Definition touchedOf (s : DaoSubject) : option SubjectPKWithExpiredAt :=
  match updateOf s, toCreate s with
  | None, false => None
  | _, _ => Some {| spe_SubjectPK := ds_PK s; spe_ExpiredAt := suppliedFor s |}
  end.

End Plan.

(** The calls on the transaction when every step succeeds. *)
Definition successfulCalls (parentPK : Z) (createIfNotExists : bool) (plan : Plan)
  : list TxCall :=
  [GenerateDefaultDBTx; UpdateExpiredAtWithTx (updateRelations plan)]
  ++ (if createIfNotExists && negb (length (createRelations plan) =? 0)%nat
      then [BulkCreateWithTx (createRelations plan)] else [])
  ++ [BulkUpdateSubjectSystemGroup parentPK (subjectPKWithExpiredAts plan);
      RollBackWithLog].

(** A new member for the examples: the department 3, not yet in the group. *)
Definition exampleAddition : list SubjectWithExpiredAt :=
  [ {| swe_Type := "user"; swe_ID := "u1"; swe_PolicyExpiredAt := 700 |};
    {| swe_Type := "department"; swe_ID := "d3"; swe_PolicyExpiredAt := 700 |} ].

Definition additionManagers : Managers :=
  {| manager_GetPK := fun _ _ => Ok 9%Z;
     manager_ListByIDs := fun type _ =>
       if bool_decide (type = UserType)
       then Ok [ {| ds_PK := 1; ds_Type := "user"; ds_ID := "u1" |} ]
       else Ok [ {| ds_PK := 3; ds_Type := "department"; ds_ID := "d3" |} ];
     relationManager_ListMember := fun _ =>
       Ok [ {| sr_PK := 50; sr_SubjectPK := 1; sr_ParentPK := 9; sr_PolicyExpiredAt := 500 |} ];
     database_GenerateDefaultDBTx := None;
     relationManager_UpdateExpiredAtWithTx := fun _ => None;
     relationManager_BulkCreateWithTx := fun _ => None;
     bulkUpdateSubjectSystemGroup := fun _ _ => None |}.

End SubjectServiceViews.

(** ** Package [service]: the rows of subject_system_group (src/unnamed/part_001) *)
Module SubjectSystemGroup.
Import Util.

Definition SubjectSVC : string := SubjectService.SubjectSVC.

(** The two errors of the package, told apart by their texts. *)
Definition ErrNoSubjectSystemGroup : error := ErrorNew "no subject system group".
Definition ErrNeedRetry : error := ErrorNew "need retry".

Definition RetryCount : nat := 3.

(** [dao.SubjectSystemGroup], with the fields that this package reads or
    writes; [Groups] is the JSON text of a map from group pk to expiry. *)
Record DaoSubjectSystemGroup : Type := {
  ssg_SystemID : string;
  ssg_SubjectPK : Z;
  ssg_Groups : string;
}.

#[global] Instance DaoSubjectSystemGroup_eq_dec : EqDecision DaoSubjectSystemGroup.
Proof. solve_decision. Defined.

(** The calls on the storage, in the order in which they are made. *)
Inductive Call : Type :=
| ListGroupAuthSystem (parentPK : Z)
| GetBySystemSubject (systemID : string) (subjectPK : Z)
| CreateWithTx (subjectSystemGroup : DaoSubjectSystemGroup)
| UpdateWithTx (subjectSystemGroup : DaoSubjectSystemGroup).

Definition Log : Type := list Call.

(** The collaborators, none of which is among the sources. The storage
    answers a call from the calls made so far, so that a row may change
    between two attempts. [GetBySystemSubject] returns a record with its
    error, as in Go. *)
Record Store : Type := {
  listGroupAuthSystem : Log → Z → Result (list string);
  manager_GetBySystemSubject : Log → string → Z → DaoSubjectSystemGroup * option error;
  manager_CreateWithTx : Log → DaoSubjectSystemGroup → option error;
  manager_UpdateWithTx : Log → DaoSubjectSystemGroup → Result Z;
  database_IsMysqlDuplicateEntryError : option error → bool;
  jsoniter_MarshalToString : gmap Z Z → Result string;
  jsoniter_UnmarshalFromString : string → Result (gmap Z Z);
}.

(** [errors.Is(err, target)] on an error that may be nil. *)
Definition isError (err : option error) (target : error) : bool :=
  match err with
  | Some e => errors_Is e target
  | None => false
  end.

(** A loop whose body returns from the function on an error. *)
Fixpoint forEach {A} (body : A → Log → option error * Log) (items : list A) (log : Log)
  : option error * Log :=
  match items with
  | [] => (None, log)
  | item :: items =>
      match body item log with
      | (Some err, log) => (Some err, log)
      | (None, log) => forEach body items log
      end
  end.

(** The loop [for i := 0; i < RetryCount; i++] of the two functions below;
    [err] is the named result, which the last attempt leaves set. *)
Fixpoint retry (errorWrapf : error → error) (attempt : Log → option error * Log)
    (count : nat) (err : option error) (log : Log) : option error * Log :=
  match count with
  | O => (err, log)
  | S count =>
      match attempt log with
      | (None, log) => (None, log)
      | (Some err, log) =>
          if errors_Is err ErrNeedRetry
          then retry errorWrapf attempt count (Some err) log
          else (Some (errorWrapf err), log)
      end
  end.

Section Service.
Variable l : Store.

(** [createSubjectSystemGroup]. *)
Definition createSubjectSystemGroup (systemID : string) (subjectPK groupPK expiredAt : Z)
  : Log → option error * Log :=
  fun log =>
    match jsoniter_MarshalToString l {[ groupPK := expiredAt ]} with
    | Err err => (Some err, log)
    | Ok groups =>
        let subjectSystemGroup :=
          {| ssg_SystemID := systemID; ssg_SubjectPK := subjectPK;
             ssg_Groups := groups |} in
        (manager_CreateWithTx l log subjectSystemGroup,
         log ++ [CreateWithTx subjectSystemGroup])
    end.

(** [updateGroupsString]. *)
Definition updateGroupsString (groups : string)
    (updateGroupExpiredAtFunc : gmap Z Z → Result (gmap Z Z)) : Result string :=
  match (match groups with
         | EmptyString => Ok ∅
         | _ => jsoniter_UnmarshalFromString l groups
         end) with
  | Err err => Err err
  | Ok groupExpiredAtMap =>
      match updateGroupExpiredAtFunc groupExpiredAtMap with
      | Err err => Err err
      | Ok groupExpiredAtMap => jsoniter_MarshalToString l groupExpiredAtMap
      end
  end.

(** The record handed to [UpdateWithTx]: the one that was read, with new
    groups. *)
Definition withGroups (subjectSystemGroup : DaoSubjectSystemGroup) (groups : string)
  : DaoSubjectSystemGroup :=
  {| ssg_SystemID := ssg_SystemID subjectSystemGroup;
     ssg_SubjectPK := ssg_SubjectPK subjectSystemGroup;
     ssg_Groups := groups |}.

(** [doUpdateSubjectSystemGroup]. The first step is the read and, when the
    row is missing and may be created, the creation: [inl] is the return
    of [ErrNeedRetry] from inside that branch, [inr] the [err] with which
    the function goes on. *)
Definition doUpdateSubjectSystemGroup (systemID : string)
    (subjectPK groupPK expiredAt : Z) (createIfNotExists : bool)
    (updateGroupExpiredAtFunc : gmap Z Z → Result (gmap Z Z))
  : Log → option error * Log :=
  fun log =>
    let errorWrapf := errorWrapf SubjectSVC "doUpdateSubjectSystemGroup" in
    let '(subjectSystemGroup, err) := manager_GetBySystemSubject l log systemID subjectPK in
    let log := log ++ [GetBySystemSubject systemID subjectPK] in
    match (if createIfNotExists && isError err sqlErrNoRows
           then let '(err, log) :=
                  createSubjectSystemGroup systemID subjectPK groupPK expiredAt log in
                if database_IsMysqlDuplicateEntryError l err
                then inl (Some ErrNeedRetry, log)
                else inr (err, log)
           else inr (err, log)) with
    | inl returned => returned
    | inr (Some err, log) => (Some (errorWrapf err), log)
    | inr (None, log) =>
        match updateGroupsString (ssg_Groups subjectSystemGroup)
                updateGroupExpiredAtFunc with
        | Err err => (Some (errorWrapf err), log)
        | Ok groups =>
            let subjectSystemGroup := withGroups subjectSystemGroup groups in
            let log' := log ++ [UpdateWithTx subjectSystemGroup] in
            match manager_UpdateWithTx l log subjectSystemGroup with
            | Err err => (Some (errorWrapf err), log')
            | Ok count =>
                if (count =? 0)%Z then (Some ErrNeedRetry, log') else (None, log')
            end
        end
    end.

Definition addOrUpdateFunc (groupPK expiredAt : Z) (groupExpiredAtMap : gmap Z Z)
  : Result (gmap Z Z) :=
  Ok (<[ groupPK := expiredAt ]> groupExpiredAtMap).

(** [addOrUpdateSubjectSystemGroup]. *)
Definition addOrUpdateSubjectSystemGroup (systemID : string)
    (subjectPK groupPK expiredAt : Z) : Log → option error * Log :=
  retry (errorWrapf SubjectSVC "addOrUpdateSubjectSystemGroup")
        (doUpdateSubjectSystemGroup systemID subjectPK groupPK expiredAt true
           (addOrUpdateFunc groupPK expiredAt))
        RetryCount None.

Definition removeFunc (groupPK : Z) (groupExpiredAtMap : gmap Z Z)
  : Result (gmap Z Z) :=
  match groupExpiredAtMap !! groupPK with
  | None => Err ErrNoSubjectSystemGroup
  | Some _ => Ok (delete groupPK groupExpiredAtMap)
  end.

(** [removeSubjectSystemGroup]. *)
Definition removeSubjectSystemGroup (systemID : string) (subjectPK groupPK : Z)
  : Log → option error * Log :=
  retry (errorWrapf SubjectSVC "removeSubjectSystemGroup")
        (doUpdateSubjectSystemGroup systemID subjectPK groupPK 0 false
           (removeFunc groupPK))
        RetryCount None.

(** [bulkUpdateSubjectSystemGroup]. *)
Definition bulkUpdateSubjectSystemGroup (parentPK : Z)
    (subjects : list SubjectService.SubjectPKWithExpiredAt) : Log → option error * Log :=
  fun log =>
    let errorWrapf := errorWrapf SubjectSVC "bulkUpdateSubjectSystemGroup" in
    let log' := log ++ [ListGroupAuthSystem parentPK] in
    match listGroupAuthSystem l log parentPK with
    | Err err => (Some (errorWrapf err), log')
    | Ok systems =>
        forEach (fun subject =>
          forEach (fun system log =>
            match addOrUpdateSubjectSystemGroup system
                    (SubjectService.spe_SubjectPK subject) parentPK
                    (SubjectService.spe_ExpiredAt subject) log with
            | (Some err, log) => (Some (errorWrapf err), log)
            | (None, log) => (None, log)
            end) systems) subjects log'
    end.

(** [bulkDeleteSubjectSystemGroup]: a missing row, or a row without the
    group, is logged and passed over. *)
Definition bulkDeleteSubjectSystemGroup (parentPK : Z) (subjectPKs : list Z)
  : Log → option error * Log :=
  fun log =>
    let errorWrapf := errorWrapf SubjectSVC "bulkDeleteSubjectSystemGroup" in
    let log' := log ++ [ListGroupAuthSystem parentPK] in
    match listGroupAuthSystem l log parentPK with
    | Err err => (Some (errorWrapf err), log')
    | Ok systems =>
        forEach (fun subjectPK =>
          forEach (fun system log =>
            let '(err, log) := removeSubjectSystemGroup system subjectPK parentPK log in
            if isError err sqlErrNoRows || isError err ErrNoSubjectSystemGroup
            then (None, log)
            else match err with
                 | Some err => (Some (errorWrapf err), log)
                 | None => (None, log)
                 end) systems) subjectPKs log'
    end.

End Service.

(** The map that [updateGroupsString] reads from the groups of a row. *)
Definition decodeGroups (l : Store) (groups : string) : Result (gmap Z Z) :=
  match groups with
  | EmptyString => Ok ∅
  | _ => jsoniter_UnmarshalFromString l groups
  end.



(** Whether a call is on a row of one of the systems and of one of the
    subjects; [UpdateWithTx] is given the record that was read. *)
Definition withinScope (systems : list string) (subjectPKs : list Z) (c : Call) : Prop :=
  match c with
  | ListGroupAuthSystem _ => True
  | GetBySystemSubject systemID subjectPK => systemID ∈ systems ∧ subjectPK ∈ subjectPKs
  | CreateWithTx g => ssg_SystemID g ∈ systems ∧ ssg_SubjectPK g ∈ subjectPKs
  | UpdateWithTx _ => True
  end.

(** The reads of the rows of some subjects in some systems, subject by
    subject. *)
Definition readsOf (systems : list string) (subjectPKs : list Z) : list Call :=
  subjectPK ← subjectPKs; (fun system => GetBySystemSubject system subjectPK) <$> systems.

(** [log'] continues [log] with calls that all satisfy [P]. *)
Definition extendsBy (P : Call → Prop) (log log' : Log) : Prop :=
  ∃ added, log' = log ++ added ∧ Forall P added.

Definition isCreate (c : Call) : bool :=
  match c with
  | CreateWithTx _ => true
  | _ => false
  end.



(** A storage for the examples, which has no row and updates none. Its
    codec writes one letter for each entry of the map, and reads every
    text as the empty map. *)
Definition exampleMarshal (groupExpiredAtMap : gmap Z Z) : Result string :=
  Ok (foldr (fun _ s => String.append "g" s) "{}" (map_to_list groupExpiredAtMap)).

Definition emptyStore : Store :=
  {| listGroupAuthSystem := fun _ _ => Ok ["bk_cmdb"; "bk_job"];
     manager_GetBySystemSubject := fun _ _ _ =>
       ({| ssg_SystemID := EmptyString; ssg_SubjectPK := 0; ssg_Groups := EmptyString |},
        Some sqlErrNoRows);
     manager_CreateWithTx := fun _ _ => None;
     manager_UpdateWithTx := fun _ _ => Ok 0%Z;
     database_IsMysqlDuplicateEntryError := fun _ => false;
     jsoniter_MarshalToString := exampleMarshal;
     jsoniter_UnmarshalFromString := fun _ => Ok ∅ |}.

(** A storage whose rows are there and whose every update succeeds. *)
Definition filledStore : Store :=
  {| listGroupAuthSystem := fun _ _ => Ok ["bk_cmdb"; "bk_job"];
     manager_GetBySystemSubject := fun _ systemID subjectPK =>
       ({| ssg_SystemID := systemID; ssg_SubjectPK := subjectPK;
           ssg_Groups := "{}" |}, None);
     manager_CreateWithTx := fun _ _ => None;
     manager_UpdateWithTx := fun _ _ => Ok 1%Z;
     database_IsMysqlDuplicateEntryError := fun _ => false;
     jsoniter_MarshalToString := exampleMarshal;
     jsoniter_UnmarshalFromString := fun _ => Ok ∅ |}.

(** A storage whose codec knows two texts: the one of the map that binds
    the group 9 to the expiry 700, and the one of every other map. *)
Definition tableStore : Store :=
  {| listGroupAuthSystem := fun _ _ => Ok ["bk_cmdb"];
     manager_GetBySystemSubject := fun _ systemID subjectPK =>
       ({| ssg_SystemID := systemID; ssg_SubjectPK := subjectPK;
           ssg_Groups := "{}" |}, None);
     manager_CreateWithTx := fun _ _ => None;
     manager_UpdateWithTx := fun _ _ => Ok 1%Z;
     database_IsMysqlDuplicateEntryError := fun _ => false;
     jsoniter_MarshalToString := fun groupExpiredAtMap =>
       if bool_decide (groupExpiredAtMap = {[ 9%Z := 700%Z ]})
       then Ok "{9:700}" else Ok "{}";
     jsoniter_UnmarshalFromString := fun groups =>
       if String.eqb groups "{9:700}" then Ok {[ 9%Z := 700%Z ]} else Ok ∅ |}.

End SubjectSystemGroup.

(** ** Package [service]: the model change events
    (src/pkg/service/model_change_event.go) *)
Module ModelChangeEvent.

Definition ModelChangeEventSVC : string := "ModelChangeEventSVC".

(** [types.ModelChangeEvent]. *)
Record ModelChangeEvent : Type := {
  mce_PK : Z;
  mce_Type : string;
  mce_Status : string;
  mce_SystemID : string;
  mce_ModelType : string;
  mce_ModelID : string;
  mce_ModelPK : Z;
}.

(** [dao.ModelChangeEvent], with the fields that the service copies. *)
Record DaoModelChangeEvent : Type := {
  dao_PK : Z;
  dao_Type : string;
  dao_Status : string;
  dao_SystemID : string;
  dao_ModelType : string;
  dao_ModelID : string;
  dao_ModelPK : Z;
}.

(** [dao.ModelChangeEventManager]. *)
Record Manager : Type := {
  manager_ListByStatus : string → Result (list DaoModelChangeEvent);
  manager_UpdateStatusByPK : Z → string → option error;
  manager_BulkCreate : list DaoModelChangeEvent → option error;
  manager_GetByTypeModel : string → string → string → Z → Result DaoModelChangeEvent;
}.

Section Service.
Variable l : Manager.

(** [ListByStatus]. *)
Definition ListByStatus (status : string) : Result (list ModelChangeEvent) :=
  match manager_ListByStatus l status with
  | Err err => Err (errorWrapf ModelChangeEventSVC "ListByStatus" err)
  | Ok dbModelChangeEvents =>
      Ok (map (fun event =>
                 {| mce_PK := dao_PK event;
                    mce_Type := dao_Type event;
                    mce_Status := dao_Status event;
                    mce_SystemID := dao_SystemID event;
                    mce_ModelType := dao_ModelType event;
                    mce_ModelID := dao_ModelID event;
                    mce_ModelPK := dao_ModelPK event |})
              dbModelChangeEvents)
  end.

(** [UpdateStatusByPK]. *)
Definition UpdateStatusByPK (pk : Z) (status : string) : option error :=
  match manager_UpdateStatusByPK l pk status with
  | Some err => Some (errorWrapf ModelChangeEventSVC "UpdateStatusByPK" err)
  | None => None
  end.

(** The rows that [BulkCreate] builds: the literal has no [PK], which is
    therefore zero. *)
Definition dbModelChangeEventsOf (modelChangeEvents : list ModelChangeEvent)
  : list DaoModelChangeEvent :=
  map (fun event =>
         {| dao_PK := 0;
            dao_Type := mce_Type event;
            dao_Status := mce_Status event;
            dao_SystemID := mce_SystemID event;
            dao_ModelType := mce_ModelType event;
            dao_ModelID := mce_ModelID event;
            dao_ModelPK := mce_ModelPK event |})
      modelChangeEvents.

(** [BulkCreate]. *)
Definition BulkCreate (modelChangeEvents : list ModelChangeEvent) : option error :=
  match manager_BulkCreate l (dbModelChangeEventsOf modelChangeEvents) with
  | Some err => Some (errorWrapf ModelChangeEventSVC "BulkCreate" err)
  | None => None
  end.

(** [ExistByTypeModel]. *)
Definition ExistByTypeModel (eventType status modelType : string) (modelPK : Z)
  : Result bool :=
  match manager_GetByTypeModel l eventType status modelType modelPK with
  | Err err => Err (errorWrapf ModelChangeEventSVC "ExistByTypeModel" err)
  | Ok event => Ok (negb (dao_PK event =? 0)%Z)
  end.

End Service.

(** An event, and a row, but for the pk. *)
Definition withoutPK (event : ModelChangeEvent) : ModelChangeEvent :=
  {| mce_PK := 0;
     mce_Type := mce_Type event;
     mce_Status := mce_Status event;
     mce_SystemID := mce_SystemID event;
     mce_ModelType := mce_ModelType event;
     mce_ModelID := mce_ModelID event;
     mce_ModelPK := mce_ModelPK event |}.

Definition rowWithoutPK (event : DaoModelChangeEvent) : DaoModelChangeEvent :=
  {| dao_PK := 0;
     dao_Type := dao_Type event;
     dao_Status := dao_Status event;
     dao_SystemID := dao_SystemID event;
     dao_ModelType := dao_ModelType event;
     dao_ModelID := dao_ModelID event;
     dao_ModelPK := dao_ModelPK event |}.

(** A pending event on an action, and a manager that stores what it is
    given under the pk 11. *)
Definition exampleEvent : ModelChangeEvent :=
  {| mce_PK := 5; mce_Type := "action_policy"; mce_Status := "pending";
     mce_SystemID := "iam"; mce_ModelType := "action"; mce_ModelID := "view";
     mce_ModelPK := 7 |}.

Definition exampleManager : Manager :=
  {| manager_ListByStatus := fun _ =>
       Ok [ {| dao_PK := 11; dao_Type := "action_policy"; dao_Status := "pending";
               dao_SystemID := "iam"; dao_ModelType := "action"; dao_ModelID := "view";
               dao_ModelPK := 7 |} ];
     manager_UpdateStatusByPK := fun _ _ => None;
     manager_BulkCreate := fun _ => None;
     manager_GetByTypeModel := fun _ _ _ _ => Err sqlErrNoRows |}.

End ModelChangeEvent.

(** ** Package [pdp], continued: [QueryByExtResources]
    (src/pkg/abac/pdp/types/attribute_getter.go) *)
Module PDPExt.
Import Translate EffectSubject PDP.

(** [types.ExtResource]. *)
Record ExtResource : Type := {
  ext_System : string;
  ext_Type : string;
  ext_IDs : list string;
}.

(** [types.Instance]. *)
Record Instance : Type := {
  inst_ID : string;
  inst_Attribute : gmap string Condition.AttrValue;
}.

(** [types.ExtResourceWithAttribute]. *)
Record ExtResourceWithAttribute : Type := {
  ewa_System : string;
  ewa_Type : string;
  ewa_Instances : list Instance;
}.

(** The query of the attributes of the resources of another system, and
    [fmt.Sprint] of the id among the attributes of a resource. *)
Record Remote : Type := {
  queryExtResourceAttrs :
    ExtResource → list AuthPolicy → Result (list (gmap string Condition.AttrValue));
  fmt_Sprint_id : gmap string Condition.AttrValue → string;
}.

Section Entrance.
Variable E : Env.
Variable X : Remote.

(** The instances when there is no policy: the ids, without attributes. *)
Definition bareInstances (resource : ExtResource) : ExtResourceWithAttribute :=
  {| ewa_System := ext_System resource;
     ewa_Type := ext_Type resource;
     ewa_Instances :=
       map (fun id => {| inst_ID := id; inst_Attribute := ∅ |}) (ext_IDs resource) |}.

(** The loop over the resources that queries their attributes; it returns
    at the first query that fails. *)
Fixpoint remoteInstances (extResources : list ExtResource) (policies : list AuthPolicy)
  : Result (list ExtResourceWithAttribute) :=
  match extResources with
  | [] => Ok []
  | resource :: rest =>
      match queryExtResourceAttrs X resource policies with
      | Err err => Err (errorWrapf PDP "QueryByExtResources" err)
      | Ok remoteResources =>
          match remoteInstances rest policies with
          | Err err => Err err
          | Ok extResourcesWithAttr =>
              Ok ({| ewa_System := ext_System resource;
                     ewa_Type := ext_Type resource;
                     ewa_Instances :=
                       map (fun rr => {| inst_ID := fmt_Sprint_id X rr;
                                         inst_Attribute := rr |})
                           remoteResources |}
                  :: extResourcesWithAttr)
          end
      end
  end.

(** [QueryByExtResources]. *)
Definition QueryByExtResources (r : Request) (extResources : list ExtResource)
    (withoutCache : bool) : Result (QueryExpr * list ExtResourceWithAttribute) :=
  let wrap := errorWrapf PDP "QueryByExtResources" in
  match queryFilterPolicies E r false withoutCache with
  | Err err => Err (wrap err)
  | Ok (r, policies) =>
      if (length policies =? 0)%nat
      then Ok (EmptyPolicies, map bareInstances extResources)
      else
        match remoteInstances extResources policies with
        | Err err => Err err
        | Ok extResourcesWithAttr =>
            match GetQueryResourceTypes E r with
            | Err err => Err (wrap err)
            | Ok queryResourceTypes =>
                match translate_PoliciesTranslate E policies queryResourceTypes with
                | Err err => Err (wrap err)
                | Ok expr => Ok (Expr expr, extResourcesWithAttr)
                end
            end
        end
  end.

End Entrance.

(** The system and the type of a resource, of the request and of the
    answer. *)
Definition extKind (resource : ExtResource) : string * string :=
  (ext_System resource, ext_Type resource).

Definition answerKind (resource : ExtResourceWithAttribute) : string * string :=
  (ewa_System resource, ewa_Type resource).

(** An environment in which the subject has one policy, which every
    resource satisfies, and in which no request has a single local
    resource. *)
Definition allowingEnv : Env :=
  {| pip_GetActionDetail := fun _ _ => Ok (7%Z, []);
     pip_GetSubjectPK := fun _ _ => Ok 1%Z;
     pip_GetSubjectDetail := fun _ => Ok ([], []);
     prp_ListBySubjectAction := fun _ _ _ _ => Ok [examplePolicy];
     evaluation_EvalPolicies := fun _ _ => (true, 100%Z, None);
     evaluation_evalPolicy := fun _ _ => true;
     translate_PoliciesTranslate := fun _ _ => Ok anyExpr;
     fillRemoteResourceAttrs := fun r _ => Ok r;
     ValidateActionResource := fun _ => true;
     ValidateActionRemoteResource := fun _ => true;
     HasSingleLocalResource := fun _ => false;
     HasRemoteResources := fun _ => false;
     GetSortedResources := req_Resources;
     GetQueryResourceTypes := fun _ => Ok [] |}.

(** An environment in which the action is not known. *)
Definition unknownActionEnv : Env :=
  {| pip_GetActionDetail := fun _ _ => Err sqlErrNoRows;
     pip_GetSubjectPK := fun _ _ => Ok 1%Z;
     pip_GetSubjectDetail := fun _ => Ok ([], []);
     prp_ListBySubjectAction := fun _ _ _ _ => Ok [examplePolicy];
     evaluation_EvalPolicies := fun _ _ => (true, 100%Z, None);
     evaluation_evalPolicy := fun _ _ => true;
     translate_PoliciesTranslate := fun _ _ => Ok anyExpr;
     fillRemoteResourceAttrs := fun r _ => Ok r;
     ValidateActionResource := fun _ => true;
     ValidateActionRemoteResource := fun _ => true;
     HasSingleLocalResource := fun _ => false;
     HasRemoteResources := fun _ => false;
     GetSortedResources := req_Resources;
     GetQueryResourceTypes := fun _ => Ok [] |}.

(** Two hosts of another system, and a remote system that knows the
    first. *)
Definition exampleExtResources : list ExtResource :=
  [ {| ext_System := "bk_cmdb"; ext_Type := "host"; ext_IDs := ["h1"; "h2"] |} ].

Definition exampleRemote : Remote :=
  {| queryExtResourceAttrs := fun _ _ =>
       Ok [ {[ "id" := Condition.AOne (PStr "h1") ]} ];
     fmt_Sprint_id := fun _ => "h1" |}.

End PDPExt.

(** ** Package [database]: the bulk update (src/unnamed/part_002) *)
Module Database.
Import GoDefer.

Section Sqlx.
(** A row of arguments, and the [interface{}] that holds the rows. *)
Context {Arg Args : Type}.

(** The calls on the database, in the order in which they are made. *)
Inductive Call : Type :=
| Beginx
| PrepareNamed (query : string)
| StmtExec (arg : Arg)
| StmtClose
| Commit
| RollBackWithLog
| LogSlowSQL (query : string).

Definition Log : Type := list Call.

(** [sqlx] and [util.ToSlice], which are not among the sources; the
    database answers from the calls made so far. *)
Record DB : Type := {
  db_Beginx : Log → option error;
  tx_PrepareNamed : Log → string → option error;
  util_ToSlice : Args → Result (list Arg);
  stmt_Exec : Log → Arg → option error;
  tx_Commit : Log → option error;
}.

Definition dbCall {A} (c : Call) (outcome : Log → A) : Go Log A :=
  perform (fun log => (outcome log, log ++ [c])).

Variable db : DB.

(** The loop of [sqlxBulkUpdateWithTx] over the rows. *)
Fixpoint execAll (argSlice : list Arg) : Go Log (option error) :=
  match argSlice with
  | [] => ret None
  | arg :: argSlice =>
      go err <- dbCall (StmtExec arg) (fun log => stmt_Exec db log arg) ;;
      match err with
      | Some err => ret (Some err)
      | None => execAll argSlice
      end
  end.

(** [sqlxBulkUpdateWithTx]. *)
Definition sqlxBulkUpdateWithTx (query : string) (args : Args)
  : Log → option error * Log :=
  call
    (go err <- dbCall (PrepareNamed query) (fun log => tx_PrepareNamed db log query) ;;
     match err with
     | Some err => ret (Some err)
     | None =>
         go _ <- defer (fun log => log ++ [StmtClose]) ;;
         match util_ToSlice db args with
         | Err err => ret (Some err)
         | Ok argSlice => execAll argSlice
         end
     end).

(** [bulkInsertWithTxTimer] and [bulkInsertTimer]:
    [defer logSlowSQL(start, query, args)], then the function. *)
Definition bulkInsertWithTxTimer
    (f : string → Args → Log → option error * Log) (query : string) (args : Args)
  : Log → option error * Log :=
  call
    (go _ <- defer (fun log => log ++ [LogSlowSQL query]) ;;
     perform (f query args)).

Definition bulkInsertTimer
    (f : string → Args → Log → option error * Log) (query : string) (args : Args)
  : Log → option error * Log :=
  call
    (go _ <- defer (fun log => log ++ [LogSlowSQL query]) ;;
     perform (f query args)).

Definition SqlxBulkUpdateWithTx : string → Args → Log → option error * Log :=
  bulkInsertWithTxTimer sqlxBulkUpdateWithTx.

(** [sqlxBulkUpdateFunc]. *)
Definition sqlxBulkUpdateFunc (query : string) (args : Args)
  : Log → option error * Log :=
  call
    (go err <- dbCall Beginx (db_Beginx db) ;;
     match err with
     | Some err => ret (Some err)
     | None =>
         go _ <- defer (fun log => log ++ [RollBackWithLog]) ;;
         go err <- perform (SqlxBulkUpdateWithTx query args) ;;
         match err with
         | Some err => ret (Some err)
         | None => dbCall Commit (tx_Commit db)
         end
     end).

Definition SqlxBulkUpdate : string → Args → Log → option error * Log :=
  bulkInsertTimer sqlxBulkUpdateFunc.

(** The calls of a bulk update that reaches its commit. *)
Definition committedCalls (query : string) (argSlice : list Arg) : list Call :=
  [Beginx; PrepareNamed query]
  ++ (StmtExec <$> argSlice)
  ++ [StmtClose; LogSlowSQL query; Commit; RollBackWithLog; LogSlowSQL query].

Definition isExec (c : Call) : bool :=
  match c with
  | StmtExec _ => true
  | _ => false
  end.

End Sqlx.

Arguments Call : clear implicits.
Arguments Log : clear implicits.
Arguments DB : clear implicits.

(** A database for the examples: the rows are numbers in a list, and the
    update of the row 13 fails. *)
Definition exampleDB : DB Z (list Z) :=
  {| db_Beginx := fun _ => None;
     tx_PrepareNamed := fun _ _ => None;
     util_ToSlice := fun args => Ok args;
     stmt_Exec := fun _ arg => if (arg =? 13)%Z then Some (ErrorNew "deadlock") else None;
     tx_Commit := fun _ => None |}.

End Database.

(** ** Package [service], continued: the removal of members
    (src/unnamed/part_002) *)
Module SubjectMembers.
Import GoDefer Util SubjectService.

(** The calls on the transaction of [BulkDeleteSubjectMembers]. *)
Inductive DeleteCall : Type :=
| Begin                                     (* database.GenerateDefaultDBTx *)
| BulkDeleteByMembersWithTx (parentPK : Z) (subjectPKs : list Z)
| BulkDeleteSubjectSystemGroup (parentPK : Z) (subjectPKs : list Z)
| Commit
| RollBack.                                 (* database.RollBackWithLog *)

Definition DeleteLog : Type := list DeleteCall.

(** What the removal calls next to the managers of the subjects:
    [bulkDeleteSubjectSystemGroup] is the function of part_001, of which
    only the outcome matters here. *)
Record DeleteManagers : Type := {
  relationManager_BulkDeleteByMembersWithTx : Z → list Z → Result Z;
  bulkDeleteSubjectSystemGroup : Z → list Z → option error;
  tx_Commit : option error;
}.

Definition deleteCall {A} (c : DeleteCall) (outcome : A) : Go DeleteLog A :=
  perform (fun log => (outcome, log ++ [c])).

Section Service.
Variable l : Managers.
Variable d : DeleteManagers.

(** [splitSubjectToPK]. *)
Definition splitSubjectToPK (subjects : list (string * string))
  : Result (list Z * list Z) :=
  match subjects with
  | [] => Ok ([], [])
  | _ :: _ =>
      match splitSubject l subjects with
      | Err err => Err err
      | Ok (users, departments) => Ok (map ds_PK users, map ds_PK departments)
      end
  end.

(** The removal of the members of one type, if there are some; the count
    is the entry of [typeCount]. *)
Definition deleteMembers (parentPK : Z) (subjectPKs : list Z)
  : Go DeleteLog (Result Z) :=
  if negb (length subjectPKs =? 0)%nat
  then deleteCall (BulkDeleteByMembersWithTx parentPK subjectPKs)
         (relationManager_BulkDeleteByMembersWithTx d parentPK subjectPKs)
  else ret (Ok 0%Z).

(** [BulkDeleteSubjectMembers]. *)
Definition BulkDeleteSubjectMembers (_type id : string) (members : list (string * string))
  : DeleteLog → Result (gmap string Z) * DeleteLog :=
  let wrap := errorWrapf SubjectSVC "BulkDeleteSubjectMember" in
  call
    match manager_GetPK l _type id with
    | Err err => ret (Err (wrap err))
    | Ok parentPK =>
        go txErr <- deleteCall Begin (database_GenerateDefaultDBTx l) ;;
        go _ <- defer (fun log => log ++ [RollBack]) ;;
        match txErr with
        | Some err => ret (Err (wrap err))
        | None =>
        match splitSubjectToPK members with
        | Err err => ret (Err (wrap err))
        | Ok (userPKs, departmentPKs) =>
            go users <- deleteMembers parentPK userPKs ;;
            match users with
            | Err err => ret (Err (wrap err))
            | Ok userCount =>
                go departments <- deleteMembers parentPK departmentPKs ;;
                match departments with
                | Err err => ret (Err (wrap err))
                | Ok departmentCount =>
                    let subjectPKs := userPKs ++ departmentPKs in
                    go err <- deleteCall (BulkDeleteSubjectSystemGroup parentPK subjectPKs)
                                (bulkDeleteSubjectSystemGroup d parentPK subjectPKs) ;;
                    match err with
                    | Some err => ret (Err (wrap err))
                    | None =>
                        go err <- deleteCall Commit (tx_Commit d) ;;
                        match err with
                        | Some err => ret (Err (wrap err))
                        | None =>
                            ret (Ok (<[ DepartmentType := departmentCount ]>
                                       (<[ UserType := userCount ]>
                                          {[ UserType := 0%Z; DepartmentType := 0%Z ]})))
                        end
                    end
                end
            end
        end
        end
    end.

End Service.

(** The calls of a removal that reaches its commit. *)
Definition removalCalls (parentPK : Z) (userPKs departmentPKs : list Z)
  : list DeleteCall :=
  [Begin]
  ++ (if (length userPKs =? 0)%nat then []
      else [BulkDeleteByMembersWithTx parentPK userPKs])
  ++ (if (length departmentPKs =? 0)%nat then []
      else [BulkDeleteByMembersWithTx parentPK departmentPKs])
  ++ [BulkDeleteSubjectSystemGroup parentPK (userPKs ++ departmentPKs); Commit; RollBack].

(** The count of the members removed of one type: without member to
    remove, nothing is asked. *)
Definition removedCount (d : DeleteManagers) (parentPK : Z) (subjectPKs : list Z)
  : Result Z :=
  if (length subjectPKs =? 0)%nat then Ok 0%Z
  else relationManager_BulkDeleteByMembersWithTx d parentPK subjectPKs.

(** Managers that remove every member they are asked to. *)
Definition removingManagers : DeleteManagers :=
  {| relationManager_BulkDeleteByMembersWithTx := fun _ pks => Ok (Z.of_nat (length pks));
     bulkDeleteSubjectSystemGroup := fun _ _ => None;
     tx_Commit := None |}.

End SubjectMembers.

(** ** Package [service], continued: the listing of members
    (src/unnamed/part_002) *)
Module SubjectMemberList.
Import Util SubjectService.

(** [dao.SubjectRelation] as the listing reads it. *)
Record MemberRelation : Type := {
  mr_PK : Z;
  mr_SubjectPK : Z;
  mr_PolicyExpiredAt : Z;
  mr_CreateAt : Z;
}.

(** [types.SubjectMember]. *)
Record SubjectMember : Type := {
  sm_PK : Z;
  sm_Type : string;
  sm_ID : string;
  sm_PolicyExpiredAt : Z;
  sm_CreateAt : Z;
}.

(** The managers that the listing reads. *)
Record ListManagers : Type := {
  manager_GetPK : string → string → Result Z;
  manager_ListByPKs : list Z → Result (list DaoSubject);
  relationManager_ListMember : Z → Result (list MemberRelation);
}.

Section Service.
Variable l : ListManagers.

(** [getSubjectMapByPKs]; the nil map of the empty case reads as the
    empty map. *)
Definition getSubjectMapByPKs (pks : list Z) : Result (gmap Z DaoSubject) :=
  match pks with
  | [] => Ok ∅
  | _ :: _ =>
      match manager_ListByPKs l pks with
      | Err err => Err err
      | Ok subjects => Ok (foldl (fun subjectMap s => <[ ds_PK s := s ]> subjectMap) ∅ subjects)
      end
  end.

(** The member of a relation: the type and the id are those of the subject
    of the map, and stay empty without one. *)
Definition memberOf (subjectMap : gmap Z DaoSubject) (r : MemberRelation) : SubjectMember :=
  let '(_type, id) :=
    match subjectMap !! mr_SubjectPK r with
    | Some subject => (ds_Type subject, ds_ID subject)
    | None => (EmptyString, EmptyString)
    end in
  {| sm_PK := mr_PK r; sm_Type := _type; sm_ID := id;
     sm_PolicyExpiredAt := mr_PolicyExpiredAt r; sm_CreateAt := mr_CreateAt r |}.

(** [convertToSubjectMembers]. *)
Definition convertToSubjectMembers (daoRelations : list MemberRelation)
  : Result (list SubjectMember) :=
  match daoRelations with
  | [] => Ok []
  | _ :: _ =>
      match getSubjectMapByPKs (map mr_SubjectPK daoRelations) with
      | Err err => Err err
      | Ok subjectMap => Ok (map (memberOf subjectMap) daoRelations)
      end
  end.

(** [ListMember]. *)
Definition ListMember (_type id : string) : Result (list SubjectMember) :=
  let wrap := errorWrapf SubjectSVC "ListMember" in
  match manager_GetPK l _type id with
  | Err err => Err (wrap err)
  | Ok pk =>
      match relationManager_ListMember l pk with
      | Err err => Err (wrap err)
      | Ok daoRelations =>
          match convertToSubjectMembers daoRelations with
          | Err err => Err (wrap err)
          | Ok members => Ok members
          end
      end
  end.

End Service.

(** The last of the listed subjects that has a pk. *)
Definition lastListed (subjects : list DaoSubject) (pk : Z) : option DaoSubject :=
  last (List.filter (fun s => (ds_PK s =? pk)%Z) subjects).

(** How a member renders a relation, given the subjects that were listed. *)
Definition renders (subjects : list DaoSubject) (r : MemberRelation) (m : SubjectMember)
  : Prop :=
  sm_PK m = mr_PK r
  ∧ sm_PolicyExpiredAt m = mr_PolicyExpiredAt r
  ∧ sm_CreateAt m = mr_CreateAt r
  ∧ match lastListed subjects (mr_SubjectPK r) with
    | Some subject => sm_Type m = ds_Type subject ∧ sm_ID m = ds_ID subject
    | None => sm_Type m = EmptyString ∧ sm_ID m = EmptyString
    end.

(** A group with two members, the subject of the second of which is gone. *)
Definition orphanManagers : ListManagers :=
  {| manager_GetPK := fun _ _ => Ok 9%Z;
     manager_ListByPKs := fun _ => Ok [ {| ds_PK := 1; ds_Type := "user"; ds_ID := "u1" |} ];
     relationManager_ListMember := fun _ =>
       Ok [ {| mr_PK := 50; mr_SubjectPK := 1; mr_PolicyExpiredAt := 500; mr_CreateAt := 10 |};
            {| mr_PK := 51; mr_SubjectPK := 2; mr_PolicyExpiredAt := 900; mr_CreateAt := 20 |} ] |}.

End SubjectMemberList.

(** ** Package [handler]: the removal of subjects (src/unnamed/part_003) *)
Module Handler.

(** [types.GroupType], the type of the user groups. *)
Definition GroupType : string := "group".

(** The three answers of a handler. *)
Inductive Response : Type :=
| BadRequestErrorJSONResponse (message : string)
| SystemErrorJSONResponse (err : error)
| SuccessJSONResponse.

(** The calls of the handlers, in the order in which they are made. *)
Inductive Event : Type :=
| GetSubjectPK (_type id : string)
| BulkDelete (subjects : list (string * string))
| BatchDeleteSubjectCache (pks : list Z)
| DeleteSubjectPK (_type id : string)
| DeleteLocalSubjectPK (_type id : string)
| ListAll
| BatchDeleteSystemSubjectPKsFromCache (systemIDs : list string) (pks : list Z)
| Respond (response : Response).

(** The services and the caches that the handlers call, and the checks of
    the body; [GetSubjectPK] returns a pk with its error, as in Go.
    [copier.Copy] copies the type and the id of every subject, which are
    the pairs of this model. *)
Record Services : Type := {
  util_ValidationErrorMessage : error → string;
  common_ValidateArray : list (string * string) → bool * string;
  cacheimpls_GetSubjectPK : string → string → Z * option error;
  svc_BulkDelete : list (string * string) → Result (list Z);
  systemSVC_ListAll : Result (list string);      (* the ids of the systems *)
}.

Section Handlers.
Variable h : Services.

(** [deleteGroupPKPolicyCache]; its errors are logged. *)
Definition deleteGroupPKPolicyCache (groupPKs : list Z) : list Event :=
  ListAll
  :: match systemSVC_ListAll h with
     | Err _ => []
     | Ok systemIDs => [BatchDeleteSystemSubjectPKsFromCache systemIDs groupPKs]
     end.

(** The loop of [BatchDeleteSubjects] that collects the pks of the groups:
    the calls, and the pks found. *)
Fixpoint collectGroupPKs (subjects : list (string * string)) : list Event * list Z :=
  match subjects with
  | [] => ([], [])
  | s :: subjects =>
      let '(events, groupPKs) := collectGroupPKs subjects in
      if bool_decide (s.1 = GroupType) then
        match cacheimpls_GetSubjectPK h s.1 s.2 with
        | (_, Some _) => (GetSubjectPK s.1 s.2 :: events, groupPKs)
        | (gPK, None) => (GetSubjectPK s.1 s.2 :: events, gPK :: groupPKs)
        end
      else (events, groupPKs)
  end.

(** [BatchDeleteSubjects], on the outcome of [c.ShouldBindJSON]. *)
Definition BatchDeleteSubjects (body : Result (list (string * string))) : list Event :=
  match body with
  | Err err => [Respond (BadRequestErrorJSONResponse (util_ValidationErrorMessage h err))]
  | Ok subjects =>
      match common_ValidateArray h subjects with
      | (false, message) => [Respond (BadRequestErrorJSONResponse message)]
      | (true, _) =>
          let '(lookups, groupPKs) := collectGroupPKs subjects in
          lookups ++ BulkDelete subjects
          :: match svc_BulkDelete h subjects with
             | Err err =>
                 [Respond (SystemErrorJSONResponse
                             (errorWrapf "Handler" "BatchDeleteSubjects" err))]
             | Ok pks =>
                 BatchDeleteSubjectCache pks
                 :: flat_map (fun s => [DeleteSubjectPK s.1 s.2;
                                        DeleteLocalSubjectPK s.1 s.2]) subjects
                 ++ deleteGroupPKPolicyCache groupPKs
                 ++ [Respond SuccessJSONResponse]
             end
      end
  end.

End Handlers.

Definition isResponse (e : Event) : bool :=
  match e with
  | Respond _ => true
  | _ => false
  end.

(** Whether a call deletes from a cache. *)
Definition isCacheDeletion (e : Event) : bool :=
  match e with
  | BatchDeleteSubjectCache _ | DeleteSubjectPK _ _ | DeleteLocalSubjectPK _ _
  | BatchDeleteSystemSubjectPKsFromCache _ _ => true
  | _ => false
  end.

(** The lookups of a pk. *)
Definition isLookup (e : Event) : bool :=
  match e with
  | GetSubjectPK _ _ => true
  | _ => false
  end.

(** The groups among some subjects whose pk is found. *)
Definition foundGroupPKs (h : Services) (subjects : list (string * string)) : list Z :=
  omap (fun s => if bool_decide (s.1 = GroupType)
                 then match cacheimpls_GetSubjectPK h s.1 s.2 with
                      | (gPK, None) => Some gPK
                      | (_, Some _) => None
                      end
                 else None) subjects.

(** Services for the examples: the group [g2] is not in the cache. *)
Definition exampleServices : Services :=
  {| util_ValidationErrorMessage := fun _ => "invalid";
     common_ValidateArray := fun _ => (true, "valid");
     cacheimpls_GetSubjectPK := fun _ id =>
       if String.eqb id "g1" then (9%Z, None) else (0%Z, Some sqlErrNoRows);
     svc_BulkDelete := fun _ => Ok [9%Z; 1%Z];
     systemSVC_ListAll := Ok ["bk_cmdb"] |}.

End Handler.

(* ===================================================================== *)
(** * Part II: lemmas and theorems                                        *)
(* ===================================================================== *)

Section TranslateFacts.
Import Translate.

(** The unit tests of [mergeContentField] (expression_test.go). *)
Example merge_empty_content : mergeContentField [] = [].
Proof. reflexivity. Qed.

Example merge_ok_merge :
  mergeContentField
    [ Leaf "in" "host.id" (VMany [PStr "a"; PStr "b"]);
      Leaf "eq" "host.id" (VOne (PStr "c"));
      Leaf "in" "host.id" (VMany [PStr "d"; PStr "f"]);
      Leaf "eq" "host.id" (VOne (PStr "g")) ]
  = [ Leaf "in" "host.id"
        (VMany [PStr "a"; PStr "b"; PStr "c"; PStr "d"; PStr "f"; PStr "g"]) ].
Proof. reflexivity. Qed.

Example merge_not_same_field :
  mergeContentField
    [ Leaf "in" "host.os" (VMany [PStr "abc"; PStr "def"]);
      Leaf "eq" "host.id" (VOne (PStr "abc")) ]
  = [ Leaf "in" "host.os" (VMany [PStr "abc"; PStr "def"]);
      Leaf "eq" "host.id" (VOne (PStr "abc")) ].
Proof. reflexivity. Qed.

Example merge_not_eq_or_in :
  length (mergeContentField
            [ Leaf "in" "host.id" (VMany [PStr "abc"; PStr "def"]);
              Node "AND" [] ]) = 2%nat.
Proof. reflexivity. Qed.

Example merge_part_2 :
  mergeContentField
    [ Leaf "in" "host.id" (VMany [PStr "abc"; PStr "def"]);
      Leaf "eq" "host.id" (VOne (PStr "abc"));
      Node "AND" [] ]
  = [ Node "AND" [];
      Leaf "in" "host.id" (VMany [PStr "abc"; PStr "def"; PStr "abc"]) ].
Proof. reflexivity. Qed.

(** On the same content the reading "at the position of the first
    mergeable entry" puts the merged leaf before the AND cell. *)
Example mergeAtFirstEntry_part_2 :
  mergeAtFirstEntry []
    [ Leaf "in" "host.id" (VMany [PStr "abc"; PStr "def"]);
      Leaf "eq" "host.id" (VOne (PStr "abc"));
      Node "AND" [] ]
  = [ Leaf "in" "host.id" (VMany [PStr "abc"; PStr "def"; PStr "abc"]);
      Node "AND" [] ].
Proof. reflexivity. Qed.

Example merge_part :
  mergeContentField
    [ Leaf "in" "host.id" (VMany [PStr "abc"; PStr "def"]);
      Node "AND" [];
      Leaf "eq" "host.id" (VOne (PStr "abc")) ]
  = [ Node "AND" [];
      Leaf "in" "host.id" (VMany [PStr "abc"; PStr "def"; PStr "abc"]) ].
Proof. reflexivity. Qed.

(** *** The pass over the content computes the groups per field *)

Lemma firstSeen_snoc (l : list string) (x : string) :
  firstSeen (l ++ [x])
  = if bool_decide (x ∈ firstSeen l) then firstSeen l else firstSeen l ++ [x].
Proof. unfold firstSeen. rewrite foldl_app. reflexivity. Qed.

Lemma elem_of_firstSeen (l : list string) (x : string) :
  x ∈ firstSeen l ↔ x ∈ l.
Proof.
  induction l as [|y l IH] using rev_ind; [reflexivity|].
  rewrite firstSeen_snoc. case_bool_decide as Hy.
  - rewrite elem_of_app, <- IH, list_elem_of_singleton.
    split; [tauto|]. intros [H| ->]; assumption.
  - rewrite !elem_of_app, IH. reflexivity.
Qed.

Lemma NoDup_firstSeen (l : list string) : NoDup (firstSeen l).
Proof.
  induction l as [|y l IH] using rev_ind; [constructor|].
  rewrite firstSeen_snoc. case_bool_decide as Hy; [assumption|].
  apply NoDup_app. split; [assumption|]. split.
  - intros x Hx Hx'. apply list_elem_of_singleton in Hx'. subst. tauto.
  - apply NoDup_singleton.
Qed.

Lemma firstSeen_fold_NoDup (acc l : list string) :
  NoDup (acc ++ l) →
  foldl (fun acc f => if bool_decide (f ∈ acc) then acc else acc ++ [f]) acc l
  = acc ++ l.
Proof.
  revert acc. induction l as [|x l IH]; intros acc Hnd; simpl.
  - by rewrite app_nil_r.
  - apply NoDup_app in Hnd as Hnd'. destruct Hnd' as (_ & Hdisj & _).
    rewrite bool_decide_eq_false_2.
    + rewrite IH; rewrite <- app_assoc; [reflexivity | assumption].
    + intros Hx. apply (Hdisj x Hx). left.
Qed.

Lemma firstSeen_NoDup_id (l : list string) : NoDup l → firstSeen l = l.
Proof. intros H. unfold firstSeen. by rewrite firstSeen_fold_NoDup. Qed.

Lemma addToGroup_known (F : string → list ExprCell) fs f e :
  NoDup fs → f ∈ fs →
  addToGroup f e (map (fun f' => (f', F f')) fs)
  = map (fun f' => (f', if bool_decide (f' = f) then F f' ++ [e] else F f')) fs.
Proof.
  induction fs as [|a fs IH]; intros Hnd Hin; [by apply elem_of_nil in Hin|].
  apply NoDup_cons in Hnd as [Ha Hnd]. simpl.
  case_bool_decide as Haf.
  - subst a. f_equal. apply map_ext_in. intros f' Hf'.
    apply list_elem_of_In in Hf'.
    rewrite bool_decide_eq_false_2; [reflexivity|]. intros ->. tauto.
  - f_equal. apply IH; [assumption|].
    apply elem_of_cons in Hin as [->|]; [tauto | assumption].
Qed.

Lemma addToGroup_fresh (F : string → list ExprCell) fs f e :
  f ∉ fs →
  addToGroup f e (map (fun f' => (f', F f')) fs)
  = map (fun f' => (f', F f')) fs ++ [(f, [e])].
Proof.
  induction fs as [|a fs IH]; intros Hin; [reflexivity|]. simpl.
  apply not_elem_of_cons in Hin as [Hne Hin].
  rewrite bool_decide_eq_false_2 by congruence. by rewrite IH.
Qed.

Lemma sameField_filter_nil (content : list ExprCell) (f : string) :
  f ∉ map Field (List.filter isMergeable content) →
  List.filter (sameField f) content = [].
Proof.
  induction content as [|e content IH]; [reflexivity|]. simpl.
  unfold sameField at 1. destruct (isMergeable e) eqn:He; simpl.
  - intros Hin. apply not_elem_of_cons in Hin as [Hne Hin].
    rewrite bool_decide_eq_false_2 by congruence. auto.
  - auto.
Qed.

Lemma groupsOf_snoc_mergeable (content : list ExprCell) (e : ExprCell) :
  isMergeable e = true →
  groupsOf (content ++ [e]) = addToGroup (Field e) e (groupsOf content).
Proof.
  intros He. unfold groupsOf, mergeableFields.
  rewrite List.filter_app, map_app. simpl. rewrite He. simpl.
  rewrite firstSeen_snoc.
  set (FS := firstSeen (map Field (List.filter isMergeable content))).
  assert (HFS : NoDup FS) by apply NoDup_firstSeen.
  case_bool_decide as Hin.
  - rewrite addToGroup_known by assumption.
    apply map_ext. intros f. rewrite List.filter_app. simpl.
    unfold sameField at 2. rewrite He. simpl.
    destruct (decide (f = Field e)) as [->|Hne].
    + by rewrite !bool_decide_eq_true_2.
    + rewrite !bool_decide_eq_false_2 by congruence. by rewrite app_nil_r.
  - rewrite map_app. simpl. rewrite addToGroup_fresh by assumption. f_equal.
    + apply map_ext_in. intros f Hf. apply list_elem_of_In in Hf.
      rewrite List.filter_app. simpl. unfold sameField at 2. rewrite He. simpl.
      rewrite bool_decide_eq_false_2; [by rewrite app_nil_r|].
      intros Heq. subst f. tauto.
    + rewrite List.filter_app. simpl. unfold sameField at 2. rewrite He. simpl.
      rewrite bool_decide_eq_true_2 by reflexivity.
      rewrite sameField_filter_nil; [reflexivity|].
      intros Hf. apply Hin. by apply elem_of_firstSeen.
Qed.

Lemma groupsOf_snoc_other (content : list ExprCell) (e : ExprCell) :
  isMergeable e = false → groupsOf (content ++ [e]) = groupsOf content.
Proof.
  intros He. unfold groupsOf, mergeableFields.
  rewrite List.filter_app. simpl. rewrite He, app_nil_r.
  apply map_ext. intros f. rewrite List.filter_app. simpl.
  unfold sameField at 2. rewrite He. simpl. by rewrite app_nil_r.
Qed.

Lemma splitContent_spec (content : list ExprCell) :
  splitContent content = (List.filter notMergeable content, groupsOf content).
Proof.
  induction content as [|e content IH] using rev_ind; [reflexivity|].
  unfold splitContent in *. rewrite foldl_app, IH. simpl.
  unfold splitStep. simpl. rewrite List.filter_app. simpl.
  assert (Hn : notMergeable e = negb (isMergeable e)) by reflexivity.
  rewrite Hn. destruct (isMergeable e) eqn:He; simpl.
  - by rewrite groupsOf_snoc_mergeable, app_nil_r.
  - by rewrite groupsOf_snoc_other.
Qed.

Lemma mergeContentField_unfold (content : list ExprCell) :
  mergeContentField content
  = List.filter notMergeable content
    ++ map (fun f => collapse (f, List.filter (sameField f) content))
           (mergeableFields content).
Proof.
  unfold mergeContentField. rewrite splitContent_spec.
  f_equal. unfold groupsOf. by rewrite map_map.
Qed.

Lemma elem_of_mergeableFields (content : list ExprCell) (f : string) :
  f ∈ mergeableFields content
  ↔ ∃ e, e ∈ content ∧ isMergeable e = true ∧ Field e = f.
Proof.
  unfold mergeableFields. rewrite elem_of_firstSeen, list_elem_of_In, in_map_iff.
  split.
  - intros (e & Hf & He). apply filter_In in He as [He Hm].
    exists e. by rewrite list_elem_of_In.
  - intros (e & He & Hm & Hf). exists e. split; [assumption|].
    apply filter_In. by rewrite <- list_elem_of_In.
Qed.

(** C2, as the unit tests have it. The leaves that are not [eq]/[in] keep
    their order and come first; they are followed by one leaf per field of
    the [eq]/[in] leaves, the fields in the order they are first met: the
    leaf itself when the field has one leaf, else an [in] leaf whose values
    are those of the leaves of the field, concatenated in input order. *)
Theorem mergeContentField_layout (content : list ExprCell) :
  mergeContentField content
  = List.filter notMergeable content
    ++ map (fun f =>
              match List.filter (sameField f) content with
              | [e] => e
              | es => Leaf "in" f (VMany (concat (map leafValues es)))
              end)
           (mergeableFields content)
  ∧ NoDup (mergeableFields content)
  ∧ (∀ f, f ∈ mergeableFields content
          ↔ ∃ e, e ∈ content ∧ isMergeable e = true ∧ Field e = f).
Proof.
  split; [apply mergeContentField_unfold|].
  split; [apply NoDup_firstSeen | apply elem_of_mergeableFields].
Qed.

(** C2 as the claim states it fails: on the content of the unit test
    "ok, merge part 2" the first mergeable entry is at position 0, and the
    merged leaf is at position 1, after the AND cell. *)
Lemma mergeContentField_not_at_first_entry :
  ¬ (∀ content : list ExprCell,
       mergeContentField content = mergeAtFirstEntry [] content).
Proof.
  intros H.
  specialize (H [ Leaf "in" "host.id" (VMany [PStr "abc"; PStr "def"]);
                  Leaf "eq" "host.id" (VOne (PStr "abc"));
                  Node "AND" [] ]).
  vm_compute in H. discriminate H.
Qed.

(** *** Merging twice *)

Lemma collapse_sameField (content : list ExprCell) (f : string) :
  sameField f (collapse (f, List.filter (sameField f) content)) = true.
Proof.
  unfold collapse. simpl.
  destruct (List.filter (sameField f) content) as [|e [|e' es]] eqn:Hf.
  - unfold sameField. simpl. by rewrite bool_decide_eq_true_2.
  - assert (He : In e (List.filter (sameField f) content)) by (rewrite Hf; left; reflexivity).
    by apply filter_In in He as [_ He].
  - unfold sameField. simpl. by rewrite bool_decide_eq_true_2.
Qed.

Lemma filter_sameField_map (h : string → ExprCell) (fs : list string) (f : string) :
  (∀ f', sameField f' (h f') = true) → NoDup fs → f ∈ fs →
  List.filter (sameField f) (map h fs) = [h f].
Proof.
  intros Hh. induction fs as [|a fs IH]; intros Hnd Hin; [by apply elem_of_nil in Hin|].
  apply NoDup_cons in Hnd as [Ha Hnd]. simpl.
  assert (Hfield : ∀ f', Field (h f') = f').
  { intros f'. specialize (Hh f'). unfold sameField in Hh.
    apply andb_true_iff in Hh as [_ Hh]. by apply bool_decide_eq_true in Hh. }
  assert (Hmer : ∀ f', isMergeable (h f') = true).
  { intros f'. specialize (Hh f'). unfold sameField in Hh.
    by apply andb_true_iff in Hh as [Hh _]. }
  destruct (decide (a = f)) as [->|Hne].
  - rewrite Hh. f_equal.
    clear IH Hin Hnd. induction fs as [|b fs IH]; [reflexivity|]. simpl.
    apply not_elem_of_cons in Ha as [Hb Ha].
    unfold sameField at 1. rewrite Hmer, Hfield. simpl.
    rewrite bool_decide_eq_false_2 by congruence. auto.
  - unfold sameField at 1. rewrite Hmer, Hfield. simpl.
    rewrite bool_decide_eq_false_2 by congruence.
    apply IH; [assumption|].
    apply elem_of_cons in Hin as [->|]; [congruence | assumption].
Qed.

Lemma filter_filter_same {A} (p : A → bool) (l : list A) :
  List.filter p (List.filter p l) = List.filter p l.
Proof.
  induction l as [|x l IH]; [reflexivity|]. simpl.
  destruct (p x) eqn:Hx; simpl; rewrite ?Hx; congruence.
Qed.

Lemma filter_none {A} (p : A → bool) (l : list A) :
  (∀ x, In x l → p x = false) → List.filter p l = [].
Proof.
  induction l as [|x l IH]; intros H; [reflexivity|]. simpl.
  rewrite (H x) by (left; reflexivity). apply IH. intros y Hy. apply H. by right.
Qed.

Lemma filter_all {A} (p : A → bool) (l : list A) :
  (∀ x, In x l → p x = true) → List.filter p l = l.
Proof.
  induction l as [|x l IH]; intros H; [reflexivity|]. simpl.
  rewrite (H x) by (left; reflexivity). f_equal. apply IH. intros y Hy. apply H. by right.
Qed.

(** C9. Merging a merged content changes nothing. *)
Theorem mergeContentField_idempotent (content : list ExprCell) :
  mergeContentField (mergeContentField content) = mergeContentField content.
Proof.
  rewrite (mergeContentField_unfold content).
  set (N := List.filter notMergeable content).
  set (FS := mergeableFields content).
  set (h := fun f => collapse (f, List.filter (sameField f) content)).
  assert (Hh : ∀ f, sameField f (h f) = true) by (intros f; apply collapse_sameField).
  assert (Hmer : ∀ f, isMergeable (h f) = true).
  { intros f. specialize (Hh f). unfold sameField in Hh.
    by apply andb_true_iff in Hh as [Hh _]. }
  assert (Hfield : ∀ f, Field (h f) = f).
  { intros f. specialize (Hh f). unfold sameField in Hh.
    apply andb_true_iff in Hh as [_ Hh]. by apply bool_decide_eq_true in Hh. }
  assert (HN : ∀ e, In e N → isMergeable e = false).
  { intros e He. apply filter_In in He as [_ He].
    unfold notMergeable in He. by apply negb_true_iff in He. }
  assert (HFS : NoDup FS) by apply NoDup_firstSeen.
  rewrite mergeContentField_unfold.
  assert (Hfields : mergeableFields (N ++ map h FS) = FS).
  { unfold mergeableFields. rewrite List.filter_app.
    rewrite (filter_none isMergeable N) by assumption. simpl.
    rewrite filter_all.
    - rewrite map_map. rewrite (map_ext _ id) by apply Hfield.
      rewrite map_id. by apply firstSeen_NoDup_id.
    - intros e He. apply in_map_iff in He as (f & <- & _). apply Hmer. }
  rewrite Hfields. f_equal.
  - rewrite List.filter_app. unfold N at 1. rewrite filter_filter_same.
    rewrite (filter_none notMergeable (map h FS)); [by rewrite app_nil_r|].
    intros e He. apply in_map_iff in He as (f & <- & _).
    unfold notMergeable. by rewrite Hmer.
  - apply map_ext_in. intros f Hf. apply list_elem_of_In in Hf.
    rewrite List.filter_app.
    rewrite (filter_none (sameField f) N).
    + simpl. by rewrite filter_sameField_map.
    + intros e He. unfold sameField. by rewrite (HN e He).
Qed.

End TranslateFacts.

Section PolicyTranslateFacts.
Import Translate.
Context {Cond : Type}.
Variable unmarshal : string → option (list (ResourceExpression Cond)).
Variable singleTranslate : Cond → string → Result ExprCell.

Lemma translateRequested_none (exprs : list (ResourceExpression Cond))
    (requested : gset string) :
  Forall (fun x => resourceTypeKey (re_System x) (re_Type x) ∉ requested) exprs →
  translateRequested singleTranslate exprs requested = Ok [].
Proof.
  induction 1 as [|x exprs Hx _ IH]; [reflexivity|]. simpl.
  by rewrite bool_decide_eq_false_2.
Qed.

(** C7. A stored expression that is the empty string or ["[]"], or none of
    whose elements is of a requested resource type, translates to the
    universal cell, whatever the requested types are; so does the list
    that holds that one policy. *)
Theorem PolicyTranslate_no_requested_type (resourceExpression : string)
    (requested : gset string) :
  bindsNoRequestedType unmarshal resourceExpression requested →
  PolicyTranslate unmarshal singleTranslate resourceExpression requested
  = Ok anyExpr
  ∧ ∀ (p : AuthPolicy) (rts : list ActionResourceType),
      ap_Expression p = resourceExpression →
      resourceTypeSet rts = requested →
      PoliciesTranslate unmarshal singleTranslate [p] rts = Ok anyExpr.
Proof.
  intros H.
  assert (HP : PolicyTranslate unmarshal singleTranslate resourceExpression requested
               = Ok anyExpr).
  { unfold PolicyTranslate.
    destruct H as [-> | [-> | (exprs & Hparse & Hnone)]]; [reflexivity..|].
    destruct (bool_decide (resourceExpression = "")
              || bool_decide (resourceExpression = "[]")); [reflexivity|].
    by rewrite Hparse, translateRequested_none. }
  split; [exact HP|].
  intros p rts Hp Hrts. unfold PoliciesTranslate. simpl.
  by rewrite Hp, Hrts, HP.
Qed.

End PolicyTranslateFacts.

Section PolicyTranslateExamples.
Import Translate.

(** The unit tests "ok, any, expression=``" and "ok, any, expression=`[]`". *)
Example PolicyTranslate_empty_string :
  PolicyTranslate exampleUnmarshal exampleSingleTranslate "" ∅ = Ok anyExpr.
Proof. reflexivity. Qed.

Example PolicyTranslate_empty_array :
  PolicyTranslate exampleUnmarshal exampleSingleTranslate "[]" ∅ = Ok anyExpr.
Proof. reflexivity. Qed.

(** The unit test "ok, resourceTypeSet not match, return any". *)
Lemma PolicyTranslate_no_requested_type_witness :
  bindsNoRequestedType exampleUnmarshal hostExpression {[ "bk_test:job" ]}
  ∧ (PolicyTranslate exampleUnmarshal exampleSingleTranslate hostExpression
       {[ "bk_test:job" ]}
     = Ok anyExpr
     ∧ ∀ (p : AuthPolicy) (rts : list ActionResourceType),
         ap_Expression p = hostExpression →
         resourceTypeSet rts = {[ "bk_test:job" ]} →
         PoliciesTranslate exampleUnmarshal exampleSingleTranslate [p] rts
         = Ok anyExpr).
Proof.
  assert (H : bindsNoRequestedType exampleUnmarshal hostExpression {[ "bk_test:job" ]}).
  { right; right. eexists. split; [reflexivity|].
    repeat constructor. simpl. intros Hin.
    apply elem_of_singleton in Hin. discriminate Hin. }
  split; [exact H|].
  exact (PolicyTranslate_no_requested_type exampleUnmarshal exampleSingleTranslate
           hostExpression {[ "bk_test:job" ]} H).
Defined.

(** The unit test "ok, single": a requested type is translated. *)
Example PolicyTranslate_single :
  PolicyTranslate exampleUnmarshal exampleSingleTranslate hostExpression
    {[ "bk_cmdb:host" ]}
  = Ok (Node "OR" [Leaf "eq" "host.id" (VOne (PStr "abc"))]).
Proof. vm_compute. reflexivity. Qed.

End PolicyTranslateExamples.

Section ConditionFacts.
Import Translate Condition.

(** The unit tests of [forOr]. *)
Example forOr_GetAttr_fail : forOr testCondition errCtx testFn = false.
Proof. reflexivity. Qed.

Example forOr_single_hit :
  forOr testCondition (ctx 1) testFn = true ∧ forOr testCondition (ctx 2) testFn = true.
Proof. split; reflexivity. Qed.

Example forOr_single_missing : forOr testCondition (ctx 3) testFn = false.
Proof. reflexivity. Qed.

Example forOr_list_hit : forOr testCondition (listCtx [PInt 2; PInt 3]) testFn = true.
Proof. reflexivity. Qed.

Example forOr_list_missing : forOr testCondition (listCtx [PInt 3; PInt 4]) testFn = false.
Proof. reflexivity. Qed.

Lemma Eval_leaf_forOr (g : AttributeGetter) (op : Operator) (c : baseCondition) :
  op ≠ Any → Eval g (CLeaf op c) = forOr c g (operatorFn op).
Proof. intros Hop. destruct op; try reflexivity. congruence. Qed.

(** C8. When the attribute fetch of a leaf fails, the leaf is false: in
    [forOr] for every operator function, hence for every leaf that fetches
    its attribute (all but [Any], which fetches nothing). The failure is
    not seen above the leaf: an AND that holds the leaf is false, an OR
    that holds it has the value of the OR of its other children. An
    attribute that the resource does not have is such a failure. *)
Theorem forOr_fetch_error (c : baseCondition) :
  (∀ g e,
     GetAttr g (Key c) = Err e →
     (∀ fn, forOr c g fn = false)
     ∧ (∀ op, op ≠ Any → Eval g (CLeaf op c) = false)
     ∧ (∀ op before after, op ≠ Any →
          Eval g (CAnd (before ++ CLeaf op c :: after)) = false)
     ∧ (∀ op before after, op ≠ Any →
          Eval g (COr (before ++ CLeaf op c :: after))
          = Eval g (COr (before ++ after))))
  ∧ (∀ full attribute,
       attribute !! Key c = None →
       GetAttr (resourceCtx full attribute) (Key c) = Err (ErrorNew "missing key")).
Proof.
  split.
  - intros g e Hfetch.
    assert (Hfor : ∀ fn, forOr c g fn = false).
    { intros fn. unfold forOr. by rewrite Hfetch. }
    assert (Hleaf : ∀ op, op ≠ Any → Eval g (CLeaf op c) = false).
    { intros op Hop. by rewrite Eval_leaf_forOr. }
    repeat split; try assumption.
    + intros op before after Hop.
      change (forallb (Eval g) (before ++ CLeaf op c :: after) = false).
      rewrite forallb_app.
      change (forallb (Eval g) (CLeaf op c :: after))
        with (Eval g (CLeaf op c) && forallb (Eval g) after).
      rewrite (Hleaf op Hop). apply andb_false_r.
    + intros op before after Hop.
      change (existsb (Eval g) (before ++ CLeaf op c :: after)
              = existsb (Eval g) (before ++ after)).
      rewrite !existsb_app.
      change (existsb (Eval g) (CLeaf op c :: after))
        with (Eval g (CLeaf op c) || existsb (Eval g) after).
      by rewrite (Hleaf op Hop).
  - intros full attribute Hmiss. simpl. by rewrite Hmiss.
Qed.

(** The boundary case of the spec: a fetch error inside an OR with one
    valid branch. *)
Lemma forOr_fetch_error_witness :
  GetAttr errCtx (Key idCondition) = Err (ErrorNew "missing key")
  ∧ ((∀ fn, forOr idCondition errCtx fn = false)
     ∧ (∀ op, op ≠ Any → Eval errCtx (CLeaf op idCondition) = false)
     ∧ (∀ op before after, op ≠ Any →
          Eval errCtx (CAnd (before ++ CLeaf op idCondition :: after)) = false)
     ∧ (∀ op before after, op ≠ Any →
          Eval errCtx (COr (before ++ CLeaf op idCondition :: after))
          = Eval errCtx (COr (before ++ after)))).
Proof.
  split; [reflexivity|].
  exact (proj1 (forOr_fetch_error idCondition) errCtx (ErrorNew "missing key") eq_refl).
Defined.

(** The operators and the composites on small contexts (spec 4.A). *)
Example Eval_operators :
  Eval (resourceCtx (fun _ => Err (ErrorNew "missing key")) {[ "id" := AOne (PStr "j1") ]})
       (CLeaf StringEquals {| Key := "id"; Value := [PStr "j0"; PStr "j1"] |}) = true
  ∧ Eval (listCtx [PStr "abcdef"])
         (CLeaf StartsWith {| Key := "path"; Value := [PStr "abc"] |}) = true
  ∧ Eval (listCtx [PStr "abcdef"])
         (CLeaf EndsWith {| Key := "path"; Value := [PStr "def"] |}) = true
  ∧ Eval (listCtx [PStr "abcdef"])
         (CLeaf StringContains {| Key := "path"; Value := [PStr "cd"] |}) = true
  ∧ Eval (listCtx [PStr "abcdef"])
         (CLeaf StringPrefix {| Key := "path"; Value := [PStr "bcd"] |}) = false
  ∧ Eval (ctx 5) (CLeaf NumericGt {| Key := "n"; Value := [PInt 7; PInt 3] |}) = true
  ∧ Eval (ctx 5) (CLeaf NumericLte {| Key := "n"; Value := [PInt 4] |}) = false
  ∧ Eval (ctx 5) (CLeaf StringEquals {| Key := "n"; Value := [PStr "5"] |}) = false
  ∧ Eval (ctx 5) (CAnd []) = true
  ∧ Eval (ctx 5) (COr []) = false.
Proof. repeat split; vm_compute; reflexivity. Qed.

(** A resource without attributes: every leaf but [Any] is false. *)
Example Eval_missing_attribute :
  Eval (resourceCtx (fun _ => Err (ErrorNew "missing key")) ∅)
       (CLeaf StringEquals idCondition) = false
  ∧ Eval (resourceCtx (fun _ => Err (ErrorNew "missing key")) ∅)
         (CAnd [CLeaf Any idCondition; CLeaf StringEquals idCondition]) = false.
Proof. split; reflexivity. Qed.

Example Eval_or_with_one_valid_branch :
  Eval errCtx (COr [CLeaf StringEquals idCondition;
                    CLeaf Any {| Key := "id"; Value := [] |}]) = true.
Proof. reflexivity. Qed.

End ConditionFacts.

Section EffectSubjectFacts.
Import Util EffectSubject.

Lemma elem_of_Append (s : Int64Set) (xs : list Z) (x : Z) :
  x ∈ Append s xs ↔ x ∈ s ∨ x ∈ xs.
Proof.
  unfold Append. revert s. induction xs as [|y xs IH]; intros s; simpl.
  - rewrite elem_of_nil. tauto.
  - rewrite IH. unfold Add. rewrite elem_of_union, elem_of_singleton, elem_of_cons.
    tauto.
Qed.

Lemma elem_of_inheritStep_fold (now : Z) (sgs : list SubjectGroup)
    (s : Int64Set) (x : Z) :
  x ∈ foldl (inheritStep now) s sgs ↔ x ∈ s ∨ validGroupPK now sgs x.
Proof.
  revert s. induction sgs as [|sg sgs IH]; intros s; simpl.
  - split; [tauto|]. intros [H|(g & Hg & _)]; [assumption|].
    by apply elem_of_nil in Hg.
  - rewrite IH. unfold inheritStep, validGroupPK, Add.
    destruct (Z.ltb_spec now (sg_PolicyExpiredAt sg)) as [Hlt|Hge].
    + rewrite elem_of_union, elem_of_singleton. split.
      * intros [[->|H]|(g & Hg & Hpk & Hexp)]; [right|by left|right].
        -- exists sg. split; [left|]. split; [reflexivity | lia].
        -- exists g. split; [by right | done].
      * intros [H|(g & Hg & Hpk & Hexp)]; [by left; right|].
        apply elem_of_cons in Hg as [->|Hg]; [by left; left|].
        right. by exists g.
    + split.
      * intros [H|(g & Hg & Hpk & Hexp)]; [by left|].
        right. exists g. split; [by right | done].
      * intros [H|(g & Hg & Hpk & Hexp)]; [by left|].
        apply elem_of_cons in Hg as [->|Hg]; [lia|].
        right. by exists g.
Qed.

Lemma elem_of_effect_groups (now : Z) (groups : list SubjectGroup) (x : Z) :
  x ∈ map sg_PK (List.filter (fun g => (now <? sg_PolicyExpiredAt g)%Z) groups)
  ↔ validGroupPK now groups x.
Proof.
  unfold validGroupPK. rewrite list_elem_of_In, in_map_iff. split.
  - intros (g & Hpk & Hg). apply filter_In in Hg as [Hg Hlt].
    exists g. rewrite list_elem_of_In. apply Z.ltb_lt in Hlt. split; [done|]. split; [done | lia].
  - intros (g & Hg & Hpk & Hexp). exists g. split; [done|].
    apply filter_In. rewrite <- list_elem_of_In. split; [done|].
    apply Z.ltb_lt. lia.
Qed.

(** C4. For a subject with pk [s], groups [G] and departments [D], whose
    departments are in the groups [DG] (none when [D] is empty, in which
    case the service is not asked), the result is [s] followed by a list
    without duplicates whose members are exactly the pks of the groups of
    [G] and of [DG] that expire after now. A department pk is in the result
    only if it is [s] or the pk of such a group. *)
Theorem getEffectSubjectPKs_effective_set
    (ListSubjectEffectGroups : list Z → Result (list SubjectGroup)) (now : Z)
    (subject : Subject) (s : Z) (G : list SubjectGroup) (D : list Z)
    (DG : list SubjectGroup) :
  attr_pk (subj_Attribute subject) = Some s →
  attr_groups (subj_Attribute subject) = Some G →
  attr_departments (subj_Attribute subject) = Some D →
  (D = [] ∧ DG = []) ∨ (D ≠ [] ∧ ListSubjectEffectGroups D = Ok DG) →
  ∃ groupPKs : list Z,
    getEffectSubjectPKs ListSubjectEffectGroups now subject = Ok (s :: groupPKs)
    ∧ NoDup groupPKs
    ∧ (∀ pk, pk ∈ groupPKs ↔ validGroupPK now G pk ∨ validGroupPK now DG pk)
    ∧ (∀ d, d ∈ D → d ∈ s :: groupPKs →
            d = s ∨ validGroupPK now G d ∨ validGroupPK now DG d).
Proof.
  intros Hpk HG HD HDG.
  unfold getEffectSubjectPKs, GetPK, GetEffectGroupPKs, GetDepartmentPKs.
  rewrite Hpk, HG, HD.
  assert (Hinh : ∃ set, inheritGroupPKSetOf ListSubjectEffectGroups now D = Ok set
                        ∧ ∀ x, x ∈ set ↔ validGroupPK now DG x).
  { destruct HDG as [[-> ->]|[Hne Hsvc]].
    - exists ∅. split; [reflexivity|]. intros x. split.
      + intros Hx. by apply elem_of_empty in Hx.
      + intros (g & Hg & _). by apply elem_of_nil in Hg.
    - unfold inheritGroupPKSetOf. destruct D as [|d D']; [done|].
      rewrite Hsvc. eexists. split; [reflexivity|].
      intros x. rewrite elem_of_inheritStep_fold. unfold NewInt64Set.
      rewrite elem_of_empty. tauto. }
  destruct Hinh as (set & -> & Hset).
  eexists. split; [reflexivity|].
  assert (Hmem : ∀ pk,
    pk ∈ ToSlice (Append (Append (NewFixedLengthInt64Set
            (length (map sg_PK (List.filter (fun g => (now <? sg_PolicyExpiredAt g)%Z) G))
             + length (ToSlice set)))
            (map sg_PK (List.filter (fun g => (now <? sg_PolicyExpiredAt g)%Z) G)))
            (ToSlice set))
    ↔ validGroupPK now G pk ∨ validGroupPK now DG pk).
  { intros pk. unfold ToSlice at 1. rewrite elem_of_elements, !elem_of_Append.
    unfold NewFixedLengthInt64Set, ToSlice.
    rewrite elem_of_empty, elem_of_elements, elem_of_effect_groups, Hset. tauto. }
  split; [apply NoDup_elements|]. split; [exact Hmem|].
  intros d _ Hd. apply elem_of_cons in Hd as [->|Hd]; [by left|].
  right. by apply Hmem.
Qed.

Lemma getEffectSubjectPKs_effective_set_witness :
  attr_pk (subj_Attribute exampleSubject) = Some 1%Z
  ∧ attr_groups (subj_Attribute exampleSubject)
    = Some [ {| sg_PK := 10; sg_PolicyExpiredAt := 200 |};
             {| sg_PK := 11; sg_PolicyExpiredAt := 50 |} ]
  ∧ attr_departments (subj_Attribute exampleSubject) = Some [5%Z]
  ∧ (([5%Z] = [] ∧ exampleDepartmentGroups = [])
     ∨ ([5%Z] ≠ [] ∧ exampleListSubjectEffectGroups [5%Z] = Ok exampleDepartmentGroups))
  ∧ ∃ groupPKs : list Z,
      getEffectSubjectPKs exampleListSubjectEffectGroups 100 exampleSubject
      = Ok (1%Z :: groupPKs)
      ∧ NoDup groupPKs
      ∧ (∀ pk, pk ∈ groupPKs
               ↔ validGroupPK 100
                   [ {| sg_PK := 10; sg_PolicyExpiredAt := 200 |};
                     {| sg_PK := 11; sg_PolicyExpiredAt := 50 |} ] pk
                 ∨ validGroupPK 100 exampleDepartmentGroups pk)
      ∧ (∀ d, d ∈ [5%Z] → d ∈ 1%Z :: groupPKs →
              d = 1%Z
              ∨ validGroupPK 100
                  [ {| sg_PK := 10; sg_PolicyExpiredAt := 200 |};
                    {| sg_PK := 11; sg_PolicyExpiredAt := 50 |} ] d
              ∨ validGroupPK 100 exampleDepartmentGroups d).
Proof.
  split; [reflexivity|]. split; [reflexivity|]. split; [reflexivity|].
  split; [right; split; [discriminate | reflexivity]|].
  apply (getEffectSubjectPKs_effective_set exampleListSubjectEffectGroups 100
           exampleSubject 1
           [ {| sg_PK := 10; sg_PolicyExpiredAt := 200 |};
             {| sg_PK := 11; sg_PolicyExpiredAt := 50 |} ]
           [5%Z] exampleDepartmentGroups);
    [reflexivity | reflexivity | reflexivity |].
  right. split; [discriminate | reflexivity].
Defined.

(** On the example the groups 10 and 12 are effective, the expired groups
    11 and 13 and the department 5 are not. *)
Example getEffectSubjectPKs_example :
  ∃ groupPKs,
    getEffectSubjectPKs exampleListSubjectEffectGroups 100 exampleSubject
    = Ok (1%Z :: groupPKs)
    ∧ groupPKs ≡ₚ [10%Z; 12%Z].
Proof.
  eexists. split; [vm_compute; reflexivity|].
  first [reflexivity | apply Permutation_swap].
Qed.

End EffectSubjectFacts.

Section PolicyCurdFacts.
Import GoDefer PolicyCurd.

(** C1 as the claim states it fails: the storage refuses the delete of the
    template policies of subject 1, and the entry of subject 1 is gone from
    the policy cache all the same. *)
Lemma invalidated_although_write_failed :
  ¬ (∀ (m : Services) (systemID subjectType subjectID : string) (templateID : Z)
       (w : World) (subjectPK : Z) (e : error),
       subjectService_GetPK m subjectType subjectID = Ok subjectPK →
       policyService_DeleteTemplatePolicies m subjectPK templateID = Some e →
       policyCache (DeleteTemplatePolicies m systemID subjectType subjectID templateID w).2
       = policyCache w).
Proof.
  intros H.
  specialize (H failingServices "iam" "user" "u1" 3%Z cachedWorld 1%Z storageDown
                eq_refl eq_refl).
  apply (f_equal (fun c => c !! ("iam", 1%Z, 7%Z))) in H.
  vm_compute in H. discriminate H.
Qed.

(** Running a body: the monad and the deferred cache calls are unfolded. *)
Ltac run_go :=
  unfold call, bind, defer, storageWrite, perform, ret,
    BatchDeleteSystemSubjectPKsFromCache, DeleteSystemSubjectPKsFromCache,
    BatchDeleteExpressionsFromCache;
  simpl.

(** C1, as the code has it. Each of the four operations defers the
    invalidation before it writes, so the invalidation runs when the
    operation returns: after the write, and whether the write committed or
    failed. Before that point (the subject or the actions cannot be found,
    a policy names an unknown action, or [DeleteByIDs] has no id) the
    operation leaves without writing and without invalidating.
    [AlterCustomPolicies] also drops the updated expressions from the
    expression cache, only when the write committed, and before the policy
    cache is invalidated. *)
Theorem invalidation_follows_the_write (m : Services)
    (systemID subjectType subjectID : string) (w : World) :
  (* DeleteByIDs *)
  (∀ policyIDs e,
     subjectService_GetPK m subjectType subjectID = Err e →
     DeleteByIDs m systemID subjectType subjectID policyIDs w
     = (Some (errorWrapf PRP "DeletePoliciesByIDs" e), w))
  ∧ (∀ pk,
     subjectService_GetPK m subjectType subjectID = Ok pk →
     DeleteByIDs m systemID subjectType subjectID [] w = (None, w))
  ∧ (∀ pk policyIDs,
     subjectService_GetPK m subjectType subjectID = Ok pk →
     policyIDs ≠ [] →
     DeleteByIDs m systemID subjectType subjectID policyIDs w
     = (errorWrapf PRP "DeletePoliciesByIDs" <$> policyService_DeleteByPKs m pk policyIDs,
        writtenThenInvalidated w (DeleteByPKs pk policyIDs)
          (committed (policyService_DeleteByPKs m pk policyIDs)) systemID pk))
  (* DeleteTemplatePolicies *)
  ∧ (∀ templateID e,
     subjectService_GetPK m subjectType subjectID = Err e →
     DeleteTemplatePolicies m systemID subjectType subjectID templateID w
     = (Some (errorWrapf PRP "DeleteTemplatePolicies" e), w))
  ∧ (∀ pk templateID,
     subjectService_GetPK m subjectType subjectID = Ok pk →
     DeleteTemplatePolicies m systemID subjectType subjectID templateID w
     = (errorWrapf PRP "DeleteTemplatePolicies"
          <$> policyService_DeleteTemplatePolicies m pk templateID,
        writtenThenInvalidated w (DeleteTemplatePoliciesW pk templateID)
          (committed (policyService_DeleteTemplatePolicies m pk templateID)) systemID pk))
  (* UpdateTemplatePolicies *)
  ∧ (∀ policies e,
     querySubjectActionForAlterPolicies m systemID subjectType subjectID = Err e →
     UpdateTemplatePolicies m systemID subjectType subjectID policies w
     = (Some (errorWrapf PRP "UpdateTemplatePolicies" e), w))
  ∧ (∀ policies pk actionMap set e,
     querySubjectActionForAlterPolicies m systemID subjectType subjectID
     = Ok (pk, actionMap, set) →
     convertToServicePolicies pk policies actionMap = Err e →
     UpdateTemplatePolicies m systemID subjectType subjectID policies w
     = (Some (errorWrapf PRP "UpdateTemplatePolicies" e), w))
  ∧ (∀ policies pk actionMap set ups,
     querySubjectActionForAlterPolicies m systemID subjectType subjectID
     = Ok (pk, actionMap, set) →
     convertToServicePolicies pk policies actionMap = Ok ups →
     UpdateTemplatePolicies m systemID subjectType subjectID policies w
     = (errorWrapf PRP "UpdateTemplatePolicies"
          <$> policyService_UpdateTemplatePolicies m pk ups set,
        writtenThenInvalidated w (UpdateTemplatePoliciesW pk ups)
          (committed (policyService_UpdateTemplatePolicies m pk ups set)) systemID pk))
  (* AlterCustomPolicies *)
  ∧ (∀ createPolicies updatePolicies deletePolicyIDs e,
     querySubjectActionForAlterPolicies m systemID subjectType subjectID = Err e →
     AlterCustomPolicies m systemID subjectType subjectID createPolicies updatePolicies
       deletePolicyIDs w
     = (Some (errorWrapf PRP "AlterPolicies" e), w))
  ∧ (∀ createPolicies updatePolicies deletePolicyIDs pk actionMap set e,
     querySubjectActionForAlterPolicies m systemID subjectType subjectID
     = Ok (pk, actionMap, set) →
     (convertToServicePolicies pk createPolicies actionMap = Err e
      ∨ (∃ cps, convertToServicePolicies pk createPolicies actionMap = Ok cps
                ∧ convertToServicePolicies pk updatePolicies actionMap = Err e)) →
     AlterCustomPolicies m systemID subjectType subjectID createPolicies updatePolicies
       deletePolicyIDs w
     = (Some (errorWrapf PRP "AlterPolicies" e), w))
  ∧ (∀ createPolicies updatePolicies deletePolicyIDs pk actionMap set cps ups e,
     querySubjectActionForAlterPolicies m systemID subjectType subjectID
     = Ok (pk, actionMap, set) →
     convertToServicePolicies pk createPolicies actionMap = Ok cps →
     convertToServicePolicies pk updatePolicies actionMap = Ok ups →
     policyService_AlterCustomPolicies m pk cps ups deletePolicyIDs set = Err e →
     AlterCustomPolicies m systemID subjectType subjectID createPolicies updatePolicies
       deletePolicyIDs w
     = (Some (errorWrapf PRP "AlterPolicies" e),
        writtenThenInvalidated w (AlterCustomPoliciesW pk cps ups deletePolicyIDs) false
          systemID pk))
  ∧ (∀ createPolicies updatePolicies deletePolicyIDs pk actionMap set cps ups updated,
     querySubjectActionForAlterPolicies m systemID subjectType subjectID
     = Ok (pk, actionMap, set) →
     convertToServicePolicies pk createPolicies actionMap = Ok cps →
     convertToServicePolicies pk updatePolicies actionMap = Ok ups →
     policyService_AlterCustomPolicies m pk cps ups deletePolicyIDs set = Ok updated →
     AlterCustomPolicies m systemID subjectType subjectID createPolicies updatePolicies
       deletePolicyIDs w
     = (None,
        {| policyCache := invalidatePolicies systemID [pk] (policyCache w);
           expressionCache := foldl (fun c k => delete k c) (expressionCache w) updated;
           history := history w
                      ++ [ StorageWrite (AlterCustomPoliciesW pk cps ups deletePolicyIDs) true;
                           ExpressionCacheInvalidated updated;
                           PolicyCacheInvalidated systemID [pk] ] |})).
Proof.
  unfold DeleteByIDs, DeleteTemplatePolicies, UpdateTemplatePolicies,
    AlterCustomPolicies, writtenThenInvalidated.
  repeat split.
  - intros policyIDs e ->. reflexivity.
  - intros pk ->. reflexivity.
  - intros pk policyIDs -> Hne. destruct policyIDs as [|i ids]; [done|].
    run_go.
    destruct (policyService_DeleteByPKs m pk (i :: ids)); run_go;
      by rewrite <- ?app_assoc.
  - intros templateID e ->. reflexivity.
  - intros pk templateID ->.
    run_go.
    destruct (policyService_DeleteTemplatePolicies m pk templateID); run_go;
      by rewrite <- ?app_assoc.
  - intros policies e ->. reflexivity.
  - intros policies pk actionMap set e -> ->. reflexivity.
  - intros policies pk actionMap set ups -> ->.
    run_go.
    destruct (policyService_UpdateTemplatePolicies m pk ups set); run_go;
      by rewrite <- ?app_assoc.
  - intros createPolicies updatePolicies deletePolicyIDs e ->. reflexivity.
  - intros createPolicies updatePolicies deletePolicyIDs pk actionMap set e ->
      [-> | (cps & -> & ->)]; reflexivity.
  - intros createPolicies updatePolicies deletePolicyIDs pk actionMap set cps ups e
      -> -> -> Hw.
    run_go.
    rewrite Hw. run_go. by rewrite <- ?app_assoc.
  - intros createPolicies updatePolicies deletePolicyIDs pk actionMap set cps ups updated
      -> -> -> Hw.
    run_go.
    rewrite Hw. run_go. by rewrite <- ?app_assoc.
Qed.

(** With a storage that refuses the write, the history of
    [DeleteTemplatePolicies] is the failed write, then the invalidation. *)
Lemma invalidation_follows_the_write_witness :
  subjectService_GetPK failingServices "user" "u1" = Ok 1%Z
  ∧ DeleteTemplatePolicies failingServices "iam" "user" "u1" 3%Z cachedWorld
    = (Some (errorWrapf PRP "DeleteTemplatePolicies" storageDown),
       writtenThenInvalidated cachedWorld (DeleteTemplatePoliciesW 1 3) false "iam" 1).
Proof.
  split; [reflexivity|].
  exact (proj1 (proj2 (proj2 (proj2 (proj2
           (invalidation_follows_the_write failingServices "iam" "user" "u1"
              cachedWorld))))) 1%Z 3%Z eq_refl).
Defined.

Example invalidation_keeps_other_subjects :
  policyCache (writtenThenInvalidated cachedWorld (DeleteTemplatePoliciesW 1 3) false "iam" 1)
    !! ("iam", 2%Z, 7%Z) = Some [41%Z]
  ∧ policyCache (writtenThenInvalidated cachedWorld (DeleteTemplatePoliciesW 1 3) false "iam" 1)
    !! ("iam", 1%Z, 7%Z) = None.
Proof. split; vm_compute; reflexivity. Qed.

End PolicyCurdFacts.

Section RenewalFacts.
Import GoDefer Util.

(** *** The renewal of the policies of a subject *)
Section Policies.
Import PolicyCurd.

Lemma idExpiredAtMapOf_fold (policies : list PolicyPKExpiredAt) (acc : gmap Z Z)
    (k v : Z) :
  foldl (fun acc p => <[pe_PK p := pe_ExpiredAt p]> acc) acc policies !! k = Some v →
  acc !! k = Some v ∨ ∃ p, p ∈ policies ∧ pe_PK p = k ∧ pe_ExpiredAt p = v.
Proof.
  revert acc. induction policies as [|p policies IH]; intros acc; simpl; [by left|].
  intros H. apply IH in H as [H|(q & Hq & Hk & Hv)].
  - destruct (decide (pe_PK p = k)) as [<-|Hne].
    + rewrite lookup_insert_eq in H. injection H as <-.
      right. exists p. split; [left | done].
    + rewrite lookup_insert_ne in H by done. by left.
  - right. exists q. split; [by right | done].
Qed.

Lemma idExpiredAtMapOf_supplied (policies : list PolicyPKExpiredAt) (k v : Z) :
  idExpiredAtMapOf policies !! k = Some v →
  ∃ p, p ∈ policies ∧ pe_PK p = k ∧ pe_ExpiredAt p = v.
Proof.
  intros H. apply idExpiredAtMapOf_fold in H as [H|H]; [|done].
  by rewrite lookup_empty in H.
Qed.

Lemma renewStep_fold (subjectPK : Z) (idExpiredAtMap : gmap Z Z)
    (ps acc : list QueryPolicy) (u : QueryPolicy) :
  u ∈ foldl (renewStep subjectPK idExpiredAtMap) acc ps →
  u ∈ acc
  ∨ ∃ p, p ∈ ps ∧ qp_PK u = qp_PK p ∧ qp_SubjectPK p = subjectPK
         ∧ (qp_ExpiredAt p < qp_ExpiredAt u)%Z
         ∧ qp_ExpiredAt u = mapGet idExpiredAtMap (qp_PK p).
Proof.
  revert acc. induction ps as [|p ps IH]; intros acc; simpl; [by left|].
  intros H. apply IH in H as [H|(q & Hq & Hrest)].
  - unfold renewStep in H.
    destruct (Z.eqb_spec (qp_SubjectPK p) subjectPK) as [Hs|Hs]; simpl in H.
    + destruct (Z.ltb_spec (qp_ExpiredAt p) (mapGet idExpiredAtMap (qp_PK p)))
        as [Hlt|Hge].
      * apply elem_of_app in H as [H|H]; [by left|].
        apply list_elem_of_singleton in H. subst u. simpl.
        right. exists p. split; [left | done].
      * by left.
    + by left.
  - right. exists q. split; [by right | done].
Qed.

Lemma renewedPolicies_only_later (subjectPK : Z) (idExpiredAtMap : gmap Z Z)
    (ps : list QueryPolicy) (u : QueryPolicy) :
  u ∈ renewedPolicies subjectPK idExpiredAtMap ps →
  ∃ p, p ∈ ps ∧ qp_PK u = qp_PK p ∧ qp_SubjectPK p = subjectPK
       ∧ (qp_ExpiredAt p < qp_ExpiredAt u)%Z
       ∧ qp_ExpiredAt u = mapGet idExpiredAtMap (qp_PK p).
Proof.
  intros H. apply renewStep_fold in H as [H|H]; [|done].
  by apply elem_of_nil in H.
Qed.

Lemma batch_invalidation (systems : list string) (subjectPKs : list Z) (w : World) :
  BatchDeleteSystemSubjectPKsFromCache systems subjectPKs w
  = {| policyCache :=
         foldl (fun c system => invalidatePolicies system subjectPKs c)
               (policyCache w) systems;
       expressionCache := expressionCache w;
       history := history w
                  ++ map (fun system => PolicyCacheInvalidated system subjectPKs) systems |}.
Proof.
  unfold BatchDeleteSystemSubjectPKsFromCache.
  revert w. induction systems as [|system systems IH]; intros w; simpl.
  - destruct w. simpl. by rewrite app_nil_r.
  - rewrite IH. unfold DeleteSystemSubjectPKsFromCache. simpl.
    by rewrite <- app_assoc.
Qed.

Lemma UpdateSubjectPoliciesExpiredAt_writes (m : Services)
    (subjectType subjectID : string) (policies : list PolicyPKExpiredAt)
    (subjectPK : Z) (ps : list QueryPolicy) (w : World) :
  subjectService_GetPK m subjectType subjectID = Ok subjectPK →
  policyService_ListQueryByPKs m (map pe_PK policies) = Ok ps →
  (renewedPolicies subjectPK (idExpiredAtMapOf policies) ps = [] →
   UpdateSubjectPoliciesExpiredAt m subjectType subjectID policies w = (None, w))
  ∧ ∀ c ok,
      StorageWrite c ok
        ∈ history (UpdateSubjectPoliciesExpiredAt m subjectType subjectID policies w).2 →
      StorageWrite c ok ∈ history w
      ∨ c = UpdateExpiredAt (renewedPolicies subjectPK (idExpiredAtMapOf policies) ps).
Proof.
  intros Hpk Hps. unfold UpdateSubjectPoliciesExpiredAt. rewrite Hpk.
  destruct policies as [|p0 policies]; [split; intros; [reflexivity | by left]|].
  cbn [length Nat.eqb]. rewrite Hps.
  set (ups := renewedPolicies subjectPK (idExpiredAtMapOf (p0 :: policies)) ps).
  destruct ups as [|u ups'] eqn:Hups; [split; intros; [reflexivity | by left]|].
  cbn [length Nat.eqb]. split; [done|].
  intros c ok.
  destruct (queryPoliciesSystemSet m (u :: ups')) as [systemSet|e]; [|by left].
  unfold call, bind, defer, storageWrite, perform, ret. simpl.
  destruct (policyService_UpdateExpiredAt m (u :: ups')); simpl;
    rewrite batch_invalidation; simpl;
    (intros H; apply elem_of_app in H as [H|H];
     [ apply elem_of_app in H as [H|H];
       [ by left
       | apply list_elem_of_singleton in H; injection H as -> _; by right ]
     | apply list_elem_of_In, in_map_iff in H as (system & H & _); discriminate H ]).
Qed.

End Policies.

(** *** The renewal of the members of a group *)
Section Members.
Import SubjectService.

Lemma planStep_fold (parentPK : Z) (createIfNotExists : bool)
    (daoRelationMap : gmap Z SubjectRelation) (subjectExpiredAtMap : gmap string Z)
    (daoSubjects : list DaoSubject) (plan : Plan)
    (u : SubjectRelationPKPolicyExpiredAt) :
  u ∈ updateRelations
        (foldl (planStep parentPK createIfNotExists daoRelationMap subjectExpiredAtMap)
               plan daoSubjects) →
  u ∈ updateRelations plan
  ∨ ∃ s daoRelation,
      s ∈ daoSubjects ∧ daoRelationMap !! ds_PK s = Some daoRelation
      ∧ srp_PK u = sr_PK daoRelation
      ∧ (sr_PolicyExpiredAt daoRelation < srp_PolicyExpiredAt u)%Z
      ∧ srp_PolicyExpiredAt u
        = mapGet subjectExpiredAtMap (subjectKey (ds_Type s) (ds_ID s)).
Proof.
  revert plan. induction daoSubjects as [|s daoSubjects IH]; intros plan; simpl;
    [by left|].
  intros H. apply IH in H as [H|(s' & r & Hs' & Hrest)].
  - unfold planStep in H.
    destruct (daoRelationMap !! ds_PK s) as [daoRelation|] eqn:Hrel.
    + destruct (Z.ltb_spec (sr_PolicyExpiredAt daoRelation)
                  (mapGet subjectExpiredAtMap (subjectKey (ds_Type s) (ds_ID s))))
        as [Hlt|Hge]; [|by left].
      simpl in H. apply elem_of_app in H as [H|H]; [by left|].
      apply list_elem_of_singleton in H. subst u. simpl.
      right. exists s, daoRelation. split; [left | done].
    + destruct createIfNotExists; by left.
  - right. exists s', r. split; [by right | done].
Qed.

Lemma planOf_only_later (parentPK : Z) (createIfNotExists : bool)
    (daoRelationMap : gmap Z SubjectRelation) (subjectExpiredAtMap : gmap string Z)
    (daoSubjects : list DaoSubject) (u : SubjectRelationPKPolicyExpiredAt) :
  u ∈ updateRelations
        (planOf parentPK createIfNotExists daoRelationMap subjectExpiredAtMap daoSubjects) →
  ∃ s daoRelation,
    s ∈ daoSubjects ∧ daoRelationMap !! ds_PK s = Some daoRelation
    ∧ srp_PK u = sr_PK daoRelation
    ∧ (sr_PolicyExpiredAt daoRelation < srp_PolicyExpiredAt u)%Z
    ∧ srp_PolicyExpiredAt u
      = mapGet subjectExpiredAtMap (subjectKey (ds_Type s) (ds_ID s)).
Proof.
  intros H. apply planStep_fold in H as [H|H]; [|done].
  by apply elem_of_nil in H.
Qed.

(** A call is in the log it was appended to: it was there before, or it is
    one of the appended calls. *)
Ltac log_cases :=
  let H := fresh "H" in
  intros H;
  repeat (apply elem_of_app in H as [H|H]);
  try (apply list_elem_of_singleton in H);
  first [ by left | discriminate H | (injection H as ->; by right) ].

Lemma bulkCreateOrUpdateSubjectMembers_updates (l : Managers) (_type id : string)
    (subjectWithExpiredAts : list SubjectWithExpiredAt) (createIfNotExists : bool)
    (parentPK : Z) (daoRelationMap : gmap Z SubjectRelation)
    (daoSubjects : list DaoSubject) (log : TxLog)
    (relations : list SubjectRelationPKPolicyExpiredAt) :
  manager_GetPK l _type id = Ok parentPK →
  getDaoRelationMap l parentPK = Ok daoRelationMap →
  listDaoSubject l subjectWithExpiredAts = Ok daoSubjects →
  UpdateExpiredAtWithTx relations
    ∈ (bulkCreateOrUpdateSubjectMembers l _type id subjectWithExpiredAts
         createIfNotExists log).2 →
  UpdateExpiredAtWithTx relations ∈ log
  ∨ relations
    = updateRelations
        (planOf parentPK createIfNotExists daoRelationMap
           (genSubjectExpiredAtMap subjectWithExpiredAts) daoSubjects).
Proof.
  intros Hpk Hmap Hsub. unfold bulkCreateOrUpdateSubjectMembers.
  rewrite Hpk, Hmap, Hsub.
  set (plan := planOf parentPK createIfNotExists daoRelationMap
                 (genSubjectExpiredAtMap subjectWithExpiredAts) daoSubjects).
  unfold call, bind, defer, txCall, perform, ret. simpl.
  destruct (database_GenerateDefaultDBTx l); simpl; [log_cases|].
  destruct (relationManager_UpdateExpiredAtWithTx l (updateRelations plan)); simpl;
    [log_cases|].
  destruct (createIfNotExists && negb (length (createRelations plan) =? 0)%nat); simpl.
  - destruct (relationManager_BulkCreateWithTx l (createRelations plan)); simpl;
      [log_cases|].
    destruct (bulkUpdateSubjectSystemGroup l parentPK (subjectPKWithExpiredAts plan));
      simpl; log_cases.
  - destruct (bulkUpdateSubjectSystemGroup l parentPK (subjectPKWithExpiredAts plan));
      simpl; log_cases.
Qed.

End Members.

(** C10. A renewal never shortens an expiry.
    [UpdateSubjectPoliciesExpiredAt] writes nothing but [UpdateExpiredAt]
    of the renewed policies; each of them is a stored policy of the given
    subject whose stored expiry is strictly less than the new one, the new
    one being the value of [idExpiredAtMap] for its pk, which is a supplied
    value when the pk was supplied; when no policy qualifies, and when none
    is supplied, it returns nil and leaves the history and the caches as
    they are. [bulkCreateOrUpdateSubjectMembers] passes to
    [UpdateExpiredAtWithTx] only relations that exist for the group and
    whose stored [policy_expired_at] is strictly less than the new one. *)
Theorem renewal_never_shortens :
  (∀ (m : PolicyCurd.Services) (subjectType subjectID : string)
     (policies : list PolicyCurd.PolicyPKExpiredAt) (subjectPK : Z)
     (ps : list PolicyCurd.QueryPolicy) (w : PolicyCurd.World),
     PolicyCurd.subjectService_GetPK m subjectType subjectID = Ok subjectPK →
     PolicyCurd.policyService_ListQueryByPKs m (map PolicyCurd.pe_PK policies) = Ok ps →
     let idExpiredAtMap := PolicyCurd.idExpiredAtMapOf policies in
     let updatePolicies := PolicyCurd.renewedPolicies subjectPK idExpiredAtMap ps in
     (∀ u, u ∈ updatePolicies →
        ∃ p, p ∈ ps ∧ PolicyCurd.qp_PK u = PolicyCurd.qp_PK p
             ∧ PolicyCurd.qp_SubjectPK p = subjectPK
             ∧ (PolicyCurd.qp_ExpiredAt p < PolicyCurd.qp_ExpiredAt u)%Z
             ∧ PolicyCurd.qp_ExpiredAt u
               = Util.mapGet idExpiredAtMap (PolicyCurd.qp_PK p))
     ∧ (∀ k v, idExpiredAtMap !! k = Some v →
          ∃ p, p ∈ policies ∧ PolicyCurd.pe_PK p = k ∧ PolicyCurd.pe_ExpiredAt p = v)
     ∧ (updatePolicies = [] →
        PolicyCurd.UpdateSubjectPoliciesExpiredAt m subjectType subjectID policies w
        = (None, w))
     ∧ (PolicyCurd.UpdateSubjectPoliciesExpiredAt m subjectType subjectID [] w = (None, w))
     ∧ (∀ c ok,
          PolicyCurd.StorageWrite c ok
            ∈ PolicyCurd.history
                (PolicyCurd.UpdateSubjectPoliciesExpiredAt m subjectType subjectID
                   policies w).2 →
          PolicyCurd.StorageWrite c ok ∈ PolicyCurd.history w
          ∨ c = PolicyCurd.UpdateExpiredAt updatePolicies))
  ∧ (∀ (l : SubjectService.Managers) (_type id : string)
       (subjectWithExpiredAts : list SubjectService.SubjectWithExpiredAt)
       (createIfNotExists : bool) (parentPK : Z)
       (daoRelationMap : gmap Z SubjectService.SubjectRelation)
       (daoSubjects : list SubjectService.DaoSubject) (log : SubjectService.TxLog),
       SubjectService.manager_GetPK l _type id = Ok parentPK →
       SubjectService.getDaoRelationMap l parentPK = Ok daoRelationMap →
       SubjectService.listDaoSubject l subjectWithExpiredAts = Ok daoSubjects →
       let subjectExpiredAtMap :=
         SubjectService.genSubjectExpiredAtMap subjectWithExpiredAts in
       ∀ relations,
         SubjectService.UpdateExpiredAtWithTx relations
           ∈ (SubjectService.bulkCreateOrUpdateSubjectMembers l _type id
                subjectWithExpiredAts createIfNotExists log).2 →
         SubjectService.UpdateExpiredAtWithTx relations ∉ log →
         ∀ u, u ∈ relations →
           ∃ s daoRelation,
             s ∈ daoSubjects
             ∧ daoRelationMap !! SubjectService.ds_PK s = Some daoRelation
             ∧ SubjectService.srp_PK u = SubjectService.sr_PK daoRelation
             ∧ (SubjectService.sr_PolicyExpiredAt daoRelation
                < SubjectService.srp_PolicyExpiredAt u)%Z
             ∧ SubjectService.srp_PolicyExpiredAt u
               = Util.mapGet subjectExpiredAtMap
                   (SubjectService.subjectKey (SubjectService.ds_Type s)
                      (SubjectService.ds_ID s))).
Proof.
  split.
  - intros m subjectType subjectID policies subjectPK ps w Hpk Hps idExpiredAtMap
      updatePolicies.
    destruct (UpdateSubjectPoliciesExpiredAt_writes m subjectType subjectID policies
                subjectPK ps w Hpk Hps) as [Hnone Hwrites].
    split; [intros u; apply renewedPolicies_only_later|].
    split; [apply idExpiredAtMapOf_supplied|].
    split; [exact Hnone|]. split; [|exact Hwrites].
    unfold PolicyCurd.UpdateSubjectPoliciesExpiredAt. by rewrite Hpk.
  - intros l _type id subjectWithExpiredAts createIfNotExists parentPK daoRelationMap
      daoSubjects log Hpk Hmap Hsub subjectExpiredAtMap relations Hin Hnew u Hu.
    destruct (bulkCreateOrUpdateSubjectMembers_updates l _type id subjectWithExpiredAts
                createIfNotExists parentPK daoRelationMap daoSubjects log relations
                Hpk Hmap Hsub Hin) as [Hold | ->]; [done|].
    by apply planOf_only_later in Hu.
Qed.

(** On the examples: of the stored policies 100 (subject 1, expiring at
    500) and 101 (subject 2), a renewal of both to 800 by subject 1 takes
    the policy 100 only; a renewal of 100 to 300 takes nothing. Of the
    members 1 (expiring at 500) and 2 (expiring at 900), a renewal of both
    to 700 updates the relation of member 1 only. *)
Example renewedPolicies_example :
  PolicyCurd.renewedPolicies 1
    (PolicyCurd.idExpiredAtMapOf
       [ {| PolicyCurd.pe_PK := 100; PolicyCurd.pe_ExpiredAt := 800 |};
         {| PolicyCurd.pe_PK := 101; PolicyCurd.pe_ExpiredAt := 800 |} ])
    [ {| PolicyCurd.qp_PK := 100; PolicyCurd.qp_SubjectPK := 1; PolicyCurd.qp_ActionPK := 7;
         PolicyCurd.qp_ExpressionPK := 40; PolicyCurd.qp_ExpiredAt := 500 |};
      {| PolicyCurd.qp_PK := 101; PolicyCurd.qp_SubjectPK := 2; PolicyCurd.qp_ActionPK := 7;
         PolicyCurd.qp_ExpressionPK := 41; PolicyCurd.qp_ExpiredAt := 500 |} ]
  = [ {| PolicyCurd.qp_PK := 100; PolicyCurd.qp_SubjectPK := 1; PolicyCurd.qp_ActionPK := 7;
         PolicyCurd.qp_ExpressionPK := 40; PolicyCurd.qp_ExpiredAt := 800 |} ].
Proof. vm_compute. reflexivity. Qed.

Example UpdateSubjectPoliciesExpiredAt_shorter :
  PolicyCurd.UpdateSubjectPoliciesExpiredAt PolicyCurd.failingServices "user" "u1"
    [ {| PolicyCurd.pe_PK := 100; PolicyCurd.pe_ExpiredAt := 300 |} ]
    PolicyCurd.cachedWorld
  = (None, PolicyCurd.cachedWorld).
Proof. vm_compute. reflexivity. Qed.

Example bulkCreateOrUpdateSubjectMembers_example :
  (SubjectService.bulkCreateOrUpdateSubjectMembers SubjectService.exampleManagers
     "group" "g1" SubjectService.exampleRenewal false []).2
  = [ SubjectService.GenerateDefaultDBTx;
      SubjectService.UpdateExpiredAtWithTx
        [ {| SubjectService.srp_PK := 50; SubjectService.srp_PolicyExpiredAt := 700 |} ];
      SubjectService.BulkUpdateSubjectSystemGroup 9
        [ {| SubjectService.spe_SubjectPK := 1; SubjectService.spe_ExpiredAt := 700 |} ];
      SubjectService.RollBackWithLog ].
Proof. vm_compute. reflexivity. Qed.

Lemma renewal_never_shortens_witness :
  PolicyCurd.subjectService_GetPK PolicyCurd.failingServices "user" "u1" = Ok 1%Z
  ∧ PolicyCurd.policyService_ListQueryByPKs PolicyCurd.failingServices
      (map PolicyCurd.pe_PK PolicyCurd.exampleRenewal)
    = Ok PolicyCurd.storedPolicies
  ∧ (∀ u,
       u ∈ PolicyCurd.renewedPolicies 1
             (PolicyCurd.idExpiredAtMapOf PolicyCurd.exampleRenewal)
             PolicyCurd.storedPolicies →
       ∃ p, p ∈ PolicyCurd.storedPolicies
            ∧ PolicyCurd.qp_PK u = PolicyCurd.qp_PK p
            ∧ PolicyCurd.qp_SubjectPK p = 1%Z
            ∧ (PolicyCurd.qp_ExpiredAt p < PolicyCurd.qp_ExpiredAt u)%Z
            ∧ PolicyCurd.qp_ExpiredAt u
              = Util.mapGet (PolicyCurd.idExpiredAtMapOf PolicyCurd.exampleRenewal)
                  (PolicyCurd.qp_PK p)).
Proof.
  split; [reflexivity|]. split; [reflexivity|].
  exact (proj1 (proj1 renewal_never_shortens PolicyCurd.failingServices "user" "u1"
                  PolicyCurd.exampleRenewal 1%Z PolicyCurd.storedPolicies
                  PolicyCurd.cachedWorld eq_refl eq_refl)).
Defined.

End RenewalFacts.

Section EntranceFacts.
Import EffectSubject PDP.

Lemma errors_Is_wrap_sqlErrNoRows (layer function : string) (e : error) :
  errors_Is (errorWrapf layer function e) sqlErrNoRows = errors_Is e sqlErrNoRows.
Proof. reflexivity. Qed.

Lemma errors_Is_wrap_ErrNoPolicies (layer function : string) (e : error) :
  errors_Is (errorWrapf layer function e) ErrNoPolicies = errors_Is e ErrNoPolicies.
Proof. reflexivity. Qed.

(** *** The fold over the resources *)

Lemma survivors_nil (E : Env) (r : Request) (resources : list Resource) :
  survivors E r resources [] = [].
Proof. unfold survivors. induction resources as [|x resources IH]; [reflexivity | exact IH]. Qed.

Lemma filterByResources_survivors (E : Env) (r : Request) (resources : list Resource)
    (policies : list AuthPolicy) :
  resources ≠ [] →
  filterByResources E r resources policies
  = if (length (survivors E r resources policies) =? 0)%nat
    then Err ErrNoPolicies
    else Ok (survivors E r resources policies).
Proof.
  revert policies. induction resources as [|x resources IH]; intros policies Hne; [done|].
  simpl. unfold FilterPolicies.
  set (policies' := List.filter (evaluation_evalPolicy E (NewExprContext r x)) policies).
  change (survivors E r (x :: resources) policies) with (survivors E r resources policies').
  destruct policies' as [|p policies''] eqn:Hp.
  - simpl. by rewrite survivors_nil.
  - cbn [length Nat.eqb]. destruct resources as [|y resources'].
    + reflexivity.
    + by apply IH.
Qed.

Lemma EvalPolicies_value (E : Env) (r r' : Request) (policies : list AuthPolicy) :
  withRemoteAttrs E r policies = Ok r' →
  EvalPolicies E r policies
  = if bool_decide (GetSortedResources E r' = [])
    then (true, None)
    else if (length (survivors E r' (GetSortedResources E r') policies) =? 0)%nat
    then (false, None)
    else (true, None).
Proof.
  intros Hr. unfold EvalPolicies, filterPoliciesByEvalResources. rewrite Hr.
  destruct (GetSortedResources E r') as [|x resources] eqn:HR.
  - reflexivity.
  - rewrite bool_decide_eq_false_2 by done.
    rewrite filterByResources_survivors by done.
    by destruct (length (survivors E r' (x :: resources) policies) =? 0)%nat.
Qed.

(** C3 as the claim states it fails on the empty policy list with the
    empty resource list: the loop is not entered, no check is made, and
    [EvalPolicies] returns true while nothing survives. *)
Lemma EvalPolicies_true_without_survivor :
  ¬ (∀ (E : Env) (r r' : Request) (policies : list AuthPolicy),
       withRemoteAttrs E r policies = Ok r' →
       EvalPolicies E r policies = (true, None)
       ↔ survivors E r' (GetSortedResources E r') policies ≠ []).
Proof.
  intros H.
  destruct (H knownSubjectEnv exampleRequest exampleRequest [] eq_refl) as [H1 _].
  by apply H1.
Qed.

(** C3, as the code has it. Once the attributes of the remote resources
    are there, [EvalPolicies] returns true if and only if the request has
    no resource or the fold of [FilterPolicies] over its sorted resources
    leaves a policy; so the claim holds whenever there is a resource or a
    policy. In the other cases it returns false with a nil error. *)
Theorem EvalPolicies_iff_survivors (E : Env) (r r' : Request)
    (policies : list AuthPolicy) :
  withRemoteAttrs E r policies = Ok r' →
  (EvalPolicies E r policies = (true, None)
   ↔ GetSortedResources E r' = []
     ∨ survivors E r' (GetSortedResources E r') policies ≠ [])
  ∧ (GetSortedResources E r' ≠ [] ∨ policies ≠ [] →
     EvalPolicies E r policies = (true, None)
     ↔ survivors E r' (GetSortedResources E r') policies ≠ [])
  ∧ (EvalPolicies E r policies = (true, None)
     ∨ EvalPolicies E r policies = (false, None)).
Proof.
  intros Hr. rewrite (EvalPolicies_value E r r' policies Hr).
  destruct (GetSortedResources E r') as [|x resources] eqn:HR.
  - rewrite bool_decide_eq_true_2 by done. simpl.
    split; [tauto|]. split; [|by left].
    intros [H|H]; [done|]. tauto.
  - rewrite bool_decide_eq_false_2 by done.
    destruct (survivors E r' (x :: resources) policies) as [|p ps] eqn:Hs; simpl.
    + split; [|split; [|by right]].
      * split; [discriminate|]. intros [H|H]; done.
      * intros _. split; [discriminate | done].
    + split; [|split; [|by left]].
      * split; [by right | done].
      * intros _. split; done.
Qed.

Lemma EvalPolicies_iff_survivors_witness :
  withRemoteAttrs knownSubjectEnv exampleRequest [examplePolicy] = Ok exampleRequest
  ∧ ((EvalPolicies knownSubjectEnv exampleRequest [examplePolicy] = (true, None)
      ↔ GetSortedResources knownSubjectEnv exampleRequest = []
        ∨ survivors knownSubjectEnv exampleRequest
            (GetSortedResources knownSubjectEnv exampleRequest) [examplePolicy] ≠ [])
     ∧ (GetSortedResources knownSubjectEnv exampleRequest ≠ []
        ∨ [examplePolicy] ≠ [] →
        EvalPolicies knownSubjectEnv exampleRequest [examplePolicy] = (true, None)
        ↔ survivors knownSubjectEnv exampleRequest
            (GetSortedResources knownSubjectEnv exampleRequest) [examplePolicy] ≠ [])
     ∧ (EvalPolicies knownSubjectEnv exampleRequest [examplePolicy] = (true, None)
        ∨ EvalPolicies knownSubjectEnv exampleRequest [examplePolicy] = (false, None))).
Proof.
  split; [reflexivity|].
  exact (EvalPolicies_iff_survivors knownSubjectEnv exampleRequest exampleRequest
           [examplePolicy] eq_refl).
Defined.

(** *** The subject that does not exist *)

Lemma fillSubjectDetail_not_found (E : Env) (r : Request) (e : error) :
  pip_GetSubjectPK E (subj_Type (req_Subject r)) (subj_ID (req_Subject r)) = Err e →
  fillSubjectDetail E r = Err (errorWrapf "Request" "fillSubjectDetail" e).
Proof. intros H. unfold fillSubjectDetail. by rewrite H. Qed.

(** C5. When the action is found and the lookup of the pk of the subject
    reports [sql.ErrNoRows], [Eval] (the resources matching the action)
    returns false with a nil error, [Query] (the remote resources matching
    the action when that is checked) returns the empty object with a nil
    error, and [QueryAuthPolicies] returns [ErrSubjectNotExists]. *)
Theorem subject_not_found (E : Env) (r r1 : Request) (withoutCache : bool) (e : error) :
  fillActionDetail E r = Ok r1 →
  pip_GetSubjectPK E (subj_Type (req_Subject r1)) (subj_ID (req_Subject r1)) = Err e →
  errors_Is e sqlErrNoRows = true →
  (ValidateActionResource E r1 = true →
   Eval E r withoutCache = Returned (false, None))
  ∧ (∀ willCheckRemoteResource,
       (willCheckRemoteResource = true → ValidateActionRemoteResource E r1 = true) →
       Query E r willCheckRemoteResource withoutCache = Ok EmptyPolicies)
  ∧ QueryAuthPolicies E r withoutCache = Err ErrSubjectNotExists.
Proof.
  intros Ha Hpk Hnf.
  pose proof (fillSubjectDetail_not_found E r1 e Hpk) as Hs.
  assert (Hw : errors_Is (errorWrapf "Request" "fillSubjectDetail" e) sqlErrNoRows = true)
    by (rewrite errors_Is_wrap_sqlErrNoRows; exact Hnf).
  split; [|split].
  - intros Hv. unfold Eval. rewrite Ha, Hv. simpl. by rewrite Hs, Hw.
  - intros willCheck Hv. unfold Query, queryFilterPolicies. rewrite Ha.
    assert (Hc : willCheck && negb (ValidateActionRemoteResource E r1) = false).
    { destruct willCheck; [|reflexivity]. by rewrite Hv. }
    by rewrite Hc, Hs, Hw.
  - unfold QueryAuthPolicies. by rewrite Ha, Hs, Hw.
Qed.

Lemma subject_not_found_witness :
  fillActionDetail unknownSubjectEnv exampleRequest = Ok filledRequest
  ∧ pip_GetSubjectPK unknownSubjectEnv (subj_Type (req_Subject filledRequest))
      (subj_ID (req_Subject filledRequest)) = Err sqlErrNoRows
  ∧ errors_Is sqlErrNoRows sqlErrNoRows = true
  ∧ ((ValidateActionResource unknownSubjectEnv filledRequest = true →
      Eval unknownSubjectEnv exampleRequest false = Returned (false, None))
     ∧ (∀ willCheckRemoteResource,
          (willCheckRemoteResource = true →
           ValidateActionRemoteResource unknownSubjectEnv filledRequest = true) →
          Query unknownSubjectEnv exampleRequest willCheckRemoteResource false
          = Ok EmptyPolicies)
     ∧ QueryAuthPolicies unknownSubjectEnv exampleRequest false
       = Err ErrSubjectNotExists).
Proof.
  split; [reflexivity|]. split; [reflexivity|]. split; [reflexivity|].
  exact (subject_not_found unknownSubjectEnv exampleRequest filledRequest false
           sqlErrNoRows eq_refl eq_refl eq_refl).
Defined.

Example Eval_unknown_subject :
  Eval unknownSubjectEnv exampleRequest false = Returned (false, None)
  ∧ Query unknownSubjectEnv exampleRequest true false = Ok EmptyPolicies
  ∧ QueryAuthPolicies unknownSubjectEnv exampleRequest false = Err ErrSubjectNotExists.
Proof. repeat split. Qed.

(** *** The signal that there is no policy *)

Lemma signalFree_wrap (layer function : string) (e : error) :
  signalFree e → signalFree (Wrapf layer function e).
Proof. intros H. exact H. Qed.

Lemma fillActionDetail_signalFree (E : Env) (r : Request) (e : error) :
  lowerPackagesSignalFree E → fillActionDetail E r = Err e → signalFree e.
Proof.
  intros HE. unfold fillActionDetail.
  destruct (pip_GetActionDetail E (req_System r) (act_ID (req_Action r)))
    as [[pk rts]|e0] eqn:Ha; [discriminate|].
  intros [= <-]. apply signalFree_wrap. by eapply action_free.
Qed.

Lemma fillSubjectDetail_signalFree (E : Env) (r : Request) (e : error) :
  lowerPackagesSignalFree E → fillSubjectDetail E r = Err e → signalFree e.
Proof.
  intros HE. unfold fillSubjectDetail.
  destruct (pip_GetSubjectPK E (subj_Type (req_Subject r)) (subj_ID (req_Subject r)))
    as [pk|e0] eqn:Hpk.
  - destruct (pip_GetSubjectDetail E pk) as [[departments groups]|e1] eqn:Hd;
      [discriminate|].
    intros [= <-]. apply signalFree_wrap. by eapply subject_detail_free.
  - intros [= <-]. apply signalFree_wrap. by eapply subject_pk_free.
Qed.

Lemma Eval_signalFree (E : Env) (r : Request) (withoutCache isPass : bool) (e : error) :
  lowerPackagesSignalFree E →
  Eval E r withoutCache = Returned (isPass, Some e) → signalFree e.
Proof.
  intros HE. unfold Eval.
  destruct (fillActionDetail E r) as [r1|ea] eqn:Ha.
  2: { pose proof (fillActionDetail_signalFree E r ea HE Ha) as Hfree.
       destruct (errors_Is (errorWrapf PDP "Eval" ea) sqlErrNoRows);
         intros [= _ <-]; [reflexivity | by apply signalFree_wrap]. }
  destruct (ValidateActionResource E r1); simpl; [|by intros [= _ <-]].
  destruct (fillSubjectDetail E r1) as [r2|es] eqn:Hs.
  2: { pose proof (fillSubjectDetail_signalFree E r1 es HE Hs) as Hfree.
       destruct (errors_Is es sqlErrNoRows); [discriminate|].
       intros [= _ <-]. by apply signalFree_wrap. }
  destruct (queryPolicies E (req_System r2) (req_Subject r2) (req_Action r2) withoutCache)
    as [policies|eq] eqn:Hq.
  2: { destruct (errors_Is eq ErrNoPolicies) eqn:Hsig; [discriminate|].
       intros [= _ <-]. by apply signalFree_wrap. }
  destruct (HasSingleLocalResource E r2).
  - destruct (GetSortedResources E r2) as [|resource rest]; [discriminate|].
    destruct (evaluation_EvalPolicies E (NewExprContext r2 resource) policies)
      as [[pass pid] [ev|]] eqn:Hev; [|discriminate].
    intros [= _ <-]. apply signalFree_wrap.
    eapply (evaluation_free E HE (NewExprContext r2 resource) policies). by rewrite Hev.
  - destruct (filterPoliciesByEvalResources E r2 policies) as [filtered|ef];
      [discriminate|].
    destruct (errors_Is ef ErrNoPolicies) eqn:Hsig; [discriminate|].
    intros [= _ <-]. by apply signalFree_wrap.
Qed.

Lemma queryFilterPolicies_signalFree (E : Env) (r : Request)
    (willCheckRemoteResource withoutCache : bool) (e : error) :
  lowerPackagesSignalFree E →
  queryFilterPolicies E r willCheckRemoteResource withoutCache = Err e → signalFree e.
Proof.
  intros HE. unfold queryFilterPolicies.
  destruct (fillActionDetail E r) as [r1|ea] eqn:Ha.
  2: { pose proof (fillActionDetail_signalFree E r ea HE Ha) as Hfree.
       destruct (errors_Is (errorWrapf PDP "queryFilterPolicies" ea) sqlErrNoRows);
         intros [= <-]; [reflexivity | by apply signalFree_wrap]. }
  destruct (willCheckRemoteResource && negb (ValidateActionRemoteResource E r1));
    [by intros [= <-]|].
  destruct (fillSubjectDetail E r1) as [r2|es] eqn:Hs.
  2: { pose proof (fillSubjectDetail_signalFree E r1 es HE Hs) as Hfree.
       destruct (errors_Is es sqlErrNoRows); [discriminate|].
       intros [= <-]. by apply signalFree_wrap. }
  destruct (queryPolicies E (req_System r2) (req_Subject r2) (req_Action r2) withoutCache)
    as [policies|eq] eqn:Hq.
  2: { destruct (errors_Is eq ErrNoPolicies) eqn:Hsig; [discriminate|].
       intros [= <-]. by apply signalFree_wrap. }
  destruct (filterPoliciesByEvalResources E r2 policies) as [filtered|ef];
    [discriminate|].
  destruct (errors_Is ef ErrNoPolicies) eqn:Hsig; [discriminate|].
  intros [= <-]. by apply signalFree_wrap.
Qed.

Lemma Query_signalFree (E : Env) (r : Request)
    (willCheckRemoteResource withoutCache : bool) (e : error) :
  lowerPackagesSignalFree E →
  Query E r willCheckRemoteResource withoutCache = Err e → signalFree e.
Proof.
  intros HE. unfold Query.
  destruct (queryFilterPolicies E r willCheckRemoteResource withoutCache)
    as [[r' policies]|eq] eqn:Hq.
  2: { intros [= <-]. apply signalFree_wrap.
       by eapply queryFilterPolicies_signalFree. }
  destruct (length policies =? 0)%nat; [discriminate|].
  destruct (GetQueryResourceTypes E r') as [rts|er] eqn:Hr.
  2: { intros [= <-]. apply signalFree_wrap. by eapply resource_types_free. }
  destruct (translate_PoliciesTranslate E policies rts) as [expr|et] eqn:Ht;
    [discriminate|].
  intros [= <-]. apply signalFree_wrap. by eapply translate_free.
Qed.

(** C6. [Eval] and [Query] never return an error that is [ErrNoPolicies],
    the packages they call being unable to return it; and where the signal
    is raised, by [queryPolicies] on an empty list of policies or by
    [filterPoliciesByEvalResources] on an empty list of survivors, [Eval]
    returns false with a nil error and [Query] the empty object with a nil
    error. *)
Theorem NoPolicies_not_surfaced (E : Env) (r : Request) (withoutCache : bool) :
  (lowerPackagesSignalFree E →
   (∀ isPass e, Eval E r withoutCache = Returned (isPass, Some e) →
                errors_Is e ErrNoPolicies = false)
   ∧ (∀ willCheckRemoteResource e,
        Query E r willCheckRemoteResource withoutCache = Err e →
        errors_Is e ErrNoPolicies = false))
  ∧ (∀ r1 r2 e,
       fillActionDetail E r = Ok r1 →
       fillSubjectDetail E r1 = Ok r2 →
       queryPolicies E (req_System r2) (req_Subject r2) (req_Action r2) withoutCache
       = Err e →
       errors_Is e ErrNoPolicies = true →
       (ValidateActionResource E r1 = true →
        Eval E r withoutCache = Returned (false, None))
       ∧ (∀ willCheckRemoteResource,
            (willCheckRemoteResource = true → ValidateActionRemoteResource E r1 = true) →
            Query E r willCheckRemoteResource withoutCache = Ok EmptyPolicies))
  ∧ (∀ r1 r2 policies e,
       fillActionDetail E r = Ok r1 →
       fillSubjectDetail E r1 = Ok r2 →
       queryPolicies E (req_System r2) (req_Subject r2) (req_Action r2) withoutCache
       = Ok policies →
       filterPoliciesByEvalResources E r2 policies = Err e →
       errors_Is e ErrNoPolicies = true →
       (ValidateActionResource E r1 = true →
        HasSingleLocalResource E r2 = false →
        Eval E r withoutCache = Returned (false, None))
       ∧ (∀ willCheckRemoteResource,
            (willCheckRemoteResource = true → ValidateActionRemoteResource E r1 = true) →
            Query E r willCheckRemoteResource withoutCache = Ok EmptyPolicies)).
Proof.
  split; [|split].
  - intros HE. split.
    + intros isPass e H. by eapply Eval_signalFree.
    + intros willCheck e H. by eapply Query_signalFree.
  - intros r1 r2 e Ha Hs Hq Hsig. split.
    + intros Hv. unfold Eval. rewrite Ha, Hv. simpl. by rewrite Hs, Hq, Hsig.
    + intros willCheck Hv. unfold Query, queryFilterPolicies. rewrite Ha.
      assert (Hc : willCheck && negb (ValidateActionRemoteResource E r1) = false).
      { destruct willCheck; [|reflexivity]. by rewrite Hv. }
      by rewrite Hc, Hs, Hq, Hsig.
  - intros r1 r2 policies e Ha Hs Hq Hf Hsig. split.
    + intros Hv Hsingle. unfold Eval. rewrite Ha, Hv. simpl.
      by rewrite Hs, Hq, Hsingle, Hf, Hsig.
    + intros willCheck Hv. unfold Query, queryFilterPolicies. rewrite Ha.
      assert (Hc : willCheck && negb (ValidateActionRemoteResource E r1) = false).
      { destruct willCheck; [|reflexivity]. by rewrite Hv. }
      by rewrite Hc, Hs, Hq, Hf, Hsig.
Qed.

Lemma knownSubjectEnv_signalFree : lowerPackagesSignalFree knownSubjectEnv.
Proof. split; intros; discriminate. Qed.

(** With a known subject that has no policy, [queryPolicies] raises the
    signal, and the entrance answers "no" and the empty object. *)
Lemma NoPolicies_not_surfaced_witness :
  fillActionDetail knownSubjectEnv exampleRequest = Ok filledRequest
  ∧ fillSubjectDetail knownSubjectEnv filledRequest = Ok subjectRequest
  ∧ queryPolicies knownSubjectEnv (req_System subjectRequest)
      (req_Subject subjectRequest) (req_Action subjectRequest) false
    = Err ErrNoPolicies
  ∧ errors_Is ErrNoPolicies ErrNoPolicies = true
  ∧ ValidateActionResource knownSubjectEnv filledRequest = true
  ∧ Eval knownSubjectEnv exampleRequest false = Returned (false, None)
  ∧ Query knownSubjectEnv exampleRequest true false = Ok EmptyPolicies
  ∧ (∀ isPass e, Eval knownSubjectEnv exampleRequest false = Returned (isPass, Some e) →
                 errors_Is e ErrNoPolicies = false).
Proof.
  split; [reflexivity|]. split; [reflexivity|]. split; [reflexivity|].
  split; [reflexivity|]. split; [reflexivity|].
  pose proof (NoPolicies_not_surfaced knownSubjectEnv exampleRequest false)
    as (Hfree & Hquery & _).
  destruct (Hquery filledRequest subjectRequest ErrNoPolicies eq_refl eq_refl eq_refl
              eq_refl) as [HEval HQuery].
  split; [exact (HEval eq_refl)|].
  split; [exact (HQuery true (fun _ => eq_refl))|].
  exact (proj1 (Hfree knownSubjectEnv_signalFree)).
Defined.

(** The signal raised by the filter: one policy, two resources, none
    satisfied. *)
Example Eval_no_survivor :
  Eval denyingEnv twoResourceRequest false = Returned (false, None)
  ∧ Query denyingEnv twoResourceRequest false false = Ok EmptyPolicies.
Proof. split; reflexivity. Qed.

End EntranceFacts.

(* ===================================================================== *)
(** * Part III: further properties of the code                            *)
(* ===================================================================== *)

Section PolicyCurdMore.
Import GoDefer Util PolicyCurd PolicyCurdViews.

(** *** [convertToServicePolicies] *)

(** The conversion succeeds exactly when every policy names an action of
    the map; it then gives one service policy per policy, in order, with the
    pk of the subject and the pk of the action. When some policy names an
    action that the map does not have, the error is [ErrActionNotExists]
    and nothing is converted. *)
Theorem convertToServicePolicies_all_or_nothing (subjectPK : Z)
    (policies : list Policy) (actionMap : gmap string Z) :
  (Forall (fun p => is_Some (actionMap !! p_ActionID p)) policies →
   convertToServicePolicies subjectPK policies actionMap
   = Ok (map (toServicePolicy subjectPK actionMap) policies))
  ∧ (Exists (fun p => actionMap !! p_ActionID p = None) policies →
     convertToServicePolicies subjectPK policies actionMap
     = Err (errorWrapf PRP "convertServicePolicies" ErrActionNotExists)).
Proof.
  split.
  - induction 1 as [|p policies [pk Hp] _ IH]; [reflexivity|].
    simpl. rewrite Hp, IH. unfold toServicePolicy at 2, mapGet. by rewrite Hp.
  - induction policies as [|p policies IH]; intros H; [by apply Exists_nil in H|].
    simpl. destruct (actionMap !! p_ActionID p) as [pk|] eqn:Hp; [|reflexivity].
    apply Exists_cons in H as [H|H]; [congruence|]. by rewrite IH.
Qed.

Lemma convertToServicePolicies_all_or_nothing_witness :
  Forall (fun p => is_Some (({[ "view" := 7%Z ]} : gmap string Z) !! p_ActionID p))
         [viewPolicy]
  ∧ convertToServicePolicies 1 [viewPolicy] {[ "view" := 7%Z ]}
    = Ok (map (toServicePolicy 1 {[ "view" := 7%Z ]}) [viewPolicy]).
Proof.
  assert (H : Forall (fun p => is_Some (({[ "view" := 7%Z ]} : gmap string Z)
                                          !! p_ActionID p)) [viewPolicy]).
  { repeat constructor. by exists 7%Z. }
  split; [exact H|].
  exact (proj1 (convertToServicePolicies_all_or_nothing 1 [viewPolicy]
                  {[ "view" := 7%Z ]}) H).
Defined.

(** *** [querySubjectActionForAlterPolicies] *)

Lemma actionPKMap_fold (actions : list ThinAction) (acc : gmap string Z) (id : string) :
  foldl (fun acc a => <[ta_ID a := ta_PK a]> acc) acc actions !! id
  = match last (List.filter (fun a => bool_decide (ta_ID a = id)) actions) with
    | Some a => Some (ta_PK a)
    | None => acc !! id
    end.
Proof.
  revert acc. induction actions as [|a actions IH]; intros acc; [reflexivity|].
  simpl. rewrite IH. case_bool_decide as Ha.
  - destruct (List.filter (fun a0 => bool_decide (ta_ID a0 = id)) actions)
      as [|b rest] eqn:Hf.
    + simpl. subst id. by rewrite lookup_insert_eq.
    + rewrite last_cons_cons. destruct (last (b :: rest)) eqn:Hl; [reflexivity|].
      by apply last_None in Hl.
  - destruct (last (List.filter (fun a0 => bool_decide (ta_ID a0 = id)) actions));
      [reflexivity|]. by rewrite lookup_insert_ne.
Qed.

Lemma resourceTypeSet_fold (actionPKMap : gmap string Z) (rows : list string)
    (acc : gset Z) (x : Z) :
  x ∈ foldl (fun acc t => {[ mapGet actionPKMap t ]} ∪ acc) acc rows
  ↔ x ∈ acc ∨ ∃ t, t ∈ rows ∧ x = mapGet actionPKMap t.
Proof.
  revert acc. induction rows as [|t rows IH]; intros acc; simpl.
  - split; [by left|]. intros [H|(t & Ht & _)]; [done|]. by apply elem_of_nil in Ht.
  - rewrite IH, elem_of_union, elem_of_singleton. split.
    + intros [[->|H]|(t' & Ht' & Hx)].
      * right. exists t. split; [left | done].
      * by left.
      * right. exists t'. split; [by right | done].
    + intros [H|(t' & Ht' & Hx)]; [by left; right|].
      apply elem_of_cons in Ht' as [->|Ht']; [by left; left|].
      right. by exists t'.
Qed.

(** When the three lookups succeed, the map gives for an action id the pk
    of the last listed action of that id, and nothing for an id that is not
    listed; the set holds, for every action resource type row, the pk the
    map gives for its action id. A row whose action is not listed puts the
    pk 0 in the set: the read of a Go map gives zero for a missing key. *)
Theorem querySubjectActionForAlterPolicies_maps (m : Services)
    (systemID subjectType subjectID : string) (subjectPK : Z)
    (actions : list ThinAction) (rows : list string) :
  subjectService_GetPK m subjectType subjectID = Ok subjectPK →
  actionService_ListThinActionBySystem m systemID = Ok actions →
  actionService_ListActionResourceTypeIDByActionSystem m systemID = Ok rows →
  ∃ actionPKMap set,
    querySubjectActionForAlterPolicies m systemID subjectType subjectID
    = Ok (subjectPK, actionPKMap, set)
    ∧ (∀ id, actionPKMap !! id
             = ta_PK <$> last (List.filter (fun a => bool_decide (ta_ID a = id)) actions))
    ∧ (∀ x, x ∈ set ↔ ∃ t, t ∈ rows ∧ x = mapGet actionPKMap t)
    ∧ (∀ t, t ∈ rows → (∀ a, a ∈ actions → ta_ID a ≠ t) → 0%Z ∈ set).
Proof.
  intros Hpk Hactions Hrows. unfold querySubjectActionForAlterPolicies.
  rewrite Hpk, Hactions, Hrows. eexists _, _. split; [reflexivity|].
  assert (Hmap : ∀ id,
    foldl (fun acc a => <[ta_ID a := ta_PK a]> acc) (∅ : gmap string Z) actions !! id
    = ta_PK <$> last (List.filter (fun a => bool_decide (ta_ID a = id)) actions)).
  { intros id. rewrite actionPKMap_fold.
    destruct (last (List.filter (fun a => bool_decide (ta_ID a = id)) actions));
      [reflexivity | apply lookup_empty]. }
  assert (Hset : ∀ x,
    x ∈ foldl (fun acc t =>
                 {[ mapGet (foldl (fun acc a => <[ta_ID a := ta_PK a]> acc)
                                  (∅ : gmap string Z) actions) t ]} ∪ acc)
              (∅ : gset Z) rows
    ↔ ∃ t, t ∈ rows
           ∧ x = mapGet (foldl (fun acc a => <[ta_ID a := ta_PK a]> acc)
                               (∅ : gmap string Z) actions) t).
  { intros x. rewrite resourceTypeSet_fold. rewrite elem_of_empty. tauto. }
  split; [exact Hmap|]. split; [exact Hset|].
  intros t Ht Hnone. apply Hset. exists t. split; [done|].
  unfold mapGet. rewrite Hmap.
  rewrite (filter_none (fun a => bool_decide (ta_ID a = t)) actions); [reflexivity|].
  intros a Ha. apply bool_decide_eq_false_2. apply Hnone. by apply list_elem_of_In.
Qed.

Lemma querySubjectActionForAlterPolicies_maps_witness :
  subjectService_GetPK workingServices "user" "u1" = Ok 1%Z
  ∧ actionService_ListThinActionBySystem workingServices "iam"
    = Ok [ {| ta_PK := 7; ta_System := "iam"; ta_ID := "view" |} ]
  ∧ actionService_ListActionResourceTypeIDByActionSystem workingServices "iam"
    = Ok ["view"; "edit"]
  ∧ ∃ actionPKMap set,
      querySubjectActionForAlterPolicies workingServices "iam" "user" "u1"
      = Ok (1%Z, actionPKMap, set)
      ∧ (∀ id, actionPKMap !! id
               = ta_PK <$> last (List.filter (fun a => bool_decide (ta_ID a = id))
                                   [ {| ta_PK := 7; ta_System := "iam"; ta_ID := "view" |} ]))
      ∧ (∀ x, x ∈ set ↔ ∃ t, t ∈ ["view"; "edit"] ∧ x = mapGet actionPKMap t)
      ∧ (∀ t, t ∈ ["view"; "edit"] →
              (∀ a, a ∈ [ {| ta_PK := 7; ta_System := "iam"; ta_ID := "view" |} ] →
                    ta_ID a ≠ t) →
              0%Z ∈ set).
Proof.
  split; [reflexivity|]. split; [reflexivity|]. split; [reflexivity|].
  exact (querySubjectActionForAlterPolicies_maps workingServices "iam" "user" "u1" 1%Z
           [ {| ta_PK := 7; ta_System := "iam"; ta_ID := "view" |} ] ["view"; "edit"]
           eq_refl eq_refl eq_refl).
Defined.

End PolicyCurdMore.

Section PolicyCurdEffects.
Import GoDefer Util PolicyCurd PolicyCurdViews.

Ltac go_steps :=
  unfold call, bind, defer, storageWrite, perform, ret,
    DeleteSystemSubjectPKsFromCache, BatchDeleteExpressionsFromCache;
  simpl.

(** *** [CreateAndDeleteTemplatePolicies] *)

(** The template policies of a subject are created and deleted in one
    write; the invalidation of the policy cache of the subject is deferred
    before the write, so it follows the write whether the write commits or
    fails. When the lookups or the conversion fail, nothing is written and
    nothing invalidated. *)
Theorem CreateAndDeleteTemplatePolicies_effect (m : Services)
    (systemID subjectType subjectID : string) (templateID : Z)
    (createPolicies : list Policy) (deletePolicyIDs : list Z) (w : World) :
  (∀ e,
     querySubjectActionForAlterPolicies m systemID subjectType subjectID = Err e →
     CreateAndDeleteTemplatePolicies m systemID subjectType subjectID templateID
       createPolicies deletePolicyIDs w
     = (Some (errorWrapf PRP "CreateAndDeleteTemplatePolicies" e), w))
  ∧ (∀ pk actionMap set e,
     querySubjectActionForAlterPolicies m systemID subjectType subjectID
     = Ok (pk, actionMap, set) →
     convertToServicePolicies pk createPolicies actionMap = Err e →
     CreateAndDeleteTemplatePolicies m systemID subjectType subjectID templateID
       createPolicies deletePolicyIDs w
     = (Some (errorWrapf PRP "CreateAndDeleteTemplatePolicies" e), w))
  ∧ (∀ pk actionMap set cps,
     querySubjectActionForAlterPolicies m systemID subjectType subjectID
     = Ok (pk, actionMap, set) →
     convertToServicePolicies pk createPolicies actionMap = Ok cps →
     CreateAndDeleteTemplatePolicies m systemID subjectType subjectID templateID
       createPolicies deletePolicyIDs w
     = (errorWrapf PRP "CreateAndDeleteTemplatePolicies"
          <$> policyService_CreateAndDeleteTemplatePolicies m pk templateID cps
                deletePolicyIDs set,
        writtenThenInvalidated w
          (CreateAndDeleteTemplatePoliciesW pk templateID cps deletePolicyIDs)
          (committed (policyService_CreateAndDeleteTemplatePolicies m pk templateID cps
                        deletePolicyIDs set))
          systemID pk)).
Proof.
  unfold CreateAndDeleteTemplatePolicies, writtenThenInvalidated.
  repeat split.
  - intros e ->. reflexivity.
  - intros pk actionMap set e -> ->. reflexivity.
  - intros pk actionMap set cps -> ->. go_steps.
    destruct (policyService_CreateAndDeleteTemplatePolicies m pk templateID cps
                deletePolicyIDs set); go_steps; by rewrite <- ?app_assoc.
Qed.

Lemma CreateAndDeleteTemplatePolicies_effect_witness :
  querySubjectActionForAlterPolicies failingServices "iam" "user" "u1"
  = Ok (1%Z, {[ "view" := 7%Z ]}, {[ 7%Z ]})
  ∧ convertToServicePolicies 1 [viewPolicy] {[ "view" := 7%Z ]}
    = Ok [toServicePolicy 1 {[ "view" := 7%Z ]} viewPolicy]
  ∧ CreateAndDeleteTemplatePolicies failingServices "iam" "user" "u1" 3 [viewPolicy] []
      cachedWorld
    = (Some (errorWrapf PRP "CreateAndDeleteTemplatePolicies" storageDown),
       writtenThenInvalidated cachedWorld
         (CreateAndDeleteTemplatePoliciesW 1 3
            [toServicePolicy 1 {[ "view" := 7%Z ]} viewPolicy] [])
         false "iam" 1).
Proof.
  assert (Hq : querySubjectActionForAlterPolicies failingServices "iam" "user" "u1"
               = Ok (1%Z, {[ "view" := 7%Z ]}, {[ 7%Z ]})).
  { unfold querySubjectActionForAlterPolicies. simpl.
    rewrite insert_empty. unfold mapGet. rewrite lookup_singleton_eq. simpl.
    by rewrite (right_id_L ∅ (∪)). }
  assert (Hc : convertToServicePolicies 1 [viewPolicy] {[ "view" := 7%Z ]}
               = Ok [toServicePolicy 1 {[ "view" := 7%Z ]} viewPolicy]).
  { simpl. rewrite lookup_singleton_eq. unfold toServicePolicy, mapGet. simpl.
    by rewrite lookup_singleton_eq. }
  split; [exact Hq|]. split; [exact Hc|].
  exact (proj2 (proj2 (CreateAndDeleteTemplatePolicies_effect failingServices
                         "iam" "user" "u1" 3 [viewPolicy] [] cachedWorld))
           1%Z {[ "view" := 7%Z ]} {[ 7%Z ]}
           [toServicePolicy 1 {[ "view" := 7%Z ]} viewPolicy] Hq Hc).
Defined.

(** *** The renewal of the policies of a subject *)

Lemma renewStep_filter_map (subjectPK : Z) (idExpiredAtMap : gmap Z Z)
    (ps acc : list QueryPolicy) :
  foldl (renewStep subjectPK idExpiredAtMap) acc ps
  = acc ++ map (renewed idExpiredAtMap)
             (List.filter (renewable subjectPK idExpiredAtMap) ps).
Proof.
  revert acc. induction ps as [|p ps IH]; intros acc; simpl; [by rewrite app_nil_r|].
  rewrite IH. unfold renewStep.
  change ((qp_SubjectPK p =? subjectPK)%Z
          && (qp_ExpiredAt p <? mapGet idExpiredAtMap (qp_PK p))%Z)
    with (renewable subjectPK idExpiredAtMap p).
  destruct (renewable subjectPK idExpiredAtMap p); [|reflexivity].
  simpl. by rewrite <- app_assoc.
Qed.

(** The policies handed to [UpdateExpiredAt] are the stored policies of
    the subject whose expiry is before the supplied one, in the order of
    the storage, each with the supplied expiry; no such policy is left out.
    Renewing again with the same values finds nothing to update. *)
Theorem renewedPolicies_exact (subjectPK : Z) (idExpiredAtMap : gmap Z Z)
    (ps : list QueryPolicy) :
  renewedPolicies subjectPK idExpiredAtMap ps
  = map (renewed idExpiredAtMap) (List.filter (renewable subjectPK idExpiredAtMap) ps)
  ∧ renewedPolicies subjectPK idExpiredAtMap
      (renewedPolicies subjectPK idExpiredAtMap ps) = [].
Proof.
  assert (H : ∀ l, renewedPolicies subjectPK idExpiredAtMap l
                   = map (renewed idExpiredAtMap)
                       (List.filter (renewable subjectPK idExpiredAtMap) l)).
  { intros l. unfold renewedPolicies. by rewrite renewStep_filter_map. }
  split; [apply H|].
  rewrite (H (renewedPolicies _ _ _)), (H ps).
  rewrite (filter_none (renewable subjectPK idExpiredAtMap)); [reflexivity|].
  intros u Hu. apply in_map_iff in Hu as (p & <- & _).
  unfold renewable, renewed. simpl. apply andb_false_iff. right.
  apply Z.ltb_irrefl.
Qed.

Lemma idExpiredAtMapOf_fold_last (policies : list PolicyPKExpiredAt) (acc : gmap Z Z)
    (pk : Z) :
  foldl (fun acc p => <[pe_PK p := pe_ExpiredAt p]> acc) acc policies !! pk
  = match lastSupplied policies pk with
    | Some v => Some v
    | None => acc !! pk
    end.
Proof.
  unfold lastSupplied.
  revert acc. induction policies as [|p policies IH]; intros acc; [reflexivity|].
  simpl. rewrite IH. destruct (Z.eqb_spec (pe_PK p) pk) as [Hp|Hp].
  - destruct (List.filter (fun p0 => (pe_PK p0 =? pk)%Z) policies) as [|q rest] eqn:Hf.
    + simpl. subst pk. by rewrite lookup_insert_eq.
    + rewrite last_cons_cons. destruct (last (q :: rest)) eqn:Hl; [reflexivity|].
      by apply last_None in Hl.
  - destruct (last (List.filter (fun p0 => (pe_PK p0 =? pk)%Z) policies));
      [reflexivity|]. simpl. by rewrite lookup_insert_ne.
Qed.

(** When a pk is supplied several times, the last expiry supplied for it
    is the one used; a pk that is not supplied reads as the expiry 0, so
    that a stored policy of that pk is renewed only if its expiry is
    negative. *)
Theorem idExpiredAtMapOf_last_wins (policies : list PolicyPKExpiredAt) (pk : Z) :
  idExpiredAtMapOf policies !! pk = lastSupplied policies pk
  ∧ (pk ∉ map pe_PK policies → mapGet (idExpiredAtMapOf policies) pk = 0%Z)
  ∧ (∀ before v,
       policies = before ++ [ {| pe_PK := pk; pe_ExpiredAt := v |} ] →
       mapGet (idExpiredAtMapOf policies) pk = v).
Proof.
  assert (H : idExpiredAtMapOf policies !! pk = lastSupplied policies pk).
  { unfold idExpiredAtMapOf. rewrite idExpiredAtMapOf_fold_last.
    destruct (lastSupplied policies pk); [reflexivity | apply lookup_empty]. }
  split; [exact H|]. split.
  - intros Hnot. unfold mapGet. rewrite H. unfold lastSupplied.
    rewrite (filter_none (fun p => (pe_PK p =? pk)%Z) policies); [reflexivity|].
    intros p Hp. apply Z.eqb_neq. intros Heq. apply Hnot.
    apply list_elem_of_In, in_map_iff. by exists p.
  - intros before v ->. unfold mapGet. rewrite H. unfold lastSupplied.
    rewrite List.filter_app. simpl. rewrite Z.eqb_refl.
    by rewrite last_snoc.
Qed.

(** *** [UpdateSubjectPoliciesExpiredAt], when a policy qualifies *)

(** With policies to renew, the systems of their actions are read first:
    if that fails, nothing is written and nothing invalidated. Else the
    renewed policies are written, and the policy cache of the subject is
    then invalidated for every one of those systems, whether the write
    committed or failed. *)
Theorem UpdateSubjectPoliciesExpiredAt_effect (m : Services)
    (subjectType subjectID : string) (policies : list PolicyPKExpiredAt)
    (subjectPK : Z) (ps : list QueryPolicy) (w : World) :
  subjectService_GetPK m subjectType subjectID = Ok subjectPK →
  policyService_ListQueryByPKs m (map pe_PK policies) = Ok ps →
  policies ≠ [] →
  renewedPolicies subjectPK (idExpiredAtMapOf policies) ps ≠ [] →
  (∀ e,
     queryPoliciesSystemSet m (renewedPolicies subjectPK (idExpiredAtMapOf policies) ps)
     = Err e →
     UpdateSubjectPoliciesExpiredAt m subjectType subjectID policies w
     = (Some (errorWrapf PRP "RenewExpiredAtByIDs" e), w))
  ∧ (∀ systemSet,
       queryPoliciesSystemSet m (renewedPolicies subjectPK (idExpiredAtMapOf policies) ps)
       = Ok systemSet →
       UpdateSubjectPoliciesExpiredAt m subjectType subjectID policies w
       = (errorWrapf PRP "RenewExpiredAtByIDs"
            <$> policyService_UpdateExpiredAt m
                  (renewedPolicies subjectPK (idExpiredAtMapOf policies) ps),
          renewedThenInvalidated w
            (renewedPolicies subjectPK (idExpiredAtMapOf policies) ps)
            (committed (policyService_UpdateExpiredAt m
                          (renewedPolicies subjectPK (idExpiredAtMapOf policies) ps)))
            (elements systemSet) subjectPK)).
Proof.
  intros Hpk Hps Hpol Hups. unfold UpdateSubjectPoliciesExpiredAt. rewrite Hpk.
  destruct policies as [|p0 policies]; [done|]. cbn [length Nat.eqb]. rewrite Hps.
  set (ups := renewedPolicies subjectPK (idExpiredAtMapOf (p0 :: policies)) ps) in *.
  destruct ups as [|u ups'] eqn:Hu; [done|]. cbn [length Nat.eqb].
  split.
  - intros e ->. reflexivity.
  - intros systemSet ->. unfold call, bind, defer, storageWrite, perform, ret. simpl.
    destruct (policyService_UpdateExpiredAt m (u :: ups')); simpl;
      rewrite batch_invalidation; unfold renewedThenInvalidated; simpl;
      by rewrite <- app_assoc.
Qed.

Lemma UpdateSubjectPoliciesExpiredAt_effect_witness :
  subjectService_GetPK failingServices "user" "u1" = Ok 1%Z
  ∧ policyService_ListQueryByPKs failingServices (map pe_PK exampleRenewal)
    = Ok storedPolicies
  ∧ exampleRenewal ≠ []
  ∧ renewedPolicies 1 (idExpiredAtMapOf exampleRenewal) storedPolicies ≠ []
  ∧ UpdateSubjectPoliciesExpiredAt failingServices "user" "u1" exampleRenewal cachedWorld
    = (Some (errorWrapf PRP "RenewExpiredAtByIDs" storageDown),
       renewedThenInvalidated cachedWorld
         (renewedPolicies 1 (idExpiredAtMapOf exampleRenewal) storedPolicies)
         false (elements ({[ "iam" ]} : gset string)) 1).
Proof.
  assert (Hne : renewedPolicies 1 (idExpiredAtMapOf exampleRenewal) storedPolicies ≠ []).
  { vm_compute. discriminate. }
  split; [reflexivity|]. split; [reflexivity|]. split; [discriminate|].
  split; [exact Hne|].
  refine (proj2 (UpdateSubjectPoliciesExpiredAt_effect failingServices "user" "u1"
                   exampleRenewal 1%Z storedPolicies cachedWorld eq_refl eq_refl _ Hne)
            {[ "iam" ]} _).
  - discriminate.
  - unfold queryPoliciesSystemSet; simpl; f_equal; apply (right_id_L ∅ (∪)).
Defined.

End PolicyCurdEffects.

Section EffectSubjectMore.
Import Util EffectSubject EffectSubjectViews.





(** The service of [getEffectSubjectPKs]. A subject without department is
    answered without asking for the groups of departments: the result is
    the same whatever that service would say. With a department, an error
    of the service is the error of the call, wrapped, and no partial list
    is returned. *)
Theorem getEffectSubjectPKs_failures
    (svc : list Z → Result (list SubjectGroup)) (now : Z) (subject : Subject) :
  (attr_departments (subj_Attribute subject) = Some [] →
   ∀ svc', getEffectSubjectPKs svc now subject = getEffectSubjectPKs svc' now subject)
  ∧ (∀ s G D e,
       attr_pk (subj_Attribute subject) = Some s →
       attr_groups (subj_Attribute subject) = Some G →
       attr_departments (subj_Attribute subject) = Some D →
       D ≠ [] → svc D = Err e →
       getEffectSubjectPKs svc now subject
       = Err (errorWrapf PRP "getEffectSubjectPKs" e)).
Proof.
  unfold getEffectSubjectPKs, GetPK, GetEffectGroupPKs, GetDepartmentPKs.
  split.
  - intros HD svc'. rewrite HD. reflexivity.
  - intros s G D e -> -> -> Hne Hsvc. destruct D as [|d D]; [done|].
    simpl. by rewrite Hsvc.
Qed.

Lemma getEffectSubjectPKs_failures_witness :
  (∀ svc',
     getEffectSubjectPKs failingListSubjectEffectGroups 100 (subjectWith 1 [] [])
     = getEffectSubjectPKs svc' 100 (subjectWith 1 [] []))
  ∧ getEffectSubjectPKs failingListSubjectEffectGroups 100 (subjectWith 1 [] [5%Z])
    = Err (errorWrapf PRP "getEffectSubjectPKs" (ErrorNew "cache is down")).
Proof.
  split.
  - exact (proj1 (getEffectSubjectPKs_failures failingListSubjectEffectGroups 100
                    (subjectWith 1 [] []))
             eq_refl).
  - apply (proj2 (getEffectSubjectPKs_failures failingListSubjectEffectGroups 100
                    (subjectWith 1 [] [5%Z]))
             1%Z [] [5%Z] (ErrorNew "cache is down")); [reflexivity..|discriminate|reflexivity].
Defined.

End EffectSubjectMore.

Section SubjectServiceMore.
Import GoDefer Util SubjectService SubjectServiceViews.

(** *** The plan of [bulkCreateOrUpdateSubjectMembers] *)

Lemma countType_fold_get (subjects : list DaoSubject) (tc : gmap string Z) :
  mapGet (foldl (fun tc s => countType (ds_Type s) tc) tc subjects) UserType
  = (mapGet tc UserType
     + Z.of_nat (length (List.filter (fun s => bool_decide (ds_Type s = UserType)) subjects)))%Z
  ∧ mapGet (foldl (fun tc s => countType (ds_Type s) tc) tc subjects) DepartmentType
    = (mapGet tc DepartmentType
       + Z.of_nat (length (List.filter (fun s => bool_decide (ds_Type s = DepartmentType))
                             subjects)))%Z.
Proof.
  revert tc. induction subjects as [|s subjects IH]; intros tc; simpl; [lia|].
  destruct (IH (countType (ds_Type s) tc)) as [IHu IHd]. rewrite IHu, IHd.
  unfold countType. case_bool_decide as Hu.
  - rewrite Hu. rewrite (bool_decide_eq_false_2 (UserType = DepartmentType)) by done.
    unfold mapGet. rewrite lookup_insert_eq, lookup_insert_ne by done. simpl. lia.
  - case_bool_decide as Hd.
    + unfold mapGet. rewrite lookup_insert_eq, lookup_insert_ne by done. simpl. lia.
    + simpl. lia.
Qed.

Lemma planStep_fold_views (parentPK : Z) (createIfNotExists : bool)
    (daoRelationMap : gmap Z SubjectRelation) (subjectExpiredAtMap : gmap string Z)
    (daoSubjects : list DaoSubject) (plan : Plan) :
  foldl (planStep parentPK createIfNotExists daoRelationMap subjectExpiredAtMap)
        plan daoSubjects
  = {| updateRelations :=
         updateRelations plan
         ++ omap (updateOf daoRelationMap subjectExpiredAtMap) daoSubjects;
       createRelations :=
         createRelations plan
         ++ omap (createOf parentPK createIfNotExists daoRelationMap subjectExpiredAtMap)
              daoSubjects;
       subjectPKWithExpiredAts :=
         subjectPKWithExpiredAts plan
         ++ omap (touchedOf createIfNotExists daoRelationMap subjectExpiredAtMap)
              daoSubjects;
       typeCount :=
         foldl (fun tc s => countType (ds_Type s) tc) (typeCount plan)
               (List.filter (toCreate createIfNotExists daoRelationMap) daoSubjects) |}.
Proof.
  revert plan. induction daoSubjects as [|s daoSubjects IH]; intros plan.
  - destruct plan. simpl. by rewrite !app_nil_r.
  - cbn [foldl]. rewrite IH. clear IH.
    unfold planStep. cbn [omap list_omap List.filter].
    unfold touchedOf, createOf, updateOf, toCreate, suppliedFor.
    destruct (daoRelationMap !! ds_PK s) as [daoRelation|].
    + destruct (sr_PolicyExpiredAt daoRelation
                <? mapGet subjectExpiredAtMap (subjectKey (ds_Type s) (ds_ID s)))%Z;
        simpl; by rewrite <- ?app_assoc.
    + destruct createIfNotExists; simpl; by rewrite <- ?app_assoc.
Qed.

(** Every listed subject is handled once, in the order of the list: a
    member whose stored expiry is before the supplied one is updated, a
    subject that is not a member is created when members may be created,
    with the group as parent and the supplied expiry, and the others are
    left alone. The rows of subject_system_group to rewrite are those of
    the updated and the created subjects; the returned counts are the numbers
    of created users and of created departments. *)
Theorem planOf_accounts (parentPK : Z) (createIfNotExists : bool)
    (daoRelationMap : gmap Z SubjectRelation) (subjectExpiredAtMap : gmap string Z)
    (daoSubjects : list DaoSubject) :
  let plan := planOf parentPK createIfNotExists daoRelationMap subjectExpiredAtMap
                daoSubjects in
  let created := List.filter (toCreate createIfNotExists daoRelationMap) daoSubjects in
  updateRelations plan = omap (updateOf daoRelationMap subjectExpiredAtMap) daoSubjects
  ∧ createRelations plan
    = omap (createOf parentPK createIfNotExists daoRelationMap subjectExpiredAtMap)
        daoSubjects
  ∧ subjectPKWithExpiredAts plan
    = omap (touchedOf createIfNotExists daoRelationMap subjectExpiredAtMap) daoSubjects
  ∧ length (subjectPKWithExpiredAts plan)
    = (length (updateRelations plan) + length (createRelations plan))%nat
  ∧ mapGet (typeCount plan) UserType
    = Z.of_nat (length (List.filter (fun s => bool_decide (ds_Type s = UserType)) created))
  ∧ mapGet (typeCount plan) DepartmentType
    = Z.of_nat (length (List.filter (fun s => bool_decide (ds_Type s = DepartmentType))
                          created)).
Proof.
  intros plan created. unfold plan, planOf. rewrite planStep_fold_views. simpl.
  split; [reflexivity|]. split; [reflexivity|]. split; [reflexivity|].
  split.
  - clear. induction daoSubjects as [|s l IH]; [reflexivity|].
    cbn [omap list_omap]. unfold touchedOf, createOf, updateOf, toCreate in *.
    destruct (daoRelationMap !! ds_PK s) as [daoRelation|].
    + destruct (sr_PolicyExpiredAt daoRelation
                <? suppliedFor subjectExpiredAtMap s)%Z; simpl; rewrite IH; lia.
    + destruct createIfNotExists; simpl; rewrite IH; lia.
  - destruct (countType_fold_get created (typeCount emptyPlan)) as [Hu Hd].
    split; [etransitivity; [exact Hu|] | etransitivity; [exact Hd|]]; reflexivity.
Qed.

Lemma planOf_without_creation (parentPK : Z)
    (daoRelationMap : gmap Z SubjectRelation) (subjectExpiredAtMap : gmap string Z)
    (daoSubjects : list DaoSubject) :
  createRelations (planOf parentPK false daoRelationMap subjectExpiredAtMap daoSubjects)
  = []
  ∧ typeCount (planOf parentPK false daoRelationMap subjectExpiredAtMap daoSubjects)
    = typeCount emptyPlan.
Proof.
  unfold planOf. rewrite planStep_fold_views. simpl.
  assert (Hnone : ∀ s, toCreate false daoRelationMap s = false).
  { intros s. unfold toCreate. by destruct (daoRelationMap !! ds_PK s). }
  split.
  - induction daoSubjects as [|s l IH]; [reflexivity|].
    cbn [omap list_omap]. unfold createOf at 1. by rewrite Hnone.
  - rewrite (filter_none (toCreate false daoRelationMap)); [reflexivity|].
    intros s _. apply Hnone.
Qed.

Ltac tx_steps := unfold call, bind, defer, txCall, perform, ret; simpl.

Ltac tx_cases :=
  let H := fresh "H" in
  intros H;
  repeat (apply elem_of_app in H as [H|H]);
  try (apply list_elem_of_singleton in H);
  first [ exact H | discriminate H ].

(** The renewal of the members creates no member:
    [UpdateMembersExpiredAt] never calls [BulkCreateWithTx], whatever the
    outcome of its steps, and what [bulkCreateOrUpdateSubjectMembers]
    counts without creation is zero users and zero departments. *)
Theorem UpdateMembersExpiredAt_creates_nothing (l : Managers) (_type id : string)
    (subjectWithExpiredAts : list SubjectWithExpiredAt) (log : TxLog) :
  (∀ relations,
     BulkCreateWithTx relations
       ∈ (UpdateMembersExpiredAt l _type id subjectWithExpiredAts log).2 →
     BulkCreateWithTx relations ∈ log)
  ∧ (∀ counts log',
       bulkCreateOrUpdateSubjectMembers l _type id subjectWithExpiredAts false log
       = (Ok counts, log') →
       counts = {[ UserType := 0%Z; DepartmentType := 0%Z ]}).
Proof.
  unfold UpdateMembersExpiredAt, bulkCreateOrUpdateSubjectMembers.
  destruct (manager_GetPK l _type id) as [parentPK|e]; [|split; [done | discriminate]].
  destruct (getDaoRelationMap l parentPK) as [daoRelationMap|e];
    [|split; [done | discriminate]].
  destruct (listDaoSubject l subjectWithExpiredAts) as [daoSubjects|e];
    [|split; [done | discriminate]].
  set (plan := planOf parentPK false daoRelationMap
                 (genSubjectExpiredAtMap subjectWithExpiredAts) daoSubjects).
  destruct (planOf_without_creation parentPK daoRelationMap
              (genSubjectExpiredAtMap subjectWithExpiredAts) daoSubjects)
    as [_ Hcount].
  fold plan in Hcount.
  tx_steps.
  destruct (database_GenerateDefaultDBTx l); simpl;
    [split; [intros relations; tx_cases | discriminate]|].
  destruct (relationManager_UpdateExpiredAtWithTx l (updateRelations plan)); simpl;
    [split; [intros relations; tx_cases | discriminate]|].
  destruct (bulkUpdateSubjectSystemGroup l parentPK (subjectPKWithExpiredAts plan));
    simpl; (split; [intros relations; tx_cases|]); [discriminate|].
  intros counts log' [= <- _]. exact Hcount.
Qed.

(** The calls of [bulkCreateOrUpdateSubjectMembers] on the transaction.
    Before the transaction is asked for (the group, its members or the
    subjects cannot be read), nothing is called. From then on the first
    call is [GenerateDefaultDBTx] and the last is [RollBackWithLog], which
    is deferred before the error of the former is looked at. When every
    step succeeds, the calls are the update of the expiries, the creation
    of the new members if there are some, the update of the system groups,
    and the roll back: the counts are returned and no commit is issued. *)
Theorem bulkCreateOrUpdateSubjectMembers_calls (l : Managers) (_type id : string)
    (subjectWithExpiredAts : list SubjectWithExpiredAt) (createIfNotExists : bool)
    (log : TxLog) :
  (∀ e, manager_GetPK l _type id = Err e →
        (bulkCreateOrUpdateSubjectMembers l _type id subjectWithExpiredAts
           createIfNotExists log).2 = log)
  ∧ (∀ parentPK daoRelationMap daoSubjects,
       manager_GetPK l _type id = Ok parentPK →
       getDaoRelationMap l parentPK = Ok daoRelationMap →
       listDaoSubject l subjectWithExpiredAts = Ok daoSubjects →
       let plan := planOf parentPK createIfNotExists daoRelationMap
                     (genSubjectExpiredAtMap subjectWithExpiredAts) daoSubjects in
       (∃ middle,
          (bulkCreateOrUpdateSubjectMembers l _type id subjectWithExpiredAts
             createIfNotExists log).2
          = log ++ GenerateDefaultDBTx :: middle ++ [RollBackWithLog])
       ∧ (database_GenerateDefaultDBTx l = None →
          relationManager_UpdateExpiredAtWithTx l (updateRelations plan) = None →
          relationManager_BulkCreateWithTx l (createRelations plan) = None →
          bulkUpdateSubjectSystemGroup l parentPK (subjectPKWithExpiredAts plan) = None →
          bulkCreateOrUpdateSubjectMembers l _type id subjectWithExpiredAts
            createIfNotExists log
          = (Ok (typeCount plan),
             log ++ successfulCalls parentPK createIfNotExists plan))).
Proof.
  split.
  - intros e He. unfold bulkCreateOrUpdateSubjectMembers. rewrite He. reflexivity.
  - intros parentPK daoRelationMap daoSubjects Hpk Hmap Hsubjects plan.
    unfold bulkCreateOrUpdateSubjectMembers. rewrite Hpk, Hmap, Hsubjects.
    fold plan. unfold successfulCalls. tx_steps. split.
    + destruct (database_GenerateDefaultDBTx l); simpl;
        [exists []; by rewrite <- app_assoc|].
      destruct (relationManager_UpdateExpiredAtWithTx l (updateRelations plan)); simpl;
        [eexists [_]; by rewrite <- !app_assoc|].
      destruct (createIfNotExists && negb (length (createRelations plan) =? 0)%nat);
        simpl.
      * destruct (relationManager_BulkCreateWithTx l (createRelations plan)); simpl;
          [eexists [_; _]; by rewrite <- !app_assoc|].
        destruct (bulkUpdateSubjectSystemGroup l parentPK
                    (subjectPKWithExpiredAts plan)); simpl;
          eexists [_; _; _]; by rewrite <- !app_assoc.
      * destruct (bulkUpdateSubjectSystemGroup l parentPK
                    (subjectPKWithExpiredAts plan)); simpl;
          eexists [_; _]; by rewrite <- !app_assoc.
    + intros -> -> Hc ->. simpl.
      destruct (createIfNotExists && negb (length (createRelations plan) =? 0)%nat);
        simpl; rewrite ?Hc; simpl; by rewrite <- !app_assoc.
Qed.

End SubjectServiceMore.

Section SubjectServiceMoreExamples.
Import GoDefer Util SubjectService SubjectServiceViews.

Lemma bulkCreateOrUpdateSubjectMembers_calls_witness :
  bulkCreateOrUpdateSubjectMembers additionManagers "group" "g1" exampleAddition true []
  = (Ok {[ UserType := 0%Z; DepartmentType := 1%Z ]},
     [ GenerateDefaultDBTx;
       UpdateExpiredAtWithTx [ {| srp_PK := 50; srp_PolicyExpiredAt := 700 |} ];
       BulkCreateWithTx
         [ {| sr_PK := 0; sr_SubjectPK := 3; sr_ParentPK := 9;
              sr_PolicyExpiredAt := 700 |} ];
       BulkUpdateSubjectSystemGroup 9
         [ {| spe_SubjectPK := 1; spe_ExpiredAt := 700 |};
           {| spe_SubjectPK := 3; spe_ExpiredAt := 700 |} ];
       RollBackWithLog ]).
Proof.
  exact (proj2 (proj2 (bulkCreateOrUpdateSubjectMembers_calls additionManagers
                         "group" "g1" exampleAddition true [])
                  9%Z
                  {[ 1%Z := {| sr_PK := 50; sr_SubjectPK := 1; sr_ParentPK := 9;
                               sr_PolicyExpiredAt := 500 |} ]}
                  [ {| ds_PK := 1; ds_Type := "user"; ds_ID := "u1" |};
                    {| ds_PK := 3; ds_Type := "department"; ds_ID := "d3" |} ]
                  eq_refl eq_refl eq_refl)
           eq_refl eq_refl eq_refl eq_refl).
Defined.

Lemma UpdateMembersExpiredAt_creates_nothing_witness :
  (∀ relations,
     BulkCreateWithTx relations
       ∉ (UpdateMembersExpiredAt additionManagers "group" "g1" exampleAddition []).2)
  ∧ (bulkCreateOrUpdateSubjectMembers additionManagers "group" "g1" exampleAddition
       false []).1
    = Ok {[ UserType := 0%Z; DepartmentType := 0%Z ]}.
Proof.
  split.
  - intros relations H.
    apply (proj1 (UpdateMembersExpiredAt_creates_nothing additionManagers "group" "g1"
                    exampleAddition [])) in H.
    by apply elem_of_nil in H.
  - exact (f_equal Ok
             (proj2 (UpdateMembersExpiredAt_creates_nothing additionManagers "group"
                       "g1" exampleAddition [])
                _ _ eq_refl)).
Defined.

End SubjectServiceMoreExamples.

Section PolicyCurdMoreExamples.
Import Util PolicyCurd PolicyCurdViews.

Lemma idExpiredAtMapOf_last_wins_witness :
  mapGet (idExpiredAtMapOf [ {| pe_PK := 1; pe_ExpiredAt := 5 |};
                             {| pe_PK := 1; pe_ExpiredAt := 7 |} ]) 2%Z = 0%Z
  ∧ mapGet (idExpiredAtMapOf [ {| pe_PK := 1; pe_ExpiredAt := 5 |};
                               {| pe_PK := 1; pe_ExpiredAt := 7 |} ]) 1%Z = 7%Z.
Proof.
  split.
  - apply (proj1 (proj2 (idExpiredAtMapOf_last_wins _ 2%Z))).
    apply (bool_decide_unpack _). vm_compute. exact I.
  - exact (proj2 (proj2 (idExpiredAtMapOf_last_wins _ 1%Z))
             [ {| pe_PK := 1; pe_ExpiredAt := 5 |} ] 7%Z eq_refl).
Defined.

End PolicyCurdMoreExamples.

Section SubjectSystemGroupFacts.
Import SubjectSystemGroup.

Lemma errors_Is_other (e a b : error) :
  (∀ layer function cause, a ≠ Wrapf layer function cause) →
  (∀ layer function cause, b ≠ Wrapf layer function cause) →
  a ≠ b → errors_Is e a = true → errors_Is e b = false.
Proof.
  intros Ha Hb Hab.
  induction e as [| | | | | |msg|layer function cause IH]; simpl; intros H;
    try (repeat case_bool_decide; congruence).
  destruct (bool_decide_reflect (Wrapf layer function cause = a)) as [Heq|_];
    [by destruct (Ha layer function cause)|].
  destruct (bool_decide_reflect (Wrapf layer function cause = b)) as [Heq|_];
    [by destruct (Hb layer function cause)|].
  by apply IH.
Qed.


Ltac break_match :=
  match goal with
  | |- context [match ?x with _ => _ end] =>
      lazymatch x with
      | context [match _ with _ => _ end] => fail
      | _ => destruct x eqn:?
      end
  end; cbn beta iota.





Lemma errors_Is_wrap_ErrNeedRetry (layer function : string) (e : error) :
  errors_Is (errorWrapf layer function e) ErrNeedRetry = errors_Is e ErrNeedRetry.
Proof. reflexivity. Qed.

(** *** The retry loops *)



(** *** One attempt *)

(** When the row is missing and is created, [doUpdateSubjectSystemGroup]
    does not return: it goes on with the record that the failed read
    returned, computes its new groups and calls [UpdateWithTx] on it; the
    outcome of the attempt is the one of that update. For
    [addOrUpdateSubjectSystemGroup], when that record has no groups, the
    groups of the update are those just created. *)
Theorem doUpdateSubjectSystemGroup_after_creation (l : Store) (systemID : string)
    (subjectPK groupPK expiredAt : Z) (f : gmap Z Z → Result (gmap Z Z)) (log : Log)
    (g0 : DaoSubjectSystemGroup) (e : error) (created : string) :
  manager_GetBySystemSubject l log systemID subjectPK = (g0, Some e) →
  errors_Is e sqlErrNoRows = true →
  jsoniter_MarshalToString l {[ groupPK := expiredAt ]} = Ok created →
  manager_CreateWithTx l (log ++ [GetBySystemSubject systemID subjectPK])
    {| ssg_SystemID := systemID; ssg_SubjectPK := subjectPK; ssg_Groups := created |}
  = None →
  database_IsMysqlDuplicateEntryError l None = false →
  (∀ groups,
     updateGroupsString l (ssg_Groups g0) f = Ok groups →
     doUpdateSubjectSystemGroup l systemID subjectPK groupPK expiredAt true f log
     = (match manager_UpdateWithTx l
                (log ++ [GetBySystemSubject systemID subjectPK;
                         CreateWithTx {| ssg_SystemID := systemID;
                                         ssg_SubjectPK := subjectPK;
                                         ssg_Groups := created |}])
                (withGroups g0 groups) with
        | Err err => Some (errorWrapf SubjectSVC "doUpdateSubjectSystemGroup" err)
        | Ok count => if (count =? 0)%Z then Some ErrNeedRetry else None
        end,
        log ++ [GetBySystemSubject systemID subjectPK;
                CreateWithTx {| ssg_SystemID := systemID; ssg_SubjectPK := subjectPK;
                                ssg_Groups := created |};
                UpdateWithTx (withGroups g0 groups)]))
  ∧ (ssg_Groups g0 = EmptyString →
     updateGroupsString l (ssg_Groups g0) (addOrUpdateFunc groupPK expiredAt)
     = Ok created).
Proof.
  intros Hget He Hmarshal Hcreate Hdup. split.
  - intros groups Hgroups.
    unfold doUpdateSubjectSystemGroup, createSubjectSystemGroup.
    rewrite Hget. simpl. rewrite He, Hmarshal, Hcreate, Hdup, Hgroups.
    rewrite <- !app_assoc. simpl.
    by destruct (manager_UpdateWithTx l _ (withGroups g0 groups)) as [count|err];
      [destruct (count =? 0)%Z|].
  - intros ->. unfold updateGroupsString, addOrUpdateFunc.
    by rewrite insert_empty.
Qed.

Lemma doUpdateSubjectSystemGroup_after_creation_witness :
  doUpdateSubjectSystemGroup emptyStore "bk_cmdb" 1 9 700 true (addOrUpdateFunc 9 700) []
  = (Some ErrNeedRetry,
     [ GetBySystemSubject "bk_cmdb" 1;
       CreateWithTx {| ssg_SystemID := "bk_cmdb"; ssg_SubjectPK := 1;
                       ssg_Groups := "g{}" |};
       UpdateWithTx {| ssg_SystemID := EmptyString; ssg_SubjectPK := 0;
                       ssg_Groups := "g{}" |} ]).
Proof.
  exact (proj1 (doUpdateSubjectSystemGroup_after_creation emptyStore "bk_cmdb" 1 9 700
                  (addOrUpdateFunc 9 700) []
                  {| ssg_SystemID := EmptyString; ssg_SubjectPK := 0;
                     ssg_Groups := EmptyString |}
                  sqlErrNoRows "g{}" eq_refl eq_refl eq_refl eq_refl eq_refl)
           "g{}" eq_refl).
Defined.

(** *** Removing a group that is not there *)

(** When the row of the subject is missing, or is there without the group,
    [removeSubjectSystemGroup] makes one attempt, which only reads, and
    returns an error that is [sql.ErrNoRows] in the first case and
    [ErrNoSubjectSystemGroup] in the second, under the wrappings of the two
    functions. *)
Theorem removeSubjectSystemGroup_absent (l : Store) (systemID : string)
    (subjectPK groupPK : Z) (log : Log) (g0 : DaoSubjectSystemGroup) :
  (∀ e,
     manager_GetBySystemSubject l log systemID subjectPK = (g0, Some e) →
     errors_Is e sqlErrNoRows = true →
     removeSubjectSystemGroup l systemID subjectPK groupPK log
     = (Some (errorWrapf SubjectSVC "removeSubjectSystemGroup"
                (errorWrapf SubjectSVC "doUpdateSubjectSystemGroup" e)),
        log ++ [GetBySystemSubject systemID subjectPK]))
  ∧ (∀ m,
       manager_GetBySystemSubject l log systemID subjectPK = (g0, None) →
       (ssg_Groups g0 = EmptyString ∧ m = ∅)
       ∨ (ssg_Groups g0 ≠ EmptyString
          ∧ jsoniter_UnmarshalFromString l (ssg_Groups g0) = Ok m) →
       m !! groupPK = None →
       removeSubjectSystemGroup l systemID subjectPK groupPK log
       = (Some (errorWrapf SubjectSVC "removeSubjectSystemGroup"
                  (errorWrapf SubjectSVC "doUpdateSubjectSystemGroup"
                     ErrNoSubjectSystemGroup)),
          log ++ [GetBySystemSubject systemID subjectPK])).
Proof.
  split.
  - intros e Hget He.
    assert (Hretry : errors_Is e ErrNeedRetry = false).
    { by apply (errors_Is_other e sqlErrNoRows ErrNeedRetry). }
    unfold removeSubjectSystemGroup, RetryCount, retry, doUpdateSubjectSystemGroup.
    rewrite Hget. cbn [andb]. cbn beta iota.
    by rewrite errors_Is_wrap_ErrNeedRetry, Hretry.
  - intros m Hget Hgroups Hm.
    assert (Hupdate : updateGroupsString l (ssg_Groups g0) (removeFunc groupPK)
                      = Err ErrNoSubjectSystemGroup).
    { unfold updateGroupsString, removeFunc.
      destruct Hgroups as [[-> ->] | [Hne ->]].
      - by rewrite lookup_empty.
      - destruct (ssg_Groups g0); [done|]. by rewrite Hm. }
    unfold removeSubjectSystemGroup, RetryCount, retry, doUpdateSubjectSystemGroup.
    rewrite Hget. cbn [andb]. cbn beta iota. by rewrite Hupdate.
Qed.

Lemma removeSubjectSystemGroup_absent_witness :
  removeSubjectSystemGroup emptyStore "bk_cmdb" 1 9 []
  = (Some (errorWrapf SubjectSVC "removeSubjectSystemGroup"
             (errorWrapf SubjectSVC "doUpdateSubjectSystemGroup" sqlErrNoRows)),
     [GetBySystemSubject "bk_cmdb" 1])
  ∧ removeSubjectSystemGroup filledStore "bk_cmdb" 1 9 []
    = (Some (errorWrapf SubjectSVC "removeSubjectSystemGroup"
               (errorWrapf SubjectSVC "doUpdateSubjectSystemGroup"
                  ErrNoSubjectSystemGroup)),
       [GetBySystemSubject "bk_cmdb" 1]).
Proof.
  split.
  - exact (proj1 (removeSubjectSystemGroup_absent emptyStore "bk_cmdb" 1 9 []
                    {| ssg_SystemID := EmptyString; ssg_SubjectPK := 0;
                       ssg_Groups := EmptyString |})
             sqlErrNoRows eq_refl eq_refl).
  - apply (proj2 (removeSubjectSystemGroup_absent filledStore "bk_cmdb" 1 9 []
                    {| ssg_SystemID := "bk_cmdb"; ssg_SubjectPK := 1;
                       ssg_Groups := "{}" |}) ∅);
      [reflexivity | right; split; [discriminate | reflexivity] | reflexivity].
Defined.

(** *** The loops over the subjects and the systems *)

Lemma forEach_all_pass {A} (body : A → Log → option error * Log)
    (calls : A → list Call) (items : list A) :
  (∀ item log, item ∈ items → body item log = (None, log ++ calls item)) →
  ∀ log, forEach body items log = (None, log ++ (item ← items; calls item)).
Proof.
  induction items as [|item items IH]; intros Hbody log; simpl.
  - by rewrite app_nil_r.
  - rewrite Hbody by left. rewrite IH.
    + by rewrite <- app_assoc.
    + intros item' log' Hin. apply Hbody. by right.
Qed.

(** [bulkDeleteSubjectSystemGroup] passes over the missing rows: when the
    storage has no row for any of the subjects in any of the systems of the
    group, it reads each of them once, subject by subject, writes nothing
    and returns nil. *)
Theorem bulkDeleteSubjectSystemGroup_passes_over_missing_rows (l : Store)
    (parentPK : Z) (subjectPKs : list Z) (systems : list string) (log : Log) :
  listGroupAuthSystem l log parentPK = Ok systems →
  (∀ log' systemID subjectPK,
     isError (manager_GetBySystemSubject l log' systemID subjectPK).2 sqlErrNoRows
     = true) →
  bulkDeleteSubjectSystemGroup l parentPK subjectPKs log
  = (None, log ++ ListGroupAuthSystem parentPK :: readsOf systems subjectPKs).
Proof.
  intros Hsystems Hmissing. unfold bulkDeleteSubjectSystemGroup. rewrite Hsystems.
  rewrite (forEach_all_pass _
             (fun subjectPK =>
                (fun system => GetBySystemSubject system subjectPK) <$> systems)).
  - by rewrite <- app_assoc.
  - intros subjectPK log1 _.
    rewrite (forEach_all_pass _ (fun system => [GetBySystemSubject system subjectPK])).
    + assert (Heq : (system ← systems; [GetBySystemSubject system subjectPK])
                    = (fun system => GetBySystemSubject system subjectPK) <$> systems).
      { clear. induction systems as [|s systems IH]; [done|]. simpl.
        by f_equal. }
      by rewrite Heq.
    + intros system log2 _.
      specialize (Hmissing log2 system subjectPK).
      destruct (manager_GetBySystemSubject l log2 system subjectPK) as [g0 [e|]] eqn:Hget;
        [|discriminate Hmissing].
      simpl in Hmissing.
      rewrite (proj1 (removeSubjectSystemGroup_absent l system subjectPK parentPK log2 g0)
                 e Hget Hmissing).
      cbn [isError]. rewrite !errors_Is_wrap_sqlErrNoRows, Hmissing. reflexivity.
Qed.

Lemma bulkDeleteSubjectSystemGroup_passes_over_missing_rows_witness :
  bulkDeleteSubjectSystemGroup emptyStore 9 [1%Z; 3%Z] []
  = (None,
     [ ListGroupAuthSystem 9;
       GetBySystemSubject "bk_cmdb" 1; GetBySystemSubject "bk_job" 1;
       GetBySystemSubject "bk_cmdb" 3; GetBySystemSubject "bk_job" 3 ]).
Proof.
  apply (bulkDeleteSubjectSystemGroup_passes_over_missing_rows emptyStore 9
           [1%Z; 3%Z] ["bk_cmdb"; "bk_job"] []); [reflexivity|].
  intros log' systemID subjectPK. reflexivity.
Defined.

(** *** The rows that are touched *)

Lemma extendsBy_refl (P : Call → Prop) (log : Log) : extendsBy P log log.
Proof. exists []. by rewrite app_nil_r. Qed.

Lemma extendsBy_trans (P : Call → Prop) (log1 log2 log3 : Log) :
  extendsBy P log1 log2 → extendsBy P log2 log3 → extendsBy P log1 log3.
Proof.
  intros (a & -> & Ha) (b & -> & Hb). exists (a ++ b).
  split; [by rewrite app_assoc | by apply Forall_app].
Qed.

Lemma extendsBy_mono (P Q : Call → Prop) (log log' : Log) :
  (∀ c, P c → Q c) → extendsBy P log log' → extendsBy Q log log'.
Proof.
  intros HPQ (a & -> & Ha). exists a. split; [reflexivity|].
  eapply Forall_impl; [exact Ha | exact HPQ].
Qed.

Lemma retry_extendsBy (P : Call → Prop) (errorWrapf : error → error)
    (attempt : Log → option error * Log) :
  (∀ log, extendsBy P log (attempt log).2) →
  ∀ count err log, extendsBy P log (retry errorWrapf attempt count err log).2.
Proof.
  intros Hattempt count. induction count as [|count IH]; intros err log; simpl.
  - apply extendsBy_refl.
  - specialize (Hattempt log). destruct (attempt log) as [[e|] log1]; [|exact Hattempt].
    destruct (errors_Is e ErrNeedRetry); [|exact Hattempt].
    eapply extendsBy_trans; [exact Hattempt | apply IH].
Qed.

Lemma forEach_extendsBy {A} (P : Call → Prop) (body : A → Log → option error * Log)
    (items : list A) :
  (∀ item log, item ∈ items → extendsBy P log (body item log).2) →
  ∀ log, extendsBy P log (forEach body items log).2.
Proof.
  induction items as [|item items IH]; intros Hbody log; simpl.
  - apply extendsBy_refl.
  - pose proof (Hbody item log ltac:(left)) as Hitem.
    destruct (body item log) as [[e|] log1]; [exact Hitem|].
    eapply extendsBy_trans; [exact Hitem|]. apply IH.
    intros item' log' Hin. apply Hbody. by right.
Qed.

Lemma forEach_error {A} (Q : error → Prop) (body : A → Log → option error * Log)
    (items : list A) :
  (∀ item log e, (body item log).1 = Some e → Q e) →
  ∀ log e, (forEach body items log).1 = Some e → Q e.
Proof.
  intros Hbody. induction items as [|item items IH]; intros log e; simpl.
  - discriminate.
  - pose proof (Hbody item log) as Hitem.
    destruct (body item log) as [[e'|] log1]; [|apply IH].
    intros [= <-]. by apply Hitem.
Qed.

Lemma doUpdateSubjectSystemGroup_extendsBy (P : Call → Prop) (l : Store)
    (systemID : string) (subjectPK groupPK expiredAt : Z) (createIfNotExists : bool)
    (f : gmap Z Z → Result (gmap Z Z)) (log : Log) :
  P (GetBySystemSubject systemID subjectPK) →
  (createIfNotExists = true →
   ∀ groups, P (CreateWithTx {| ssg_SystemID := systemID; ssg_SubjectPK := subjectPK;
                                ssg_Groups := groups |})) →
  (∀ g, P (UpdateWithTx g)) →
  extendsBy P log
    (doUpdateSubjectSystemGroup l systemID subjectPK groupPK expiredAt
       createIfNotExists f log).2.
Proof.
  intros Hget Hcreate Hupdate.
  unfold doUpdateSubjectSystemGroup, createSubjectSystemGroup.
  destruct createIfNotExists; cbn [andb];
    repeat break_match; simpl; rewrite <- ?app_assoc; simpl;
    eexists; (split; [reflexivity|]); repeat constructor; auto.
Qed.

(** [bulkUpdateSubjectSystemGroup] first lists the systems of the group.
    If that fails, it calls nothing else. Otherwise every row that it
    reads or creates is the row of one of the given subjects in one of those
    systems; and whatever error it returns is wrapped by the function. *)
Theorem bulkUpdateSubjectSystemGroup_scope (l : Store) (parentPK : Z)
    (subjects : list SubjectService.SubjectPKWithExpiredAt) (log : Log) :
  match listGroupAuthSystem l log parentPK with
  | Err err =>
      bulkUpdateSubjectSystemGroup l parentPK subjects log
      = (Some (errorWrapf SubjectSVC "bulkUpdateSubjectSystemGroup" err),
         log ++ [ListGroupAuthSystem parentPK])
  | Ok systems =>
      extendsBy (withinScope systems (SubjectService.spe_SubjectPK <$> subjects))
        (log ++ [ListGroupAuthSystem parentPK])
        (bulkUpdateSubjectSystemGroup l parentPK subjects log).2
  end
  ∧ (∀ e, (bulkUpdateSubjectSystemGroup l parentPK subjects log).1 = Some e →
          ∃ cause, e = errorWrapf SubjectSVC "bulkUpdateSubjectSystemGroup" cause).
Proof.
  unfold bulkUpdateSubjectSystemGroup.
  destruct (listGroupAuthSystem l log parentPK) as [systems|err]; split;
    [| |reflexivity|intros e [= <-]; by eexists].
  - apply forEach_extendsBy. intros subject log1 Hsubject.
    apply forEach_extendsBy. intros system log2 Hsystem.
    assert (Hscope : extendsBy
              (withinScope systems (SubjectService.spe_SubjectPK <$> subjects)) log2
              (addOrUpdateSubjectSystemGroup l system
                 (SubjectService.spe_SubjectPK subject) parentPK
                 (SubjectService.spe_ExpiredAt subject) log2).2).
    { apply retry_extendsBy. intros log3.
      apply doUpdateSubjectSystemGroup_extendsBy; simpl; [|intros _ groups|done];
        (split; [exact Hsystem | apply list_elem_of_fmap; by exists subject]). }
    by destruct (addOrUpdateSubjectSystemGroup l system _ parentPK _ log2) as [[e|] log3].
  - apply (forEach_error (fun e => ∃ cause,
             e = errorWrapf SubjectSVC "bulkUpdateSubjectSystemGroup" cause)).
    intros subject log1.
    apply (forEach_error (fun e => ∃ cause,
             e = errorWrapf SubjectSVC "bulkUpdateSubjectSystemGroup" cause)).
    intros system log2 e.
    destruct (addOrUpdateSubjectSystemGroup l system _ parentPK _ log2) as [[e'|] log3];
      [|discriminate].
    intros [= <-]. by eexists.
Qed.

(** [bulkDeleteSubjectSystemGroup] reads only rows of the given subjects in
    the systems of the group, and never creates a row. *)
Theorem bulkDeleteSubjectSystemGroup_scope (l : Store) (parentPK : Z)
    (subjectPKs : list Z) (log : Log) :
  match listGroupAuthSystem l log parentPK with
  | Err err =>
      bulkDeleteSubjectSystemGroup l parentPK subjectPKs log
      = (Some (errorWrapf SubjectSVC "bulkDeleteSubjectSystemGroup" err),
         log ++ [ListGroupAuthSystem parentPK])
  | Ok systems =>
      extendsBy (fun c => withinScope systems subjectPKs c ∧ isCreate c = false)
        (log ++ [ListGroupAuthSystem parentPK])
        (bulkDeleteSubjectSystemGroup l parentPK subjectPKs log).2
  end.
Proof.
  unfold bulkDeleteSubjectSystemGroup.
  destruct (listGroupAuthSystem l log parentPK) as [systems|err]; [|reflexivity].
  apply forEach_extendsBy. intros subjectPK log1 HsubjectPK.
  apply forEach_extendsBy. intros system log2 Hsystem.
  assert (Hscope : extendsBy
            (fun c => withinScope systems subjectPKs c ∧ isCreate c = false) log2
            (removeSubjectSystemGroup l system subjectPK parentPK log2).2).
  { apply retry_extendsBy. intros log3.
    apply doUpdateSubjectSystemGroup_extendsBy; simpl; [done|discriminate|done]. }
  destruct (removeSubjectSystemGroup l system subjectPK parentPK log2) as [[e|] log3];
    [|exact Hscope].
  cbn [isError]. by destruct (errors_Is e sqlErrNoRows || errors_Is e ErrNoSubjectSystemGroup).
Qed.

End SubjectSystemGroupFacts.

Section ModelChangeEventFacts.
Import ModelChangeEvent.

(** [BulkCreate] does not pass the pk of an event on: the rows handed to
    the manager have the pk 0, one for each event and in the same order, so
    that events which differ by their pks only are created alike. When the
    rows stored for a status are these rows with pks of the storage,
    [ListByStatus] returns the events that were given, with those pks. *)
Theorem BulkCreate_then_ListByStatus (l : Manager)
    (modelChangeEvents : list ModelChangeEvent) :
  Forall (fun row => dao_PK row = 0%Z) (dbModelChangeEventsOf modelChangeEvents)
  ∧ length (dbModelChangeEventsOf modelChangeEvents) = length modelChangeEvents
  ∧ (∀ others,
       withoutPK <$> others = withoutPK <$> modelChangeEvents →
       BulkCreate l others = BulkCreate l modelChangeEvents)
  ∧ (∀ status stored,
       manager_ListByStatus l status = Ok stored →
       rowWithoutPK <$> stored = dbModelChangeEventsOf modelChangeEvents →
       ∃ listed,
         ListByStatus l status = Ok listed
         ∧ withoutPK <$> listed = withoutPK <$> modelChangeEvents
         ∧ mce_PK <$> listed = dao_PK <$> stored).
Proof.
  split; [|split; [|split]].
  - unfold dbModelChangeEventsOf. apply Forall_forall. intros row Hrow.
    apply list_elem_of_In, in_map_iff in Hrow as (event & <- & _). reflexivity.
  - unfold dbModelChangeEventsOf. apply length_map.
  - intros others Hsame. unfold BulkCreate.
    assert (Hrows : dbModelChangeEventsOf others
                    = dbModelChangeEventsOf modelChangeEvents).
    { revert modelChangeEvents Hsame.
      induction others as [|o others IH]; intros [|e events] Hsame;
        try discriminate Hsame; [reflexivity|].
      injection Hsame as Htype Hstatus Hsystem Hmt Hmid Hmpk Hrest.
      simpl. rewrite (IH events Hrest).
      by rewrite Htype, Hstatus, Hsystem, Hmt, Hmid, Hmpk. }
    by rewrite Hrows.
  - intros status stored Hlist Hstored. unfold ListByStatus. rewrite Hlist.
    eexists. split; [reflexivity|]. clear Hlist. split.
    + revert modelChangeEvents Hstored.
      induction stored as [|s stored IH]; intros [|e events] Hstored;
        try discriminate Hstored; [reflexivity|].
      injection Hstored as Htype Hstatus Hsystem Hmt Hmid Hmpk Hrest.
      cbn. rewrite (IH events Hrest). f_equal. unfold withoutPK. simpl.
      by rewrite Htype, Hstatus, Hsystem, Hmt, Hmid, Hmpk.
    + clear. induction stored as [|s stored IH]; [reflexivity|].
      cbn. by f_equal.
Qed.

Lemma BulkCreate_then_ListByStatus_witness :
  ∃ listed,
    ListByStatus exampleManager "pending" = Ok listed
    ∧ withoutPK <$> listed = withoutPK <$> [exampleEvent]
    ∧ mce_PK <$> listed = [11%Z].
Proof.
  exact (proj2 (proj2 (proj2 (BulkCreate_then_ListByStatus exampleManager
                                [exampleEvent])))
           "pending" _ eq_refl eq_refl).
Defined.

End ModelChangeEventFacts.

Section EntranceMore.
Import Translate EffectSubject PDP PDPExt.

(** *** An action that is not known *)

(** When the lookup of the action reports [sql.ErrNoRows], the answer of
    every entrance is the invalid action, whatever the subject, the
    policies and the resources are: [Eval] and [QueryAuthPolicies] return
    [ErrInvalidAction] itself, [Query] and [QueryByExtResources] return it
    under their own wrapping. *)
Theorem unknown_action (E : Env) (X : Remote) (r : Request)
    (extResources : list ExtResource) (willCheckRemoteResource withoutCache : bool)
    (e : error) :
  pip_GetActionDetail E (req_System r) (act_ID (req_Action r)) = Err e →
  errors_Is e sqlErrNoRows = true →
  Eval E r withoutCache = Returned (false, Some ErrInvalidAction)
  ∧ QueryAuthPolicies E r withoutCache = Err ErrInvalidAction
  ∧ Query E r willCheckRemoteResource withoutCache
    = Err (errorWrapf PDP "Query" ErrInvalidAction)
  ∧ QueryByExtResources E X r extResources withoutCache
    = Err (errorWrapf PDP "QueryByExtResources" ErrInvalidAction).
Proof.
  intros Haction He.
  assert (Hfill : fillActionDetail E r
                  = Err (errorWrapf "Request" "fillActionDetail" e)).
  { unfold fillActionDetail. by rewrite Haction. }
  assert (Hquery : ∀ w, queryFilterPolicies E r w withoutCache = Err ErrInvalidAction).
  { intros w. unfold queryFilterPolicies. rewrite Hfill.
    by rewrite !errors_Is_wrap_sqlErrNoRows, He. }
  split; [|split; [|split]].
  - unfold Eval. rewrite Hfill. by rewrite !errors_Is_wrap_sqlErrNoRows, He.
  - unfold QueryAuthPolicies. rewrite Hfill.
    by rewrite !errors_Is_wrap_sqlErrNoRows, He.
  - unfold Query. by rewrite Hquery.
  - unfold QueryByExtResources. by rewrite Hquery.
Qed.

Lemma unknown_action_witness :
  Eval unknownActionEnv exampleRequest false = Returned (false, Some ErrInvalidAction)
  ∧ QueryAuthPolicies unknownActionEnv exampleRequest false = Err ErrInvalidAction
  ∧ Query unknownActionEnv exampleRequest true false
    = Err (errorWrapf PDP "Query" ErrInvalidAction)
  ∧ QueryByExtResources unknownActionEnv exampleRemote exampleRequest
      exampleExtResources false
    = Err (errorWrapf PDP "QueryByExtResources" ErrInvalidAction).
Proof.
  exact (unknown_action unknownActionEnv exampleRemote exampleRequest
           exampleExtResources true false sqlErrNoRows eq_refl eq_refl).
Defined.

(** *** [Eval] and the policies that [Query] works on *)






(** *** [QueryByExtResources] *)

Lemma remoteInstances_kinds (X : Remote) (extResources : list ExtResource)
    (policies : list AuthPolicy) (answer : list ExtResourceWithAttribute) :
  remoteInstances X extResources policies = Ok answer →
  answerKind <$> answer = extKind <$> extResources.
Proof.
  revert answer. induction extResources as [|x rest IH]; intros answer; simpl.
  - by intros [= <-].
  - destruct (queryExtResourceAttrs X x policies) as [rr|err]; [|discriminate].
    destruct (remoteInstances X rest policies) as [l|err]; [|discriminate].
    intros [= <-]. cbn. f_equal. by apply IH.
Qed.

Lemma remoteInstances_answers (X : Remote) (extResources : list ExtResource)
    (policies : list AuthPolicy) :
  (∀ resource, resource ∈ extResources →
     ∃ rr, queryExtResourceAttrs X resource policies = Ok rr) →
  ∃ answer, remoteInstances X extResources policies = Ok answer.
Proof.
  induction extResources as [|x rest IH]; intros Hall; simpl; [by eexists|].
  destruct (Hall x) as [rr ->]; [by left|].
  destruct IH as [answer ->]; [|by eexists].
  intros resource Hin. apply Hall. by right.
Qed.

(** The expression that [QueryByExtResources] returns is the one that
    [Query] returns without the check of the remote resources, and its
    answer has one entry for each of the resources asked for, in their
    order and with their systems and types; without a policy, the entries
    hold the ids asked for, each without attributes. Conversely, when
    [Query] returns an expression and the attributes of every resource can
    be queried, [QueryByExtResources] returns that expression. *)
Theorem QueryByExtResources_agrees_with_Query (E : Env) (X : Remote) (r : Request)
    (extResources : list ExtResource) (withoutCache : bool) :
  (∀ expr answer,
     QueryByExtResources E X r extResources withoutCache = Ok (expr, answer) →
     Query E r false withoutCache = Ok expr
     ∧ answerKind <$> answer = extKind <$> extResources
     ∧ (expr = EmptyPolicies → answer = bareInstances <$> extResources))
  ∧ (∀ expr,
       Query E r false withoutCache = Ok expr →
       (∀ resource policies, resource ∈ extResources →
          ∃ rr, queryExtResourceAttrs X resource policies = Ok rr) →
       ∃ answer,
         QueryByExtResources E X r extResources withoutCache = Ok (expr, answer)).
Proof.
  unfold QueryByExtResources, Query.
  destruct (queryFilterPolicies E r false withoutCache) as [[r' policies]|err];
    [|split; [intros expr answer H | intros expr H]; discriminate H].
  destruct (length policies =? 0)%nat.
  - split.
    + intros expr answer [= <- <-]. split; [reflexivity|]. split; [|done].
      clear. induction extResources as [|x rest IH]; [reflexivity|].
      cbn. by f_equal.
    + intros expr [= <-] _. by eexists.
  - split.
    + intros expr answer.
      destruct (remoteInstances X extResources policies) as [l|err] eqn:Hl;
        [|discriminate].
      destruct (GetQueryResourceTypes E r') as [qrt|err]; [|discriminate].
      destruct (translate_PoliciesTranslate E policies qrt) as [e|err]; [|discriminate].
      intros [= <- <-]. split; [reflexivity|]. split; [|discriminate].
      by apply (remoteInstances_kinds X extResources policies).
    + intros expr Hquery Hall.
      destruct (remoteInstances_answers X extResources policies) as [answer ->].
      { intros resource Hin. by apply Hall. }
      destruct (GetQueryResourceTypes E r') as [qrt|err]; [|discriminate].
      destruct (translate_PoliciesTranslate E policies qrt) as [e|err]; [|discriminate].
      injection Hquery as <-. by eexists.
Qed.

Lemma QueryByExtResources_agrees_with_Query_witness :
  ∃ answer,
    QueryByExtResources allowingEnv exampleRemote twoResourceRequest
      exampleExtResources false
    = Ok (Expr anyExpr, answer).
Proof.
  apply (proj2 (QueryByExtResources_agrees_with_Query allowingEnv exampleRemote
                  twoResourceRequest exampleExtResources false)
           (Expr anyExpr) eq_refl).
  intros resource policies _. by eexists.
Defined.

End EntranceMore.

Section DatabaseFacts.
Import GoDefer Database.
Context {Arg Args : Type}.

Lemma execAll_calls (db : DB Arg Args) (argSlice : list Arg) (fr : Frame (Log Arg)) :
  ∃ k,
    (k ≤ length argSlice)%nat
    ∧ (execAll db argSlice fr).2
      = {| world := world fr ++ (StmtExec <$> take k argSlice);
           deferred := deferred fr |}
    ∧ ((execAll db argSlice fr).1 = None → k = length argSlice).
Proof.
  revert fr. induction argSlice as [|arg argSlice IH]; intros [w ds].
  - exists 0%nat. simpl. by rewrite app_nil_r.
  - cbn [execAll]. unfold bind, dbCall, perform. cbn [world deferred].
    destruct (stmt_Exec db w arg) as [e|].
    + exists 1%nat. simpl. split; [lia|]. split; [|discriminate].
      by destruct argSlice.
    + destruct (IH {| world := w ++ [StmtExec arg]; deferred := ds |})
        as (k & Hk & Hlog & Hnone).
      exists (S k). simpl. split; [lia|]. split.
      * etransitivity; [exact Hlog|]. cbn [world deferred]. by rewrite <- app_assoc.
      * intros H. by rewrite (Hnone H).
Qed.

Lemma filter_isExec_fmap (args : list Arg) :
  List.filter isExec (StmtExec <$> args) = StmtExec <$> args.
Proof. induction args as [|a args IH]; [reflexivity|]. cbn. by f_equal. Qed.

Ltac not_among H :=
  repeat first
    [ discriminate H
    | apply elem_of_nil in H; destruct H
    | apply elem_of_app in H as [H|H]
    | apply elem_of_cons in H as [H|H]
    | apply list_elem_of_fmap in H as (? & H & _) ].

(** [SqlxBulkUpdate] commits all or nothing. The commit is called only
    once the statement was prepared, the rows were read from the argument
    and every one of them was executed, in order, and the statement closed;
    a nil result means that the commit was called. The rows executed are
    always the first rows, up to the first that fails. The roll back is
    deferred only once the transaction has begun, and the last call is the
    one of [logSlowSQL]. *)
Theorem SqlxBulkUpdate_commits_all_or_nothing (db : DB Arg Args) (query : string)
    (args : Args) (log : Log Arg) :
  ∃ added,
    (SqlxBulkUpdate db query args log).2 = log ++ added
    ∧ (Commit ∈ added
       ↔ ∃ argSlice,
           util_ToSlice db args = Ok argSlice
           ∧ added = committedCalls query argSlice)
    ∧ ((SqlxBulkUpdate db query args log).1 = None → Commit ∈ added)
    ∧ (RollBackWithLog ∈ added ↔ db_Beginx db log = None)
    ∧ (∀ argSlice,
         util_ToSlice db args = Ok argSlice →
         ∃ k, List.filter isExec added = StmtExec <$> take k argSlice)
    ∧ last added = Some (LogSlowSQL query).
Proof.
  unfold SqlxBulkUpdate, bulkInsertTimer, sqlxBulkUpdateFunc, SqlxBulkUpdateWithTx,
    bulkInsertWithTxTimer, sqlxBulkUpdateWithTx, call, bind, defer, dbCall, perform,
    ret.
  cbn [world deferred foldl].
  destruct (db_Beginx db log) as [e|] eqn:Hbegin; cbn [world deferred foldl fst snd].
  { exists [Beginx; LogSlowSQL query]. rewrite <- app_assoc.
    split; [reflexivity|]. split; [|split; [|split; [|split]]].
    - split; [intros H; not_among H | intros (argSlice & _ & H); discriminate H].
    - discriminate.
    - split; [intros H; not_among H | discriminate].
    - intros argSlice _. exists 0%nat. by rewrite take_0.
    - reflexivity. }
  destruct (tx_PrepareNamed db (log ++ [Beginx]) query) as [e|] eqn:Hprepare;
    cbn [world deferred foldl fst snd].
  { exists [Beginx; PrepareNamed query; LogSlowSQL query; RollBackWithLog;
            LogSlowSQL query].
    rewrite <- !app_assoc. split; [reflexivity|]. split; [|split; [|split; [|split]]].
    - split; [intros H; not_among H|].
      intros (argSlice & _ & H). destruct argSlice; discriminate H.
    - discriminate.
    - split; [done|]. intros _. do 3 right. by left.
    - intros argSlice _. exists 0%nat. by rewrite take_0.
    - reflexivity. }
  destruct (util_ToSlice db args) as [argSlice|e] eqn:Hslice;
    cbn [world deferred foldl fst snd].
  2:{ exists [Beginx; PrepareNamed query; StmtClose; LogSlowSQL query; RollBackWithLog;
              LogSlowSQL query].
      rewrite <- !app_assoc. split; [reflexivity|]. split; [|split; [|split; [|split]]].
      - split; [intros H; not_among H | intros (argSlice & H & _); discriminate H].
      - discriminate.
      - split; [done|]. intros _. do 4 right. by left.
      - discriminate.
      - reflexivity. }
  destruct (execAll_calls db argSlice
              {| world := (log ++ [Beginx]) ++ [PrepareNamed query];
                 deferred := [fun log0 => log0 ++ [StmtClose]] |})
    as (k & Hk & Hlog & Hnone).
  destruct (execAll db argSlice _) as [[e|] fr]; cbn [fst snd] in Hlog, Hnone;
    subst fr; cbn [world deferred foldl fst snd].
  - exists ([Beginx; PrepareNamed query] ++ (StmtExec <$> take k argSlice)
            ++ [StmtClose; LogSlowSQL query; RollBackWithLog; LogSlowSQL query]).
    rewrite <- !app_assoc. split; [reflexivity|]. split; [|split; [|split; [|split]]].
    + assert (Hno : Commit ∉ [Beginx; PrepareNamed query]
                      ++ (StmtExec <$> take k argSlice)
                      ++ [StmtClose; LogSlowSQL query; RollBackWithLog;
                          LogSlowSQL query]).
      { intros H. not_among H. }
      split; [done|]. intros (argSlice' & _ & H). destruct Hno. rewrite H.
      unfold committedCalls. apply elem_of_app. right. apply elem_of_app. right.
      do 2 right. by left.
    + discriminate.
    + split; [done|]. intros _. apply elem_of_app. right. apply elem_of_app. right.
      do 2 right. by left.
    + intros argSlice' [= <-]. exists k.
      rewrite !List.filter_app, filter_isExec_fmap. simpl. by rewrite app_nil_r.
    + by rewrite !last_app.
  - rewrite (Hnone eq_refl), firstn_all.
    exists (committedCalls query argSlice). unfold committedCalls.
    rewrite <- !app_assoc. split; [reflexivity|]. split; [|split; [|split; [|split]]].
    + split; [intros _; by exists argSlice|]. intros _.
      apply elem_of_app. right. apply elem_of_app. right. do 2 right. by left.
    + intros _. apply elem_of_app. right. apply elem_of_app. right.
      do 2 right. by left.
    + split; [done|]. intros _. apply elem_of_app. right. apply elem_of_app. right.
      do 3 right. by left.
    + intros argSlice' [= <-]. exists (length argSlice).
      rewrite firstn_all, !List.filter_app, filter_isExec_fmap. simpl.
      by rewrite app_nil_r.
    + by rewrite !last_app.
Qed.

End DatabaseFacts.

Section DatabaseExamples.
Import Database.

(** The rows 11 and 12 are committed; with the row 13, nothing is. *)
Example SqlxBulkUpdate_runs :
  SqlxBulkUpdate exampleDB "UPDATE" [11%Z; 12%Z] []
  = (None, committedCalls "UPDATE" [11%Z; 12%Z])
  ∧ SqlxBulkUpdate exampleDB "UPDATE" [11%Z; 13%Z; 12%Z] []
    = (Some (ErrorNew "deadlock"),
       [ Beginx; PrepareNamed "UPDATE"; StmtExec 11%Z; StmtExec 13%Z; StmtClose;
         LogSlowSQL "UPDATE"; RollBackWithLog; LogSlowSQL "UPDATE" ]).
Proof. split; reflexivity. Qed.

End DatabaseExamples.

Section SubjectMembersFacts.
Import GoDefer Util SubjectService SubjectMembers.

Lemma typeCount_inserted (userCount departmentCount : Z) :
  <[ DepartmentType := departmentCount ]>
    (<[ UserType := userCount ]>
       ({[ UserType := 0%Z; DepartmentType := 0%Z ]} : gmap string Z))
  = {[ UserType := userCount; DepartmentType := departmentCount ]}.
Proof.
  apply map_eq. intros k.
  destruct (decide (k = DepartmentType)) as [->|Hd].
  - rewrite lookup_insert_eq, lookup_insert_ne by done. by rewrite lookup_singleton_eq.
  - rewrite lookup_insert_ne by done.
    destruct (decide (k = UserType)) as [->|Hu].
    + by rewrite !lookup_insert_eq.
    + rewrite !lookup_insert_ne by done. by rewrite !lookup_singleton_ne.
Qed.

Ltac delete_steps :=
  unfold call, bind, defer, deleteMembers, deleteCall, perform, ret;
  cbn [world deferred foldl fst snd length Nat.eqb negb].

Ltac not_called H :=
  repeat first
    [ discriminate H
    | apply elem_of_nil in H; destruct H
    | apply elem_of_app in H as [H|H]
    | apply elem_of_cons in H as [H|H] ].

Ltac called := apply list_elem_of_In; simpl; tauto.

Ltac stopped_early :=
  eexists; (split; [rewrite <- ?app_assoc; reflexivity|]);
  (split; [reflexivity|]); (split; [reflexivity|]);
  (split; [intros pk H; not_called H|]);
  (split; [discriminate | intros H; not_called H]).

(** The calls of [BulkDeleteSubjectMembers]. Nothing is called when the
    pk of the group cannot be read. Otherwise the first call asks for the
    transaction and the last rolls it back, the roll back being deferred
    before the error of the former is looked at, and no removal is called
    with an empty list of pks. The commit is called only after the members
    of both types and their rows of subject_system_group were removed with
    success, and counts are returned only if the commit was called: the
    calls are then those of a complete removal, and the counts are those of
    the two removals, zero for a type without member to remove. *)
Theorem BulkDeleteSubjectMembers_calls (l : Managers) (d : DeleteManagers)
    (_type id : string) (members : list (string * string)) (log : DeleteLog) :
  (∀ e, manager_GetPK l _type id = Err e →
        BulkDeleteSubjectMembers l d _type id members log
        = (Err (errorWrapf SubjectSVC "BulkDeleteSubjectMember" e), log))
  ∧ (∀ parentPK,
       manager_GetPK l _type id = Ok parentPK →
       ∃ added,
         (BulkDeleteSubjectMembers l d _type id members log).2 = log ++ added
         ∧ head added = Some Begin
         ∧ last added = Some RollBack
         ∧ (∀ pk, BulkDeleteByMembersWithTx pk [] ∉ added)
         ∧ (∀ counts,
              (BulkDeleteSubjectMembers l d _type id members log).1 = Ok counts →
              Commit ∈ added)
         ∧ (Commit ∈ added →
            ∃ userPKs departmentPKs userCount departmentCount,
              splitSubjectToPK l members = Ok (userPKs, departmentPKs)
              ∧ removedCount d parentPK userPKs = Ok userCount
              ∧ removedCount d parentPK departmentPKs = Ok departmentCount
              ∧ bulkDeleteSubjectSystemGroup d parentPK (userPKs ++ departmentPKs) = None
              ∧ added = removalCalls parentPK userPKs departmentPKs
              ∧ (BulkDeleteSubjectMembers l d _type id members log).1
                = match tx_Commit d with
                  | Some e => Err (errorWrapf SubjectSVC "BulkDeleteSubjectMember" e)
                  | None => Ok {[ UserType := userCount;
                                  DepartmentType := departmentCount ]}
                  end)).
Proof.
  unfold BulkDeleteSubjectMembers. split.
  - intros e ->. reflexivity.
  - intros parentPK ->. delete_steps.
    destruct (database_GenerateDefaultDBTx l) as [e|]; delete_steps; [stopped_early|].
    destruct (splitSubjectToPK l members) as [[userPKs departmentPKs]|e] eqn:Hsplit;
      delete_steps; [|stopped_early].
    destruct userPKs as [|u userPKs]; delete_steps;
      [|destruct (relationManager_BulkDeleteByMembersWithTx d parentPK (u :: userPKs))
          as [userCount|e] eqn:Husers; delete_steps; [|stopped_early]];
      (destruct departmentPKs as [|dp departmentPKs]; delete_steps;
       [|destruct (relationManager_BulkDeleteByMembersWithTx d parentPK
                     (dp :: departmentPKs))
           as [departmentCount|e] eqn:Hdepartments; delete_steps; [|stopped_early]]);
      (destruct (bulkDeleteSubjectSystemGroup d parentPK _) as [e|] eqn:Hgroups;
       delete_steps; [stopped_early|]);
      (destruct (tx_Commit d) as [e|]; delete_steps;
       eexists; (split; [rewrite <- ?app_assoc; reflexivity|]);
       (split; [reflexivity|]); (split; [reflexivity|]);
       (split; [intros pk H; not_called H|]);
       (split; [intros counts _; called|]);
       intros _; do 4 eexists;
       (split; [reflexivity|]);
       (split; [first [reflexivity | exact Husers]|]);
       (split; [first [reflexivity | exact Hdepartments]|]);
       (split; [exact Hgroups|]);
       (split; [reflexivity|]);
       rewrite ?typeCount_inserted; reflexivity).
Qed.

Lemma BulkDeleteSubjectMembers_calls_witness :
  ∃ added,
    (BulkDeleteSubjectMembers exampleManagers removingManagers "group" "g1"
       [("user", "u1")] []).2 = [] ++ added
    ∧ head added = Some Begin
    ∧ last added = Some RollBack
    ∧ Commit ∈ added.
Proof.
  destruct (proj2 (BulkDeleteSubjectMembers_calls exampleManagers removingManagers
                     "group" "g1" [("user", "u1")] [])
              _ eq_refl)
    as (added & Hlog & Hhead & Hlast & _ & Hcommit & _).
  exists added. split; [exact Hlog|]. split; [exact Hhead|]. split; [exact Hlast|].
  by eapply Hcommit.
Defined.

End SubjectMembersFacts.

Section SubjectMemberListFacts.
Import Util SubjectService SubjectMemberList.

Lemma subjectMap_fold_last (subjects : list DaoSubject) (acc : gmap Z DaoSubject)
    (pk : Z) :
  foldl (fun subjectMap s => <[ ds_PK s := s ]> subjectMap) acc subjects !! pk
  = match lastListed subjects pk with
    | Some s => Some s
    | None => acc !! pk
    end.
Proof.
  unfold lastListed.
  revert acc. induction subjects as [|s subjects IH]; intros acc; [reflexivity|].
  simpl. rewrite IH. destruct (Z.eqb_spec (ds_PK s) pk) as [Hs|Hs].
  - destruct (List.filter (fun s0 => (ds_PK s0 =? pk)%Z) subjects) as [|q rest] eqn:Hf.
    + simpl. subst pk. by rewrite lookup_insert_eq.
    + rewrite last_cons_cons. destruct (last (q :: rest)) eqn:Hl; [reflexivity|].
      by apply last_None in Hl.
  - destruct (last (List.filter (fun s0 => (ds_PK s0 =? pk)%Z) subjects));
      [reflexivity|]. simpl. by rewrite lookup_insert_ne.
Qed.

Lemma memberOf_renders (subjects : list DaoSubject) (relations : list MemberRelation) :
  Forall2 (renders subjects) relations
    (map (memberOf (foldl (fun subjectMap s => <[ ds_PK s := s ]> subjectMap) ∅ subjects))
         relations).
Proof.
  induction relations as [|r relations IH]; [constructor|].
  cbn [map]. constructor; [|exact IH].
  unfold renders, memberOf. rewrite subjectMap_fold_last, lookup_empty.
  by destruct (lastListed subjects (mr_SubjectPK r)).
Qed.

(** [ListMember] returns one member for each relation of the group, in the
    order of the relations and with their pks, expiries and dates. The type
    and the id of a member are those of the last listed subject that has
    the pk of the relation; a relation whose subject is not listed is not
    dropped and is no error: its member has an empty type and an empty
    id. A group without relation is answered without asking for any
    subject. *)
Theorem ListMember_members (l : ListManagers) (_type id : string) (pk : Z)
    (daoRelations : list MemberRelation) :
  manager_GetPK l _type id = Ok pk →
  relationManager_ListMember l pk = Ok daoRelations →
  (daoRelations = [] → ListMember l _type id = Ok [])
  ∧ (∀ subjects,
       manager_ListByPKs l (map mr_SubjectPK daoRelations) = Ok subjects →
       ∃ members,
         ListMember l _type id = Ok members
         ∧ Forall2 (renders subjects) daoRelations members)
  ∧ (∀ e,
       daoRelations ≠ [] →
       manager_ListByPKs l (map mr_SubjectPK daoRelations) = Err e →
       ListMember l _type id = Err (errorWrapf SubjectSVC "ListMember" e)).
Proof.
  intros Hpk Hrelations. unfold ListMember. rewrite Hpk, Hrelations.
  split; [by intros ->|]. split.
  - intros subjects Hsubjects.
    destruct daoRelations as [|r daoRelations]; [exists []; by split|].
    unfold convertToSubjectMembers, getSubjectMapByPKs.
    cbn [map] in *. rewrite Hsubjects.
    eexists. split; [reflexivity|].
    apply (memberOf_renders subjects (r :: daoRelations)).
  - intros e Hne Hsubjects. destruct daoRelations as [|r daoRelations]; [done|].
    unfold convertToSubjectMembers, getSubjectMapByPKs.
    cbn [map] in *. by rewrite Hsubjects.
Qed.

Lemma ListMember_members_witness :
  ∃ members,
    ListMember orphanManagers "group" "g1" = Ok members
    ∧ Forall2 (renders [ {| ds_PK := 1; ds_Type := "user"; ds_ID := "u1" |} ])
        [ {| mr_PK := 50; mr_SubjectPK := 1; mr_PolicyExpiredAt := 500; mr_CreateAt := 10 |};
          {| mr_PK := 51; mr_SubjectPK := 2; mr_PolicyExpiredAt := 900; mr_CreateAt := 20 |} ]
        members.
Proof.
  exact (proj1 (proj2 (ListMember_members orphanManagers "group" "g1" 9 _
                         eq_refl eq_refl))
           _ eq_refl).
Defined.

End SubjectMemberListFacts.

Section HandlerFacts.
Import Handler.

Lemma collectGroupPKs_closed (h : Services) (subjects : list (string * string)) :
  collectGroupPKs h subjects
  = (map (fun s => GetSubjectPK s.1 s.2)
         (List.filter (fun s => bool_decide (s.1 = GroupType)) subjects),
     foundGroupPKs h subjects).
Proof.
  induction subjects as [|s subjects IH]; [reflexivity|].
  cbn [collectGroupPKs]. rewrite IH. unfold foundGroupPKs.
  cbn [List.filter omap list_omap].
  destruct (bool_decide (s.1 = GroupType)); [|reflexivity].
  by destruct (cacheimpls_GetSubjectPK h s.1 s.2) as [gPK [e|]].
Qed.

Lemma deletions_no_lookup (subjects : list (string * string)) :
  Forall (fun e => isLookup e = false)
    (flat_map (fun s => [DeleteSubjectPK s.1 s.2; DeleteLocalSubjectPK s.1 s.2]) subjects).
Proof.
  induction subjects as [|s subjects IH]; [constructor|].
  simpl. by repeat constructor.
Qed.

(** [BatchDeleteSubjects], on a body that is valid. The pk of every group
    among the subjects is looked up, once and in order, before the subjects
    are deleted, and nothing is looked up afterwards. When the deletion
    fails, the answer is the system error and no cache is touched.
    When it succeeds, the answer is a success, whatever happens to the
    caches: the cache of the deleted pks is cleared, the pk of every
    subject is removed from both caches of pks, and the policy cache is
    cleared, if the systems can be listed, for exactly the groups whose pk
    was found before the deletion. *)
Theorem BatchDeleteSubjects_caches (h : Services) (subjects : list (string * string)) :
  (common_ValidateArray h subjects).1 = true →
  ∃ after,
    BatchDeleteSubjects h (Ok subjects)
    = map (fun s => GetSubjectPK s.1 s.2)
          (List.filter (fun s => bool_decide (s.1 = GroupType)) subjects)
      ++ BulkDelete subjects :: after
    ∧ Forall (fun e => isLookup e = false) after
    ∧ List.filter isResponse after = [default (Respond SuccessJSONResponse) (last after)]
    ∧ match svc_BulkDelete h subjects with
      | Err err =>
          after = [Respond (SystemErrorJSONResponse
                              (errorWrapf "Handler" "BatchDeleteSubjects" err))]
      | Ok pks =>
          last after = Some (Respond SuccessJSONResponse)
          ∧ BatchDeleteSubjectCache pks ∈ after
          ∧ (∀ s, s ∈ subjects →
                  DeleteSubjectPK s.1 s.2 ∈ after ∧ DeleteLocalSubjectPK s.1 s.2 ∈ after)
          ∧ (∀ systemIDs groupPKs,
               BatchDeleteSystemSubjectPKsFromCache systemIDs groupPKs ∈ after
               ↔ systemSVC_ListAll h = Ok systemIDs
                 ∧ groupPKs = foundGroupPKs h subjects)
      end.
Proof.
  intros Hvalid. unfold BatchDeleteSubjects.
  destruct (common_ValidateArray h subjects) as [[|] message]; [|discriminate Hvalid].
  rewrite collectGroupPKs_closed.
  eexists. split; [reflexivity|].
  destruct (svc_BulkDelete h subjects) as [pks|err].
  2:{ split; [by repeat constructor|]. done. }
  assert (Hfilter : ∀ l : list (string * string),
            List.filter isResponse
              (flat_map (fun s => [DeleteSubjectPK s.1 s.2; DeleteLocalSubjectPK s.1 s.2]) l)
            = []).
  { intros l. induction l as [|s l IH]; [reflexivity | exact IH]. }
  assert (Hlast : last (BatchDeleteSubjectCache pks
                        :: flat_map (fun s => [DeleteSubjectPK s.1 s.2;
                                               DeleteLocalSubjectPK s.1 s.2]) subjects
                        ++ deleteGroupPKPolicyCache h (foundGroupPKs h subjects)
                        ++ [Respond SuccessJSONResponse])
                  = Some (Respond SuccessJSONResponse)).
  { change (BatchDeleteSubjectCache pks :: ?l) with ([BatchDeleteSubjectCache pks] ++ l).
    by rewrite !last_app. }
  split; [|split; [|split; [exact Hlast|split; [by left|split]]]].
  - constructor; [reflexivity|]. apply Forall_app. split; [apply deletions_no_lookup|].
    unfold deleteGroupPKPolicyCache.
    destruct (systemSVC_ListAll h); by repeat constructor.
  - rewrite Hlast. cbn [List.filter isResponse default].
    rewrite !List.filter_app, Hfilter. unfold deleteGroupPKPolicyCache.
    by destruct (systemSVC_ListAll h).
  - intros s Hs. split; right; apply elem_of_app; left;
      apply list_elem_of_In, in_flat_map; exists s;
      (split; [by apply list_elem_of_In | simpl; tauto]).
  - intros systemIDs groupPKs. unfold deleteGroupPKPolicyCache. split.
    + intros H. apply elem_of_cons in H as [H|H]; [discriminate H|].
      apply elem_of_app in H as [H|H].
      { apply list_elem_of_In, in_flat_map in H as (s & _ & H).
        simpl in H. by destruct H as [H|[H|H]]. }
      apply elem_of_app in H as [H|H].
      * apply elem_of_cons in H as [H|H]; [discriminate H|].
        destruct (systemSVC_ListAll h) as [systems|err].
        -- apply list_elem_of_singleton in H. by injection H as -> ->.
        -- by apply elem_of_nil in H.
      * apply list_elem_of_singleton in H. discriminate H.
    + intros [-> ->]. right. apply elem_of_app. right. apply elem_of_app. left.
      right. by left.
Qed.

Lemma BatchDeleteSubjects_caches_witness :
  ∃ after,
    BatchDeleteSubjects exampleServices
      (Ok [("group", "g1"); ("user", "u1"); ("group", "g2")])
    = [GetSubjectPK "group" "g1"; GetSubjectPK "group" "g2"]
      ++ BulkDelete [("group", "g1"); ("user", "u1"); ("group", "g2")] :: after
    ∧ BatchDeleteSystemSubjectPKsFromCache ["bk_cmdb"] [9%Z] ∈ after.
Proof.
  destruct (BatchDeleteSubjects_caches exampleServices
              [("group", "g1"); ("user", "u1"); ("group", "g2")] eq_refl)
    as (after & Htrace & _ & _ & _ & _ & _ & Hpolicy).
  exists after. split; [exact Htrace|]. by apply Hpolicy.
Defined.

End HandlerFacts.

Section GroupsStringFacts.
Import SubjectSystemGroup.

(** [updateGroupsString] on the groups of a row, when the text written for
    the groups with the group added reads back as those groups: adding the
    group writes that text, adding it again writes the same text, and
    removing it afterwards writes the groups without it, which are the
    groups of the start when the group was not among them. *)
Theorem updateGroupsString_add_then_remove (l : Store) (groups groups' : string)
    (m : gmap Z Z) (groupPK expiredAt : Z) :
  decodeGroups l groups = Ok m →
  jsoniter_MarshalToString l (<[ groupPK := expiredAt ]> m) = Ok groups' →
  decodeGroups l groups' = Ok (<[ groupPK := expiredAt ]> m) →
  updateGroupsString l groups (addOrUpdateFunc groupPK expiredAt) = Ok groups'
  ∧ updateGroupsString l groups' (addOrUpdateFunc groupPK expiredAt) = Ok groups'
  ∧ updateGroupsString l groups' (removeFunc groupPK)
    = jsoniter_MarshalToString l (delete groupPK m)
  ∧ (m !! groupPK = None →
     updateGroupsString l groups' (removeFunc groupPK) = jsoniter_MarshalToString l m).
Proof.
  intros Hread Hwrite Hback.
  assert (Hupdate : ∀ text f, updateGroupsString l text f
                              = match decodeGroups l text with
                                | Err err => Err err
                                | Ok m0 => match f m0 with
                                           | Err err => Err err
                                           | Ok m1 => jsoniter_MarshalToString l m1
                                           end
                                end).
  { intros text f. unfold updateGroupsString, decodeGroups. by destruct text. }
  rewrite !Hupdate, Hread, Hback. unfold addOrUpdateFunc, removeFunc.
  rewrite insert_insert_eq, lookup_insert_eq, delete_insert_eq.
  split; [exact Hwrite|]. split; [exact Hwrite|]. split; [reflexivity|].
  intros Hm. by rewrite delete_id.
Qed.

Lemma updateGroupsString_add_then_remove_witness :
  updateGroupsString tableStore "{}" (addOrUpdateFunc 9 700) = Ok "{9:700}"
  ∧ updateGroupsString tableStore "{9:700}" (addOrUpdateFunc 9 700) = Ok "{9:700}"
  ∧ updateGroupsString tableStore "{9:700}" (removeFunc 9) = Ok "{}".
Proof.
  destruct (updateGroupsString_add_then_remove tableStore "{}" "{9:700}" ∅ 9 700
              eq_refl eq_refl eq_refl) as (Hadd & Hagain & _ & Hremove).
  split; [exact Hadd|]. split; [exact Hagain|]. exact (Hremove eq_refl).
Defined.

End GroupsStringFacts.

Section SystemGroupUpdates.
Import SubjectSystemGroup.






End SystemGroupUpdates.
